(** * Pagify SDK: the registry, the composer, the host adapter and the
    cross-context protocol of [src/pagify.js], as a shallow embedding.

    Conventions of the model.
    - A JavaScript [Number] that only ever holds a counter or a page count is
      an integer of [Z]; the arithmetic of [pagify.js] on them ([++], [>],
      [--]) is exact on integers below 2^53, the range the model speaks of.
    - A caller-supplied function is an opaque [CallerFn]: calling it records
      the call in the world and then either returns or throws, as its
      [behaviour] says.  What else caller code may do to the SDK object from
      inside a callback is outside the model.
    - Stateful code is a function of the monad [M]: a state monad over
      [world] with JavaScript's exceptions.  A thrown exception keeps the
      effects that happened before it.
    - The host ([window], [document], selector resolution, [fetch]) is a
      read-only record [host]; its operations fail the way the DOM ones do. *)

From Stdlib Require Import ZArith List Sorted Ascii String Lia.
From Stdlib Require Import DecimalString DecimalPos DecimalZ.
From stdpp Require Import gmap strings list fin_maps.
From Equations Require Import Equations.

Local Open Scope Z_scope.

(** ** JavaScript values the SDK handles *)

Record Error := mkError { name : string; message : string }.

Inductive behaviour : Type :=
| Returns
| Throws (e : Error).

(** [FacadeOnReady p] and [FacadeOnError p] are the two closures that
    [generatePDF] builds around the [resolve]/[reject] pair of its promise
    [p]; every other function comes from the caller. *)
Inductive function : Type :=
| CallerFn (fn : string) (b : behaviour)
| FacadeOnReady (p : nat)
| FacadeOnError (p : nat).

Record Blob := mkBlob { blob_bytes : string }.

Inductive settlement : Type :=
| Resolved (b : Blob)
| Rejected (e : Error).

Record style := {
  width : option string;
  height : option string;
  border : option string;
  position : option string;
  top : option string;
  left : option string
}.

Record iframe := { iframe_style : style; srcdoc : option string }.

Abbreviation node := nat.

Inductive console_level := level_log | level_warn | level_error.

Record console_line := { level : console_level; text : list string }.

Record CustomEvent := { event_type : string; detail : string * string }.

Record call := { callee : string; arguments : list string }.

(** ** The SDK object and the world around it *)

(** The pair stored by [render] at [pdfCallbackStorage[instanceId]]. *)
Record pdf_callbacks := {
  stored_onPdfReady : option function;
  stored_onPdfError : option function
}.

(** [callbackStorage[id] = callback] stores [null] too: the value
    [Some None] is a present key holding [null]. *)
Record PagifySDK := {
  instanceCounter : Z;
  callbackStorage : gmap Z (option function);
  pdfCallbackStorage : gmap Z pdf_callbacks
}.

Record world := {
  this : PagifySDK;
  children : gmap node (list iframe);
  console : list console_line;
  dispatched : list CustomEvent;
  calls : list call;
  promises : list (option settlement)
}.

Inductive query_result : Type :=
| Found (n : node)
| NotFound
| InvalidSelector (e : Error).

Record host := {
  window_defined : bool;
  document_defined : bool;
  querySelector : string -> query_result;
  body : option node;
  fetch : string -> Blob + Error
}.

(** The [data] of a message event, by its [type] discriminant; [iter] is
    the correlation identifier.  Any other shape is [unrecognised]. *)
Inductive MessageData : Type :=
| renderpdf (iter : Z)
| PDF_READY (iter : Z) (blobUrl : string)
| PDF_ERROR (iter : Z) (error : string)
| unrecognised.

(** ** The monad of stateful, throwing code *)

Inductive completion (A : Type) : Type :=
| Normal (a : A)
| Throw (e : Error).
Arguments Normal {A} a.
Arguments Throw {A} e.

Definition M (A : Type) : Type := world -> completion A * world.

Definition ret {A} (a : A) : M A := fun w => (Normal a, w).

Definition bind {A B} (m : M A) (k : A -> M B) : M B :=
  fun w =>
    match m w with
    | (Normal a, w') => k a w'
    | (Throw e, w') => (Throw e, w')
    end.

Definition throw {A} (e : Error) : M A := fun w => (Throw e, w).

(** [try { body } catch (error) { handler }] *)
Definition try_catch {A} (body : M A) (handler : Error -> M A) : M A :=
  fun w =>
    match body w with
    | (Normal a, w') => (Normal a, w')
    | (Throw e, w') => handler e w'
    end.

Definition gets {A} (f : world -> A) : M A := fun w => (Normal (f w), w).

Definition modify (f : world -> world) : M unit := fun w => (Normal tt, f w).

Declare Scope js_scope.
Delimit Scope js_scope with js.
Notation "x <- m ;; k" := (bind m (fun x => k))
  (at level 100, m at next level, right associativity) : js_scope.
Notation "m ;; k" := (bind m (fun _ => k))
  (at level 100, right associativity) : js_scope.
Local Open Scope js_scope.

(** ** Field updates *)

Definition with_this (f : PagifySDK -> PagifySDK) (w : world) : world :=
  {| this := f (this w); children := children w; console := console w;
     dispatched := dispatched w; calls := calls w; promises := promises w |}.

Definition with_children (f : gmap node (list iframe) -> gmap node (list iframe))
    (w : world) : world :=
  {| this := this w; children := f (children w); console := console w;
     dispatched := dispatched w; calls := calls w; promises := promises w |}.

Definition with_console (f : list console_line -> list console_line)
    (w : world) : world :=
  {| this := this w; children := children w; console := f (console w);
     dispatched := dispatched w; calls := calls w; promises := promises w |}.

Definition with_dispatched (f : list CustomEvent -> list CustomEvent)
    (w : world) : world :=
  {| this := this w; children := children w; console := console w;
     dispatched := f (dispatched w); calls := calls w; promises := promises w |}.

Definition with_calls (f : list call -> list call) (w : world) : world :=
  {| this := this w; children := children w; console := console w;
     dispatched := dispatched w; calls := f (calls w); promises := promises w |}.

Definition with_promises
    (f : list (option settlement) -> list (option settlement))
    (w : world) : world :=
  {| this := this w; children := children w; console := console w;
     dispatched := dispatched w; calls := calls w; promises := f (promises w) |}.

Definition set_instanceCounter (n : Z) (s : PagifySDK) : PagifySDK :=
  {| instanceCounter := n; callbackStorage := callbackStorage s;
     pdfCallbackStorage := pdfCallbackStorage s |}.

Definition with_callbackStorage
    (f : gmap Z (option function) -> gmap Z (option function))
    (s : PagifySDK) : PagifySDK :=
  {| instanceCounter := instanceCounter s;
     callbackStorage := f (callbackStorage s);
     pdfCallbackStorage := pdfCallbackStorage s |}.

Definition with_pdfCallbackStorage
    (f : gmap Z pdf_callbacks -> gmap Z pdf_callbacks)
    (s : PagifySDK) : PagifySDK :=
  {| instanceCounter := instanceCounter s;
     callbackStorage := callbackStorage s;
     pdfCallbackStorage := f (pdfCallbackStorage s) |}.

(** ** Host primitives *)

Definition console_log (args : list string) : M unit :=
  modify (with_console (fun c => c ++ [{| level := level_log; text := args |}])).

Definition console_warn (args : list string) : M unit :=
  modify (with_console (fun c => c ++ [{| level := level_warn; text := args |}])).

Definition console_error (args : list string) : M unit :=
  modify (with_console (fun c => c ++ [{| level := level_error; text := args |}])).

(** [window.dispatchEvent(new CustomEvent(type, { detail: { key: value } }))] *)
Definition dispatchEvent (type key value : string) : M unit :=
  modify (with_dispatched
            (fun d => d ++ [{| event_type := type; detail := (key, value) |}])).

(** [new Promise(...)]: a promise is its index in [promises], where [None]
    is a pending one. *)
Definition new_promise : M nat :=
  p <- gets (fun w => length (promises w));;
  modify (with_promises (fun ps => ps ++ [None]));;
  ret p.

(** A promise settles once: [resolve] and [reject] on a settled promise do
    nothing. *)
Definition settle (p : nat) (s : settlement) : M unit :=
  modify (with_promises (fun ps =>
            match ps !! p with
            | Some None => <[p := Some s]> ps
            | _ => ps
            end)).

Section Host.

Variable h : host.

(** Calling a function value.  For the facade's [onPdfReady] the chain
    [fetch(blobUrl).then(r => r.blob()).then(resolve).catch(reject)] is run
    at the call: it reads nothing of the SDK and only settles [p]. *)
Definition invoke (f : function) (args : list string) : M unit :=
  match f with
  | CallerFn fn b =>
      modify (with_calls (fun c => c ++ [{| callee := fn; arguments := args |}]));;
      match b with
      | Returns => ret tt
      | Throws e => throw e
      end
  | FacadeOnReady p =>
      match fetch h (hd ""%string args) with
      | inl blob => settle p (Resolved blob)
      | inr e => settle p (Rejected e)
      end
  | FacadeOnError p =>
      settle p (Rejected (mkError "Error" (hd ""%string args)))
  end.

(** ** The message listener of [initMessageListener] *)

(** Truthiness of a number used as [instanceId && ...]. *)
Definition truthy_number (n : Z) : bool := negb (n =? 0).

Definition listener (event_data : MessageData) : M unit :=
  match event_data with
  | renderpdf iter =>
      callback <- gets (fun w => callbackStorage (this w) !! iter);;
      match callback with
      | Some (Some f) => invoke f []
      | _ => ret tt
      end;;
      modify (with_this (with_callbackStorage (delete iter)))
  | PDF_READY iter blobUrl =>
      console_log ["PDF blob ready:"; blobUrl]%string;;
      let instanceId := iter in
      entry <- gets (fun w => pdfCallbackStorage (this w) !! instanceId);;
      match (if truthy_number instanceId then entry ≫= stored_onPdfReady else None) with
      | Some f =>
          invoke f [blobUrl];;
          modify (with_this (with_pdfCallbackStorage (delete instanceId)))
      | None => ret tt
      end;;
      dispatchEvent "pdfReady" "blobUrl" blobUrl
  | PDF_ERROR iter error =>
      console_error ["PDF generation error:"; error]%string;;
      let instanceId := iter in
      entry <- gets (fun w => pdfCallbackStorage (this w) !! instanceId);;
      match (if truthy_number instanceId then entry ≫= stored_onPdfError else None) with
      | Some f =>
          invoke f [error];;
          modify (with_this (with_pdfCallbackStorage (delete instanceId)))
      | None => ret tt
      end;;
      dispatchEvent "pdfError" "error" error
  | unrecognised => ret tt
  end.

(** [initMessageListener] attaches the listener only where [window] exists. *)
Definition initMessageListener : option (MessageData -> M unit) :=
  if window_defined h then Some listener else None.

End Host.

(** [new PagifySDK()] *)
Definition constructor : PagifySDK :=
  {| instanceCounter := 1; callbackStorage := ∅; pdfCallbackStorage := ∅ |}.

(** ** Text *)

(** The double quote and the line feed, and the lines of a text. *)
Definition dq : string := String (ascii_of_nat 34) EmptyString.
Definition nl : string := String (ascii_of_nat 10) EmptyString.
Definition unlines (ls : list string) : string := String.concat nl ls.

(** A number inside a template literal: its decimal digits. *)
Definition show (n : Z) : string := NilZero.string_of_int (Z.to_int n).

(** ** The static text of the template literals of [pagify.js] *)

(** Text 0 of the template literal of [getPagedJSInitScript] (pagify.js:351-454). *)
Definition PagedJSInitScript_0 : string := unlines [
  "";
  "            // Wait for fonts to load before starting pagination";
  "            document.fonts.ready.then(async () => {";
  "                console.log(" +:+ dq +:+ "Fonts are ready" +:+ dq +:+ ");";
  "                try {";
  "                    // Import Paged.js dynamically";
  "                    const { Previewer, Handler, registerHandlers } = await import('https://unpkg.com/pagedjs@0.4.3/dist/paged.esm.js');";
  "";
  "                    class RepeatingTableHeaders extends Handler {";
  "                        constructor(chunker, polisher, caller) {";
  "                            super(chunker, polisher, caller);";
  "                        }";
  "";
  "                        beforePageLayout(page) {";
  "                            // console.log(" +:+ dq +:+ "page" +:+ dq +:+ ", page);";
  "                            // page.height = 200;";
  "                        }";
  "";
  "                        afterPageLayout(pageElement, page, breakToken, chunker) {";
  "                            // Find all split table elements";
  "                            let tables = pageElement.querySelectorAll(" +:+ dq +:+ "table[data-split-from]" +:+ dq +:+ ");";
  "";
  "                            tables.forEach((table) => {";
  "                                // There is an edge case where the previous page table";
  "                                // has zero height (isn't visible).";
  "                                // To avoid double header we will only add header if there is none.";
  "                                let tableHeader = table.querySelector(" +:+ dq +:+ "thead" +:+ dq +:+ ");";
  "                                if (tableHeader) {";
  "                                    return;";
  "                                }";
  "";
  "                                // Get the reference UUID of the node";
  "                                let ref = table.dataset.ref;";
  "                                // Find the node in the original source";
  "                                let sourceTable = chunker.source.querySelector(" +:+ dq +:+ "[data-ref='" +:+ dq +:+ " + ref + " +:+ dq +:+ "']" +:+ dq +:+ ");";
  "";
  "                                // Find if there is a header";
  "                                let sourceHeader = sourceTable.querySelector(" +:+ dq +:+ "thead" +:+ dq +:+ ");";
  "                                if (sourceHeader) {";
  "                                    console.log(" +:+ dq +:+ "Table header was cloned, because it is splitted." +:+ dq +:+ ");";
  "                                    // Clone the header element";
  "                                    let clonedHeader = sourceHeader.cloneNode(true);";
  "                                    // Insert the header at the start of the split table";
  "                                    table.insertBefore(clonedHeader, table.firstChild);";
  "                                }";
  "                            });";
  "";
  "                            // Find all tables";
  "                            tables = pageElement.querySelectorAll(" +:+ dq +:+ "table" +:+ dq +:+ ");";
  "";
  "                            // special case which might not fit for everyone";
  "                            tables.forEach((table) => {";
  "                                // if the table has no rows in body, hide it.";
  "                                // This happens because my render engine creates empty tables.";
  "                                let sourceBody = table.querySelector(" +:+ dq +:+ "tbody > tr" +:+ dq +:+ ");";
  "                                if (!sourceBody) {";
  "                                    console.log(" +:+ dq +:+ "Table was hidden, because it has no rows in tbody." +:+ dq +:+ ");";
  "                                    table.style.visibility = " +:+ dq +:+ "hidden" +:+ dq +:+ ";";
  "                                    table.style.position = " +:+ dq +:+ "absolute" +:+ dq +:+ ";";
  "";
  "                                    var lineSpacer = table.nextSibling;";
  "                                    if (lineSpacer) {";
  "                                        lineSpacer.style.visibility = " +:+ dq +:+ "hidden" +:+ dq +:+ ";";
  "                                        lineSpacer.style.position = " +:+ dq +:+ "absolute" +:+ dq +:+ ";";
  "                                    }";
  "                                }";
  "                            });";
  "                            // setting the page to show overflowing content";
  "                            let contents = pageElement.querySelectorAll(" +:+ dq +:+ ".pagedjs_page_content" +:+ dq +:+ ");";
  "                            contents.forEach((content) => {";
  "                                content.style.height = 'max-content';";
  "                            });";
  "                        }";
  "                    }";
  "                    registerHandlers(RepeatingTableHeaders);";
  "                    ";
  "                    console.log('Paged.js imported successfully');";
  "                    ";
  "                    // Initialize pagination";
  "                    const previewer = new Previewer();";
  "                    const result = await previewer.preview();";
  "                    ";
  "                    console.log('Paged.js pagination complete:', result);";
  "                    totalPages = result.total;";
  "                    ";
  "                    // Notify parent window that rendering is complete";
  "                    window.parent.postMessage({";
  "                        type: " +:+ dq +:+ "renderpdf" +:+ dq +:+ ", ";
  "                        iter: "
].

(** Text 1 of the template literal of [getPagedJSInitScript] (pagify.js:351-454). *)
Definition PagedJSInitScript_1 : string := unlines [
  "";
  "                    }, " +:+ dq +:+ "*" +:+ dq +:+ ");";
  "";
  "                    // Auto-generate PDF";
  "                    generatePdfBlob();";
  "                    ";
  "                } catch (error) {";
  "                    console.error('Failed to load or initialize Paged.js:', error);";
  "                    window.parent.postMessage({ ";
  "                        type: " +:+ dq +:+ "PDF_ERROR" +:+ dq +:+ ", ";
  "                        error: " +:+ dq +:+ "Failed to initialize Paged.js: " +:+ dq +:+ " + error.message,";
  "                        iter: "
].

(** Text 2 of the template literal of [getPagedJSInitScript] (pagify.js:351-454). *)
Definition PagedJSInitScript_2 : string := unlines [
  "";
  "                    }, " +:+ dq +:+ "*" +:+ dq +:+ ");";
  "                }";
  "            });";
  "        "
].

(** Text 0 of the template literal of [getPdfGenerationScript] (pagify.js:461-602). *)
Definition PdfGenerationScript_0 : string := unlines [
  "";
  "            // Generate PDF blob function for auto-trigger";
  "            async function generatePdfBlob() {";
  "                try {";
  "                    console.log('Starting PDF generation...');";
  "                    ";
  "                    // Try dynamic import first, fallback to script loading";
  "                    let html2pdfLib;";
  "                    try {";
  "                        // Import html2pdf dynamically";
  "                        const html2pdfModule = await import('https://unpkg.com/html2pdf.js@0.10.1/dist/html2pdf.bundle.min.js');";
  "                        ";
  "                        console.log('html2pdf.js imported successfully');";
  "                        console.log('html2pdf module structure:', Object.keys(html2pdfModule));";
  "                        ";
  "                        // Try different ways to access html2pdf function";
  "                        if (typeof html2pdfModule.default === 'function') {";
  "                            html2pdfLib = html2pdfModule.default;";
  "                            console.log('Using html2pdfModule.default');";
  "                        } else if (typeof html2pdfModule.html2pdf === 'function') {";
  "                            html2pdfLib = html2pdfModule.html2pdf;";
  "                            console.log('Using html2pdfModule.html2pdf');";
  "                        } else if (typeof window.html2pdf === 'function') {";
  "                            html2pdfLib = window.html2pdf;";
  "                            console.log('Using window.html2pdf');";
  "                        } else {";
  "                            // Fallback: look for any function in the module";
  "                            const functionKeys = Object.keys(html2pdfModule).filter(key => typeof html2pdfModule[key] === 'function');";
  "                            if (functionKeys.length > 0) {";
  "                                html2pdfLib = html2pdfModule[functionKeys[0]];";
  "                                console.log('Using html2pdfModule.' + functionKeys[0]);";
  "                            } else {";
  "                                throw new Error('html2pdf function not found in imported module');";
  "                            }";
  "                        }";
  "                        ";
  "                        if (typeof html2pdfLib !== 'function') {";
  "                            throw new Error('html2pdfLib is not a function. Available keys: ' + Object.keys(html2pdfModule).join(', '));";
  "                        }";
  "                    } catch (importError) {";
  "                        console.warn('Dynamic import failed, trying script tag approach:', importError);";
  "                        ";
  "                        // Fallback: load via script tag";
  "                        await new Promise((resolve, reject) => {";
  "                            if (typeof window.html2pdf === 'function') {";
  "                                resolve();";
  "                                return;";
  "                            }";
  "                            ";
  "                            const script = document.createElement('script');";
  "                            script.src = 'https://unpkg.com/html2pdf.js@0.10.1/dist/html2pdf.bundle.min.js';";
  "                            script.onload = () => {";
  "                                if (typeof window.html2pdf === 'function') {";
  "                                    resolve();";
  "                                } else {";
  "                                    reject(new Error('html2pdf not available after loading script'));";
  "                                }";
  "                            };";
  "                            script.onerror = () => reject(new Error('Failed to load html2pdf script'));";
  "                            document.head.appendChild(script);";
  "                        });";
  "                        ";
  "                        html2pdfLib = window.html2pdf;";
  "                        console.log('Using window.html2pdf from script tag');";
  "                    }";
  "                    ";
  "                    // Use the whole body element";
  "                    const targetElement = document.body;";
  "                    console.log('Using body element for PDF generation');";
  "                    console.log('Element innerHTML length:', targetElement.innerHTML.length);";
  "                    ";
  "                    // Check if element has content";
  "                    if (!targetElement || targetElement.innerHTML.trim().length === 0) {";
  "                        throw new Error('No content found in body element');";
  "                    }";
  "                    ";
  "                    console.log('Estimated pages:', totalPages);";
  "                    ";
  "                    const opt = {";
  "                        margin: 0,";
  "                        filename: " +:+ dq +:+ "document.pdf" +:+ dq +:+ ",";
  "                        image: { ";
  "                            type: " +:+ dq +:+ "jpeg" +:+ dq +:+ ", ";
  "                            quality: 0.98 ";
  "                        },";
  "                        html2canvas: { ";
  "                            scale: 2,";
  "                            useCORS: true,";
  "                            allowTaint: false,";
  "                            backgroundColor: '#ffffff'";
  "                        },";
  "                        jsPDF: { ";
  "                            unit: " +:+ dq +:+ "mm" +:+ dq +:+ ", ";
  "                            format: " +:+ dq +:+ "a4" +:+ dq +:+ ", ";
  "                            orientation: " +:+ dq +:+ "portrait" +:+ dq +:+ ",";
  "                            compress: true";
  "                        }";
  "                    };";
  "                    ";
  "                    console.log('Starting html2pdf conversion with body element');";
  "                    ";
  "                    html2pdfLib().set(opt).from(targetElement)";
  "                        .toPdf()";
  "                        .get(" +:+ dq +:+ "pdf" +:+ dq +:+ ").then(pdf => {";
  "                            const pageCount = pdf.internal.getNumberOfPages();";
  "                            console.log('Generated PDF with', pageCount, 'pages');";
  "                            // Remove extra pages if necessary";
  "                            if (pageCount > totalPages && totalPages > 0) {";
  "                                for (let i = pageCount; i > totalPages; i--) {";
  "                                    pdf.deletePage(i);";
  "                                }";
  "                            }";
  "                        })";
  "                        .outputPdf(" +:+ dq +:+ "blob" +:+ dq +:+ ").then(function (blob) {";
  "                            console.log('PDF blob generated:', blob);";
  "                            const blobUrl = URL.createObjectURL(blob);";
  "                            console.log(" +:+ dq +:+ "Blob URL:" +:+ dq +:+ ", blobUrl);";
  "                            window.parent.postMessage({ ";
  "                                type: " +:+ dq +:+ "PDF_READY" +:+ dq +:+ ", ";
  "                                blobUrl: blobUrl,";
  "                                iter: "
].

(** Text 1 of the template literal of [getPdfGenerationScript] (pagify.js:461-602). *)
Definition PdfGenerationScript_1 : string := unlines [
  "";
  "                            }, " +:+ dq +:+ "*" +:+ dq +:+ ");";
  "                        })";
  "                        .catch(error => {";
  "                            console.error(" +:+ dq +:+ "PDF generation failed:" +:+ dq +:+ ", error);";
  "                            window.parent.postMessage({ ";
  "                                type: " +:+ dq +:+ "PDF_ERROR" +:+ dq +:+ ", ";
  "                                error: error.message,";
  "                                iter: "
].

(** Text 2 of the template literal of [getPdfGenerationScript] (pagify.js:461-602). *)
Definition PdfGenerationScript_2 : string := unlines [
  "";
  "                            }, " +:+ dq +:+ "*" +:+ dq +:+ ");";
  "                        });";
  "                        ";
  "                } catch (error) {";
  "                    console.error(" +:+ dq +:+ "PDF generation error:" +:+ dq +:+ ", error);";
  "                    window.parent.postMessage({ ";
  "                        type: " +:+ dq +:+ "PDF_ERROR" +:+ dq +:+ ", ";
  "                        error: error.message,";
  "                        iter: "
].

(** Text 3 of the template literal of [getPdfGenerationScript] (pagify.js:461-602). *)
Definition PdfGenerationScript_3 : string := unlines [
  "";
  "                    }, " +:+ dq +:+ "*" +:+ dq +:+ ");";
  "                }";
  "            }";
  "        "
].

(** The rule that follows the selector in [pageNumberCSS] (pagify.js:163-165). *)
Definition pageNumberCSS_rule : string := unlines [
  "::before {";
  "                    content: " +:+ dq +:+ "Page " +:+ dq +:+ " counter(page) " +:+ dq +:+ " of " +:+ dq +:+ " counter(pages) " +:+ dq +:+ " " +:+ dq +:+ ";";
  "                }"
].

(** The nested template literal of the footer region, up to [footer_html] (pagify.js:331-333 and 339-341, the same text). *)
Definition footer_open : string := unlines [
  "<div class=" +:+ dq +:+ "footer" +:+ dq +:+ " style=" +:+ dq +:+ "width: 100%" +:+ dq +:+ ">";
  "                        "
].

(** The footer region after [footer_html]. *)
Definition footer_close : string := unlines [
  "";
  "                    </div>"
].

(** Text 0 of the template literal of [buildIframeHTML] (pagify.js:218-344), up to [this.getPagedJSInitScript(instanceId)]. *)
Definition IframeHTML_0 : string := unlines [
  "";
  "            <html>";
  "                <head>";
  "                    <meta charset=" +:+ dq +:+ "UTF-8" +:+ dq +:+ ">";
  "                    <meta name=" +:+ dq +:+ "viewport" +:+ dq +:+ " content=" +:+ dq +:+ "width=device-width, initial-scale=1.0" +:+ dq +:+ ">";
  "                    <script>";
  "                        // Configure Paged.js";
  "                        window.PagedConfig = {";
  "                            auto: false,";
  "                        }";
  "                    </script>";
  "                    <script>";
  "                        let totalPages;";
  "                        ";
  "                        // Import and initialize Paged.js";
  "                        "
].

(** Text 1 of the template literal of [buildIframeHTML] (pagify.js:218-344), up to [this.getPdfGenerationScript(instanceId)]. *)
Definition IframeHTML_1 : string := unlines [
  "";
  "                        ";
  "                        // PDF Generation Script";
  "                        "
].

(** Text 2 of the template literal of [buildIframeHTML] (pagify.js:218-344), up to [pageNumberCSS]. *)
Definition IframeHTML_2 : string := unlines [
  "";
  "                    </script>";
  "                    <style>";
  "                        /* Ensure print colors are preserved */";
  "                        body {";
  "                            -webkit-print-color-adjust: exact !important;";
  "                            print-color-adjust: exact !important;";
  "                            margin: 0;";
  "                            padding: 0;";
  "                        }";
  "";
  "                        /* Page numbering styles */";
  "                        "
].

(** Text 3 of the template literal of [buildIframeHTML] (pagify.js:218-344), up to [page_padding_top]. *)
Definition IframeHTML_3 : string := unlines [
  "";
  "";
  "                        /* Header and footer positioning */";
  "                        .header {";
  "                            position: running(header);";
  "                        }";
  "                        ";
  "                        .footer {";
  "                            position: running(footer);";
  "                        }";
  "                        ";
  "                        /* Paged.js content styling */";
  "                        .pagedjs_page_content {";
  "                            border-bottom-width: 1px;";
  "                            border-top-width: 1px;";
  "                            --tw-border-opacity: 1;";
  "                            border-color: rgba(218, 222, 227, var(--tw-border-opacity));";
  "                            padding-top: "
].

(** Text 4 of the template literal of [buildIframeHTML] (pagify.js:218-344), up to [margin_left]. *)
Definition IframeHTML_4 : string := unlines [
  ";";
  "                        }";
  "                        ";
  "                        .pagedjs_pages {";
  "                            align-items: center;";
  "                            display: flex;";
  "                            flex: 1;";
  "                            flex-direction: column;";
  "                        }";
  "                        ";
  "                        /* Prevent table rows from breaking across pages */";
  "                        tr {";
  "                            break-inside: avoid;";
  "                        }";
  "                        ";
  "                        /* Page layout configuration */";
  "                        @page {";
  "                            margin-left: "
].

(** Text 5 of the template literal of [buildIframeHTML] (pagify.js:218-344), up to [margin_right]. *)
Definition IframeHTML_5 : string := unlines [
  ";";
  "                            margin-right: "
].

(** Text 6 of the template literal of [buildIframeHTML] (pagify.js:218-344), up to [header_height]. *)
Definition IframeHTML_6 : string := unlines [
  ";";
  "                            margin-top: "
].

(** Text 7 of the template literal of [buildIframeHTML] (pagify.js:218-344), up to [footer_height]. *)
Definition IframeHTML_7 : string := unlines [
  ";";
  "                            margin-bottom: "
].

(** Text 8 of the template literal of [buildIframeHTML] (pagify.js:218-344), up to [page_size]. *)
Definition IframeHTML_8 : string := unlines [
  ";";
  "                            size: "
].

(** Text 9 of the template literal of [buildIframeHTML] (pagify.js:218-344), up to [head_html]. *)
Definition IframeHTML_9 : string := unlines [
  ";";
  "                        ";
  "                            @bottom-center {";
  "                                content: element(footer);";
  "                            }";
  "                        ";
  "                            @top-center {";
  "                                content: element(header);";
  "                            }";
  "                        }";
  "";
  "                        /* Base64 image optimization */";
  "                        img {";
  "                            max-width: 100%;";
  "                            height: auto;";
  "                        }";
  "";
  "                        /* Print-friendly table styles */";
  "                        table {";
  "                            border-collapse: collapse;";
  "                            width: 100%;";
  "                        }";
  "";
  "                        /* Page break controls */";
  "                        .page-break-before {";
  "                            page-break-before: always;";
  "                        }";
  "";
  "                        .page-break-after {";
  "                            page-break-after: always;";
  "                        }";
  "";
  "                        .page-break-inside-avoid {";
  "                            page-break-inside: avoid;";
  "                        }";
  "                    </style>";
  "                    "
].

(** Text 10 of the template literal of [buildIframeHTML] (pagify.js:218-344), up to [header_html]. *)
Definition IframeHTML_10 : string := unlines [
  "";
  "                </head>";
  "                <body>";
  "                    <!-- Header content (appears on every page) -->";
  "                    <div class=" +:+ dq +:+ "header" +:+ dq +:+ " style=" +:+ dq +:+ "width: 100%" +:+ dq +:+ ">";
  "                        "
].

(** Text 11 of the template literal of [buildIframeHTML] (pagify.js:218-344), up to the footer placed before the body. *)
Definition IframeHTML_11 : string := unlines [
  "";
  "                    </div>";
  "                    ";
  "                    <!-- Footer content (conditional positioning) -->";
  "                    "
].

(** Text 12 of the template literal of [buildIframeHTML] (pagify.js:218-344), up to [body_html]. *)
Definition IframeHTML_12 : string := unlines [
  "";
  "                    ";
  "                    <!-- Main body content -->";
  "                    "
].

(** Text 13 of the template literal of [buildIframeHTML] (pagify.js:218-344), up to the footer placed after the body. *)
Definition IframeHTML_13 : string := unlines [
  "";
  "";
  "                    <!-- Footer on last page only (if specified) -->";
  "                    "
].

(** Text 14 of the template literal of [buildIframeHTML] (pagify.js:218-344), to its end. *)
Definition IframeHTML_14 : string := unlines [
  "";
  "                </body>";
  "            </html>";
  "        "
].

(** ** Document Composer *)

Definition getPagedJSInitScript (instanceId : Z) : string :=
  PagedJSInitScript_0 +:+ show instanceId +:+
  PagedJSInitScript_1 +:+ show instanceId +:+
  PagedJSInitScript_2.

Definition getPdfGenerationScript (instanceId : Z) : string :=
  PdfGenerationScript_0 +:+ show instanceId +:+
  PdfGenerationScript_1 +:+ show instanceId +:+
  PdfGenerationScript_2 +:+ show instanceId +:+
  PdfGenerationScript_3.

(** [`<div class="footer" style="width: 100%"> ${footer_html} </div>`] *)
Definition footer_region (footer_html : string) : string :=
  footer_open +:+ footer_html +:+ footer_close.

(** [${footer_only_on_last_page ? "" : `<div class="footer" ...`}],
    pagify.js:331-333, before the body. *)
Definition footer_before_body (footer_only_on_last_page : bool)
    (footer_html : string) : string :=
  if footer_only_on_last_page then "" else footer_region footer_html.

(** [${footer_only_on_last_page ? `<div class="footer" ...` : ""}],
    pagify.js:339-341, after the body. *)
Definition footer_after_body (footer_only_on_last_page : bool)
    (footer_html : string) : string :=
  if footer_only_on_last_page then footer_region footer_html else "".

(** The head of the document, from its start to the first fragment that
    comes from the caller: both scripts. *)
Definition scripts (instanceId : Z) : string :=
  IframeHTML_0 +:+ getPagedJSInitScript instanceId +:+
  IframeHTML_1 +:+ getPdfGenerationScript instanceId +:+
  IframeHTML_2.

(** From the page-number rule to the end of [<head>] and the header. *)
Definition styles_and_header
    (header_html head_html page_size margin_left margin_right
     header_height footer_height page_padding_top pageNumberCSS : string)
    : string :=
  pageNumberCSS +:+ IframeHTML_3 +:+ page_padding_top +:+
  IframeHTML_4 +:+ margin_left +:+
  IframeHTML_5 +:+ margin_right +:+
  IframeHTML_6 +:+ header_height +:+
  IframeHTML_7 +:+ footer_height +:+
  IframeHTML_8 +:+ page_size +:+
  IframeHTML_9 +:+ head_html +:+
  IframeHTML_10 +:+ header_html +:+
  IframeHTML_11.

Definition buildIframeHTML (instanceId : Z)
    (body_html header_html footer_html head_html page_size
     margin_left margin_right header_height footer_height : string)
    (footer_only_on_last_page : bool)
    (page_padding_top pageNumberCSS : string) : string :=
  scripts instanceId +:+
  styles_and_header header_html head_html page_size margin_left margin_right
    header_height footer_height page_padding_top pageNumberCSS +:+
  footer_before_body footer_only_on_last_page footer_html +:+
  IframeHTML_12 +:+ body_html +:+
  IframeHTML_13 +:+
  footer_after_body footer_only_on_last_page footer_html +:+
  IframeHTML_14.

(** ** render *)

(** The parameter object of [render], once its defaults are filled in.
    [None] is [null]. *)
Record options := {
  body_html : string;
  header_html : string;
  footer_html : string;
  head_html : string;
  page_size : string;
  margin_left : string;
  margin_right : string;
  header_height : string;
  footer_height : string;
  page_number_selector : string;
  footer_only_on_last_page : bool;
  page_padding_top : string;
  callback : option function;
  onPdfReady : option function;
  onPdfError : option function;
  containerSelector : option string
}.

(** [render({})] *)
Definition defaults : options :=
  {| body_html := ""; header_html := ""; footer_html := ""; head_html := "";
     page_size := "A4"; margin_left := "0mm"; margin_right := "0mm";
     header_height := "0mm"; footer_height := "0mm";
     page_number_selector := ""; footer_only_on_last_page := false;
     page_padding_top := "16px"; callback := None; onPdfReady := None;
     onPdfError := None; containerSelector := None |}.

(** Truthiness of a string and of a string or [null]. *)
Definition truthy_string (s : string) : bool :=
  match s with EmptyString => false | _ => true end.

Definition truthy (s : option string) : bool :=
  match s with Some s => truthy_string s | None => false end.

(** A function is truthy, [null] is not. *)
Definition truthy_function (f : option function) : bool :=
  match f with Some _ => true | None => false end.

(** [page_number_selector ? `${page_number_selector}::before {...}` : ""] *)
Definition pageNumberCSS_of (page_number_selector : string) : string :=
  if truthy_string page_number_selector
  then page_number_selector +:+ pageNumberCSS_rule
  else "".

(** The document [render] composes for the identifier [instanceId]. *)
Definition iframeHTML_of (instanceId : Z) (o : options) : string :=
  buildIframeHTML instanceId (body_html o) (header_html o) (footer_html o)
    (head_html o) (page_size o) (margin_left o) (margin_right o)
    (header_height o) (footer_height o) (footer_only_on_last_page o)
    (page_padding_top o) (pageNumberCSS_of (page_number_selector o)).

(** The style [createIframe] gives an iframe that has a container
    selector, pagify.js:614-616, and one that has none, pagify.js:619-622. *)
Definition fill_container : style :=
  {| width := Some "100%"; height := Some "100%"; border := Some "none";
     position := None; top := None; left := None |}.

Definition off_screen : style :=
  {| width := None; height := None; border := Some "none";
     position := Some "absolute"; top := Some "-9999px";
     left := Some "-9999px" |}.

Definition ReferenceError_document : Error :=
  mkError "ReferenceError" "document is not defined".

Definition TypeError_appendChild : Error :=
  mkError "TypeError" "Cannot read properties of null (reading 'appendChild')".

Section Render.

Variable h : host.

(** The global [document]: reading it where it is not defined throws. *)
Definition document : M unit :=
  if document_defined h then ret tt else throw ReferenceError_document.

Definition createIframe (containerSelector : option string) : M iframe :=
  document;;
  ret {| iframe_style :=
           if truthy containerSelector then fill_container else off_screen;
         srcdoc := None |}.

(** The result is [null] where [document.body] is. *)
Definition getContainer (containerSelector : option string) : M (option node) :=
  if truthy containerSelector then
    document;;
    match querySelector h (default "" containerSelector) with
    | Found container => ret (Some container)
    | NotFound =>
        console_warn ["Container with selector " +:+ dq +:+
                      default "" containerSelector +:+ dq +:+
                      " not found. Using document.body instead."];;
        ret (body h)
    | InvalidSelector e => throw e
    end
  else
    document;;
    ret (body h).

Definition appendChild (container : option node) (child : iframe) : M unit :=
  match container with
  | Some n =>
      modify (with_children (fun c => <[n := default [] (c !! n) ++ [child]]> c))
  | None => throw TypeError_appendChild
  end.

(** [const instanceId = this.instanceCounter++] and the two stores that
    follow it, pagify.js:148-159. *)
Definition allocate (o : options) : M Z :=
  instanceId <- gets (fun w => instanceCounter (this w));;
  modify (with_this (set_instanceCounter (instanceId + 1)));;
  modify (with_this (with_callbackStorage (<[instanceId := callback o]>)));;
  (if truthy_function (onPdfReady o) || truthy_function (onPdfError o)
   then modify (with_this (with_pdfCallbackStorage
                 (<[instanceId := {| stored_onPdfReady := onPdfReady o;
                                     stored_onPdfError := onPdfError o |}]>)))
   else ret tt);;
  ret instanceId.

(** Composition and mounting, pagify.js:161-190. *)
Definition mount (instanceId : Z) (o : options) : M unit :=
  let iframeHTML := iframeHTML_of instanceId o in
  iframe <- createIframe (containerSelector o);;
  let iframe := {| iframe_style := iframe_style iframe;
                   srcdoc := Some iframeHTML |} in
  container <- getContainer (containerSelector o);;
  appendChild container iframe.

(** The [catch] block of [render], pagify.js:192-197. *)
Definition render_catch (o : options) (error : Error) : M unit :=
  console_error ["Pagify render error:"; message error];;
  match onPdfError o with
  | Some f => invoke h f [message error]
  | None => ret tt
  end.

(** The returned promise is fulfilled on [Normal] and rejected on [Throw]:
    the body of [render] has no [await]. *)
Definition render (o : options) : M unit :=
  try_catch
    (instanceId <- allocate o;;
     mount instanceId o)
    (render_catch o).

(** ** Direct-conversion facade *)

Definition Error_not_browser : Error :=
  mkError "Error" "Direct PDF generation is only available in browser environments".

(** [{ ...options, onPdfReady: ..., onPdfError: ... }] with the two
    closures over the [resolve] and [reject] of the promise [p]. *)
Definition modifiedOptions (o : options) (p : nat) : options :=
  {| body_html := body_html o; header_html := header_html o;
     footer_html := footer_html o; head_html := head_html o;
     page_size := page_size o; margin_left := margin_left o;
     margin_right := margin_right o; header_height := header_height o;
     footer_height := footer_height o;
     page_number_selector := page_number_selector o;
     footer_only_on_last_page := footer_only_on_last_page o;
     page_padding_top := page_padding_top o;
     callback := callback o;
     onPdfReady := Some (FacadeOnReady p);
     onPdfError := Some (FacadeOnError p);
     containerSelector := containerSelector o |}.

(** [generatePDF] returns its promise, rejected at once where [window] is
    not defined; a promise is pending until [settle]. *)
Definition generatePDF (o : options) : M nat :=
  p <- new_promise;;
  if window_defined h then
    try_catch (render (modifiedOptions o p))
              (fun error => settle p (Rejected error));;
    ret p
  else
    settle p (Rejected Error_not_browser);;
    ret p.

(** ** A process lifetime *)

(** What the host page may do with the SDK, in any order. *)
Inductive operation : Type :=
| call_render (o : options)
| call_generatePDF (o : options)
| post (event_data : MessageData).

Definition perform (op : operation) : M unit :=
  match op with
  | call_render o => render o
  | call_generatePDF o => generatePDF o;; ret tt
  | post event_data =>
      match initMessageListener h with
      | Some listen => listen event_data
      | None => ret tt
      end
  end.

(** The identifier an operation allocates in [w], if it allocates one: what
    [allocate] returns there. *)
Definition allocated (op : operation) (w : world) : list Z :=
  match op with
  | call_render o =>
      match allocate o w with (Normal id, _) => [id] | _ => [] end
  | call_generatePDF o =>
      if window_defined h
      then match (new_promise;; allocate o) w with (Normal id, _) => [id] | _ => [] end
      else []
  | post _ => []
  end.

End Render.

(** The identifiers allocated over a sequence of operations, each in the
    host as it is then (the page changes between them).  A rejected promise
    or an exception out of the listener does not stop the process: the next
    operation runs in the world left behind. *)
Fixpoint lifetime (ops : list (host * operation)) (w : world) : list Z * world :=
  match ops with
  | [] => ([], w)
  | (h, op) :: ops =>
      let '(ids, w') := lifetime ops (perform h op w).2 in
      (allocated h op w ++ ids, w')
  end.

(** The world of a process that has just loaded the SDK. *)
Definition loaded : world :=
  {| this := constructor; children := ∅; console := []; dispatched := [];
     calls := []; promises := [] |}.

(** ** Several SDK objects in one process *)

(** The module makes one SDK object when it is loaded and exports the class
    beside it (pagify.js:680-684): the page can make more, and every
    [new PagifySDK()] starts its own counter at 1 and adds its own listener
    to the same window (pagify.js:21-31, 38).  A process is the SDK objects
    made so far, in the order they were made, and the world they share; the
    [this] of that world is the object whose code is running. *)
Definition process : Type := list PagifySDK * world.

Definition enter (s : PagifySDK) (w : world) : world := with_this (fun _ => s) w.

(** The operation [op] run by the object [k] of the process, with the
    identifiers it allocates. *)
Definition on_object (h : host) (k : nat) (op : operation) (p : process)
    : list Z * process :=
  match p.1 !! k with
  | Some s =>
      let w := enter s p.2 in
      (allocated h op w,
       (<[k := this (perform h op w).2]> p.1, (perform h op w).2))
  | None => ([], p)
  end.

(** What a process does: [new PagifySDK()], a call of [render] or
    [generatePDF] on its object [k], or a message to its window, handled by
    the listener of every object, in the order the listeners were added. *)
Inductive process_operation : Type :=
| new_PagifySDK
| render_on (k : nat) (o : options)
| generatePDF_on (k : nat) (o : options)
| window_message (event_data : MessageData).

Definition on_message (h : host) (event_data : MessageData) (p : process) : process :=
  foldl (fun p k => (on_object h k (post event_data) p).2) p (seq 0 (length p.1)).

(** One operation: the identifiers it allocates, each with the object that
    allocated it, and the process it leaves. *)
Definition process_step (h : host) (op : process_operation) (p : process)
    : list (nat * Z) * process :=
  match op with
  | new_PagifySDK => ([], (p.1 ++ [constructor], p.2))
  | render_on k o =>
      let r := on_object h k (call_render o) p in ((fun id => (k, id)) <$> r.1, r.2)
  | generatePDF_on k o =>
      let r := on_object h k (call_generatePDF o) p in ((fun id => (k, id)) <$> r.1, r.2)
  | window_message event_data => ([], on_message h event_data p)
  end.

Fixpoint process_lifetime (ops : list (host * process_operation)) (p : process)
    : list (nat * Z) :=
  match ops with
  | [] => []
  | (h, op) :: ops =>
      (process_step h op p).1 ++ process_lifetime ops (process_step h op p).2
  end.

(** The process that has just loaded the module: its one object is the
    exported singleton. *)
Definition loaded_process : process := ([constructor], loaded).

(** The identifiers the object [k] allocated, in order. *)
Definition allocated_by (k : nat) (ids : list (nat * Z)) : list Z :=
  (filter (fun x => x.1 = k) ids).*2.

(** The counter of the object [k], and the value its next identifier will
    have: an object not made yet will start at 1. *)
Definition counter_of (p : process) (k : nat) : option Z :=
  instanceCounter <$> p.1 !! k.

Definition next_of (p : process) (k : nat) : Z := default 1 (counter_of p k).

(** Statement under test: no two invocations of one process lifetime share
    an identifier, whichever objects they are made on. *)
Definition identifiers_never_shared (ops : list (host * process_operation)) : Prop :=
  NoDup (process_lifetime ops loaded_process).*2.

(** ** Trimming, inside the isolated context *)

Section Trimming.

Context {page : Type}.

(** The document of the conversion engine (jsPDF): its pages, numbered
    from 1. *)
Definition getNumberOfPages (pdf : list page) : Z := Z.of_nat (length pdf).

(** [deletePage(n)] of jsPDF removes page [n] when there is one and does
    nothing otherwise. *)
Definition deletePage (n : Z) (pdf : list page) : list page :=
  if (0 <? n) && (n <=? getNumberOfPages pdf)
  then take (Z.to_nat (n - 1)) pdf ++ drop (Z.to_nat n) pdf
  else pdf.

(** [for (let i = pageCount; i > totalPages; i--) { pdf.deletePage(i); }] *)
Equations? delete_down (i totalPages : Z) (pdf : list page) : list page
  by wf (Z.to_nat (i - totalPages)) lt :=
  delete_down i totalPages pdf with Z_gt_dec i totalPages => {
    | Specif.left _ => delete_down (i - 1) totalPages (deletePage i pdf);
    | Specif.right _ => pdf }.
Proof. lia. Qed.

(** The callback of [.get("pdf").then(...)], pagify.js:564-573. *)
Definition remove_extra_pages (totalPages : Z) (pdf : list page) : list page :=
  let pageCount := getNumberOfPages pdf in
  if (pageCount >? totalPages) && (totalPages >? 0)
  then delete_down pageCount totalPages pdf
  else pdf.

End Trimming.

(** ** Reading a composed text back *)

(** The characters of a number of a template literal. *)
Definition number_char (c : ascii) : bool :=
  existsb (Ascii.eqb c) (list_ascii_of_string "-0123456789").

(** The longest run of number characters [s] starts with. *)
Fixpoint number_run (s : string) : string :=
  match s with
  | EmptyString => EmptyString
  | String c s' => if number_char c then String c (number_run s') else EmptyString
  end.

(** [strip key s] is what follows [key] in [s], when [s] starts with it. *)
Fixpoint strip (key s : string) : option string :=
  match key, s with
  | EmptyString, _ => Some s
  | String k key', String c s' => if Ascii.eqb k c then strip key' s' else None
  | String _ _, EmptyString => None
  end.

Definition field_at (key s : string) : list string :=
  match strip key s with
  | Some r => [number_run r]
  | None => []
  end.

(** The numbers that follow the occurrences of [key] in [s], one for each
    position of [s] where [key] occurs, in order. *)
Fixpoint fields_after (key s : string) : list string :=
  match s with
  | EmptyString => []
  | String c s' => field_at key s ++ fields_after key s'
  end.

Definition occurrences (key s : string) : nat := length (fields_after key s).

(** [s] ends with [key]. *)
Definition ends_with (key s : string) : bool :=
  String.eqb
    (substring (String.length s - String.length key) (String.length key) s) key.

(** A scanner that finds the same fields in one pass, for a key whose first
    character is no number character and occurs nowhere else in it: it is
    either [Seeking] the rest of the key or [Reading] the characters of a
    number. *)
Inductive scanning : Type :=
| Seeking (rest : string)
| Reading (field : string).

Record scanner := { mode : scanning; found : list string }.

Definition expect (rest : string) : scanning :=
  match rest with
  | EmptyString => Reading ""
  | _ => Seeking rest
  end.

Definition restart (key : string) (c : ascii) : scanning :=
  match key with
  | String k key' => if Ascii.eqb k c then expect key' else Seeking key
  | EmptyString => Seeking key
  end.

Definition seek (key : string) (c : ascii) (rest : string) : scanning :=
  match rest with
  | String k rest' => if Ascii.eqb k c then expect rest' else restart key c
  | EmptyString => restart key c
  end.

Definition step (key : string) (c : ascii) (st : scanner) : scanner :=
  match mode st with
  | Reading field =>
      if number_char c
      then {| mode := Reading (field +:+ String c ""); found := found st |}
      else {| mode := restart key c; found := field :: found st |}
  | Seeking rest => {| mode := seek key c rest; found := found st |}
  end.

Fixpoint scan (key : string) (s : string) (st : scanner) : scanner :=
  match s with
  | EmptyString => st
  | String c s' => scan key s' (step key c st)
  end.

Definition finish (st : scanner) : list string :=
  rev (match mode st with
       | Reading field => field :: found st
       | Seeking _ => found st
       end).

Fixpoint occurs_in (c : ascii) (s : string) : bool :=
  match s with
  | EmptyString => false
  | String k s' => Ascii.eqb c k || occurs_in c s'
  end.

(** A key the scanner is exact for: its first character is no number
    character and occurs nowhere else in it. *)
Definition good_key (key : string) : bool :=
  match key with
  | String k key' => negb (number_char k) && negb (occurs_in k key')
  | EmptyString => false
  end.

(** What the scanner will still find in [t], by its mode. *)
Definition pending (key : string) (m : scanning) (t : string) : list string :=
  match m with
  | Reading field => [field +:+ number_run t]
  | Seeking rest => if String.eqb rest key then [] else field_at rest t
  end.

(** The modes the scanner for [String k0 tail] can be in. *)
Definition well_formed (k0 : ascii) (tail : string) (m : scanning) : Prop :=
  match m with
  | Reading _ => True
  | Seeking rest =>
      rest = String k0 tail \/
      exists pre k rest', rest = String k rest' /\ tail = pre +:+ rest
  end.

(** The number a field reads as. *)
Definition read (s : string) : option Z :=
  option_map Z.of_int (NilZero.int_of_string s).

(** ** A bordered context *)

(** An iframe is drawn with a border unless its style removes it. *)
Definition bordered (f : iframe) : Prop :=
  border (iframe_style f) ≠ Some "none".

(** A function that comes back to its caller. *)
Definition returns (f : function) : Prop :=
  match f with
  | CallerFn _ (Throws _) => False
  | _ => True
  end.

(** The calls that calling [f] records. *)
Definition calls_of (f : function) (args : list string) : list call :=
  match f with
  | CallerFn fn _ => [{| callee := fn; arguments := args |}]
  | _ => []
  end.

(** The opener of a footer region, and the two keys of a message. *)
Definition footer_key : string := "<div class=" +:+ dq +:+ "footer" +:+ dq.
Definition iter_key : string := "iter: ".
Definition postMessage_key : string := "postMessage(".

(** [t] holds one [postMessage(] call, left open at its only [iter: ]
    field, where the template puts the identifier. *)
Definition message_literal_open (t : string) : bool :=
  Nat.eqb (occurrences postMessage_key t) 1 &&
  Nat.eqb (occurrences iter_key t) 1 &&
  ends_with iter_key t.

(** [t] holds no [postMessage(] call and no [iter: ] field. *)
Definition no_message (t : string) : bool :=
  Nat.eqb (occurrences postMessage_key t) 0 &&
  Nat.eqb (occurrences iter_key t) 0.

Fixpoint number_chars (s : string) : bool :=
  match s with
  | EmptyString => true
  | String c s' => number_char c && number_chars s'
  end.

(** ** Two hosts and a parameter object to run the code on *)

(** A page with a node [#c] (node 1) and a body (node 0); ["["] is not a
    selector; the only object URL alive is ["blob:1"]. *)
Definition browser : host :=
  {| window_defined := true;
     document_defined := true;
     querySelector := fun selector =>
       if String.eqb selector "#c" then Found 1
       else if String.eqb selector "["
            then InvalidSelector
                   (mkError "SyntaxError" "'[' is not a valid selector")
            else NotFound;
     body := Some 0%nat;
     fetch := fun url =>
       if String.eqb url "blob:1" then inl (mkBlob "%PDF-1.3")
       else inr (mkError "TypeError" "Failed to fetch") |}.

(** No [window] and no [document]. *)
Definition nodejs : host :=
  {| window_defined := false;
     document_defined := false;
     querySelector := fun _ => NotFound;
     body := None;
     fetch := fun _ => inr (mkError "TypeError" "fetch failed") |}.

(** [{ body_html: "<h1>X</h1>", callback, onPdfReady, onPdfError,
    containerSelector }] *)
Definition sample (callback onPdfReady onPdfError : option function)
    (containerSelector : option string) : options :=
  {| body_html := "<h1>X</h1>"; header_html := ""; footer_html := "";
     head_html := ""; page_size := "A4"; margin_left := "0mm";
     margin_right := "0mm"; header_height := "0mm"; footer_height := "0mm";
     page_number_selector := ""; footer_only_on_last_page := false;
     page_padding_top := "16px"; callback := callback;
     onPdfReady := onPdfReady; onPdfError := onPdfError;
     containerSelector := containerSelector |}.

Definition boom : Error := mkError "Error" "boom".

(** ** The statements under test, where they are not the code's *)

(** The stored completion callback of [iter], when there is one, comes
    back. *)
Definition completion_returns (w : world) (iter : Z) : Prop :=
  match callbackStorage (this w) !! iter with
  | Some (Some f) => returns f
  | _ => True
  end.

(** The side of the stored pair that [PDF_READY] and [PDF_ERROR] look for:
    pagify.js:52 and pagify.js:67. *)
Definition ready_side (w : world) (instanceId : Z) : option function :=
  if truthy_number instanceId
  then pdfCallbackStorage (this w) !! instanceId ≫= stored_onPdfReady
  else None.

Definition error_side (w : world) (instanceId : Z) : option function :=
  if truthy_number instanceId
  then pdfCallbackStorage (this w) !! instanceId ≫= stored_onPdfError
  else None.

Definition side_returns (side : option function) : Prop :=
  match side with Some f => returns f | None => True end.

(** "Processing a completion message deletes the completion entry." *)
Definition completion_entry_deleted (h : host) (w : world) (iter : Z) : Prop :=
  callbackStorage (this (listener h (renderpdf iter) w).2) !! iter = None.

(** "If a pair is stored for the id, a PDF-ready message invokes one side
    of it and deletes the pair." *)
Definition stored_pair_resolved (h : host) (w : world) (iter : Z)
    (blobUrl : string) : Prop :=
  is_Some (pdfCallbackStorage (this w) !! iter) ->
  let w' := (listener h (PDF_READY iter blobUrl) w).2 in
  length (calls w') = S (length (calls w)) /\
  pdfCallbackStorage (this w') !! iter = None.

Definition pdfReady_event (blobUrl : string) : CustomEvent :=
  {| event_type := "pdfReady"; detail := ("blobUrl"%string, blobUrl) |}.

Definition pdfError_event (error : string) : CustomEvent :=
  {| event_type := "pdfError"; detail := ("error"%string, error) |}.

(** "Every PDF-ready message dispatches the global event." *)
Definition pdfReady_dispatched (h : host) (w : world) (iter : Z)
    (blobUrl : string) : Prop :=
  dispatched (listener h (PDF_READY iter blobUrl) w).2 =
  dispatched w ++ [pdfReady_event blobUrl].

(** "The promise of [render] is never rejected." *)
Definition render_fulfilled (h : host) (o : options) (w : world) : Prop :=
  (render h o w).1 = Normal tt.

(** The pair [render] stores, the iframe it mounts and where it mounts it. *)
Definition stored_pair (o : options) : pdf_callbacks :=
  {| stored_onPdfReady := onPdfReady o; stored_onPdfError := onPdfError o |}.

Definition mounted_iframe (st : style) (instanceId : Z) (o : options) : iframe :=
  {| iframe_style := st; srcdoc := Some (iframeHTML_of instanceId o) |}.

Definition append_to (n : node) (f : iframe)
    (c : gmap node (list iframe)) : gmap node (list iframe) :=
  <[n := default [] (c !! n) ++ [f]]> c.

Definition not_found_warning (selector : string) : list string :=
  ["Container with selector " +:+ dq +:+ selector +:+ dq +:+
   " not found. Using document.body instead."].

(** Every way [mount] can go. *)
Inductive mount_outcome (h : host) (instanceId : Z) (o : options) (w : world)
  : completion unit * world -> Prop :=
| mount_no_document :
    document_defined h = false ->
    mount_outcome h instanceId o w (Throw ReferenceError_document, w)
| mount_in_container selector n :
    document_defined h = true ->
    containerSelector o = Some selector -> truthy_string selector = true ->
    querySelector h selector = Found n ->
    mount_outcome h instanceId o w
      (Normal tt,
       with_children (append_to n (mounted_iframe fill_container instanceId o)) w)
| mount_invalid_selector selector e :
    document_defined h = true ->
    containerSelector o = Some selector -> truthy_string selector = true ->
    querySelector h selector = InvalidSelector e ->
    mount_outcome h instanceId o w (Throw e, w)
| mount_fallback selector n :
    document_defined h = true ->
    containerSelector o = Some selector -> truthy_string selector = true ->
    querySelector h selector = NotFound -> body h = Some n ->
    mount_outcome h instanceId o w
      (Normal tt,
       with_children (append_to n (mounted_iframe fill_container instanceId o))
         (console_warn (not_found_warning selector) w).2)
| mount_fallback_no_body selector :
    document_defined h = true ->
    containerSelector o = Some selector -> truthy_string selector = true ->
    querySelector h selector = NotFound -> body h = None ->
    mount_outcome h instanceId o w
      (Throw TypeError_appendChild,
       (console_warn (not_found_warning selector) w).2)
| mount_off_screen n :
    document_defined h = true ->
    truthy (containerSelector o) = false -> body h = Some n ->
    mount_outcome h instanceId o w
      (Normal tt,
       with_children (append_to n (mounted_iframe off_screen instanceId o)) w)
| mount_no_body :
    document_defined h = true ->
    truthy (containerSelector o) = false -> body h = None ->
    mount_outcome h instanceId o w (Throw TypeError_appendChild, w).

(** What a PDF-result message does to the registry and to the callbacks,
    given the side [side] the listener finds for it and its outcome [r]. *)
Definition pdf_result_resolved (side : option function) (payload : string)
    (iter : Z) (w : world) (r : completion unit * world) : Prop :=
  match side with
  | Some f =>
      calls r.2 = calls w ++ calls_of f [payload] /\
      (returns f ->
       r.1 = Normal tt /\
       pdfCallbackStorage (this r.2) = delete iter (pdfCallbackStorage (this w)) /\
       callbackStorage (this r.2) = callbackStorage (this w))
  | None =>
      r.1 = Normal tt /\ this r.2 = this w /\ calls r.2 = calls w
  end.

(** "One full-size bordered context is appended to the node." *)
Definition mounted_bordered (h : host) (o : options) (w : world) (n : node) : Prop :=
  exists f,
    children (render h o w).2 !! n = Some (default [] (children w !! n) ++ [f]) /\
    width (iframe_style f) = Some "100%"%string /\
    height (iframe_style f) = Some "100%"%string /\
    bordered f.

(** Statement under test: the composed document contains exactly one footer
    region, counted by the openers of footer regions in its text. *)
Definition one_footer_region (doc : string) : Prop :=
  occurrences footer_key doc = 1%nat.

(** A body that brings a footer region of its own:
    [<div class="footer">mine</div>]. *)
Definition body_with_footer : string := footer_key +:+ ">mine</div>".

(** The static text of [buildIframeHTML] after the scripts. *)
Definition static_text : list string :=
  [IframeHTML_3; IframeHTML_4; IframeHTML_5; IframeHTML_6; IframeHTML_7;
   IframeHTML_8; IframeHTML_9; IframeHTML_10; IframeHTML_11; IframeHTML_12;
   IframeHTML_13; IframeHTML_14].

(** The scanner for the footer opener, at rest. *)
Definition idle (out : list string) : scanner :=
  {| mode := Seeking footer_key; found := out |}.

(** A text with no footer opener in it, nor the beginning of one at its
    end: scanning it at rest finds nothing and comes to rest. *)
Definition footer_free (t : string) : Prop :=
  forall out, scan footer_key t (idle out) = idle out.

(** The document up to the body, and after it. *)
Definition before_body (instanceId : Z)
    (header_html footer_html head_html page_size
     margin_left margin_right header_height footer_height : string)
    (footer_only_on_last_page : bool)
    (page_padding_top pageNumberCSS : string) : string :=
  scripts instanceId +:+
  styles_and_header header_html head_html page_size margin_left margin_right
    header_height footer_height page_padding_top pageNumberCSS +:+
  footer_before_body footer_only_on_last_page footer_html +:+
  IframeHTML_12.

Definition after_body (footer_html : string)
    (footer_only_on_last_page : bool) : string :=
  IframeHTML_13 +:+
  footer_after_body footer_only_on_last_page footer_html +:+
  IframeHTML_14.

(** ** Worlds reached by one call of [render] in the browser *)

Definition after_render_throwing_callback : world :=
  (render browser (sample (Some (CallerFn "done" (Throws boom))) None None None)
     loaded).2.

Definition after_render_with_callback : world :=
  (render browser (sample (Some (CallerFn "done" Returns)) None None None)
     loaded).2.

Definition after_render_onPdfError_only : world :=
  (render browser (sample None None (Some (CallerFn "failed" Returns)) None)
     loaded).2.

Definition after_render_with_pdf_callbacks : world :=
  (render browser
     (sample None (Some (CallerFn "ready" Returns))
        (Some (CallerFn "failed" Returns)) None)
     loaded).2.

Definition after_render_throwing_onPdfReady : world :=
  (render browser (sample None (Some (CallerFn "ready" (Throws boom))) None None)
     loaded).2.

(** ** More statements: the registry, the promises and mounting *)

(** The identifier a message is about. *)
Definition message_iter (m : MessageData) : option Z :=
  match m with
  | renderpdf iter | PDF_READY iter _ | PDF_ERROR iter _ => Some iter
  | unrecognised => None
  end.

(** The side of the stored pair a message looks for, and what the message
    hands to it. *)
Definition result_side (w : world) (m : MessageData) : option function :=
  match m with
  | PDF_READY iter _ => ready_side w iter
  | PDF_ERROR iter _ => error_side w iter
  | _ => None
  end.

Definition payload (m : MessageData) : string :=
  match m with
  | PDF_READY _ blobUrl => blobUrl
  | PDF_ERROR _ error => error
  | _ => ""
  end.

(** Every key of the two stores is an identifier that was allocated, and a
    stored pair has a side that is set. *)
Definition registry_fresh (s : PagifySDK) : Prop :=
  1 <= instanceCounter s /\
  (forall id, is_Some (callbackStorage s !! id) -> 1 <= id < instanceCounter s) /\
  (forall id pair, pdfCallbackStorage s !! id = Some pair ->
     1 <= id < instanceCounter s /\
     (truthy_function (stored_onPdfReady pair) ||
      truthy_function (stored_onPdfError pair) = true)).

(** A promise that is settled in [w] is settled the same way in [w']. *)
Definition settled_stay (w w' : world) : Prop :=
  forall p s, promises w !! p = Some (Some s) -> promises w' !! p = Some (Some s).

(** Why [mount] throws in the host [h], and what it throws. *)
Inductive mount_failure (h : host) (o : options) : Error -> Prop :=
| no_document :
    document_defined h = false ->
    mount_failure h o ReferenceError_document
| invalid_selector selector e :
    document_defined h = true ->
    containerSelector o = Some selector -> truthy_string selector = true ->
    querySelector h selector = InvalidSelector e ->
    mount_failure h o e
| no_body_to_fall_back_to selector :
    document_defined h = true ->
    containerSelector o = Some selector -> truthy_string selector = true ->
    querySelector h selector = NotFound -> body h = None ->
    mount_failure h o TypeError_appendChild
| no_body :
    document_defined h = true ->
    truthy (containerSelector o) = false -> body h = None ->
    mount_failure h o TypeError_appendChild.

(** The pair of closures [generatePDF] registers for its promise [p]. *)
Definition facade_pair (p : nat) : pdf_callbacks :=
  {| stored_onPdfReady := Some (FacadeOnReady p);
     stored_onPdfError := Some (FacadeOnError p) |}.

(** The calls of the completion callback of [o]. *)
Definition completion_calls (o : options) : list call :=
  match callback o with
  | Some f => calls_of f []
  | None => []
  end.

(** The messages [ms], handled in order by the listener of the host [h]; an
    exception out of the listener does not stop the next message. *)
Definition deliver (h : host) (ms : list MessageData) (w : world) : world :=
  foldl (fun w m => (perform h (post m) w).2) w ms.

(** What the isolated context of the identifier [instanceId] may post, from
    first to last. *)
Inductive conversation (instanceId : Z) : list MessageData -> Prop :=
| pagination_failed error :
    conversation instanceId
      [PDF_ERROR instanceId ("Failed to initialize Paged.js: " +:+ error)]
| conversion_done blobUrl :
    conversation instanceId [renderpdf instanceId; PDF_READY instanceId blobUrl]
| conversion_failed error :
    conversation instanceId [renderpdf instanceId; PDF_ERROR instanceId error].

(** ** More statements: the composed document *)

(** [doc] declares the CSS property [property] with the value [value]. *)
Definition declares (property value doc : string) : Prop :=
  exists pre post,
    doc = pre +:+ property +:+ ": " +:+ value +:+ ";" +:+ post.

(** [s] without its last [k] characters. *)
Definition chop (k : nat) (s : string) : string :=
  substring 0 (String.length s - k) s.

(** The opener of the header region and the page counter of the
    page-number rule. *)
Definition header_key : string := "<div class=" +:+ dq +:+ "header" +:+ dq.
Definition counter_key : string := "counter(page)".

(** The scanner for [key], at rest. *)
Definition at_rest (key : string) (out : list string) : scanner :=
  {| mode := Seeking key; found := out |}.

(** [t] holds [n] occurrences of [key], and no beginning of one at its
    end: scanning it at rest finds [n] fields and comes to rest. *)
Definition holds (key : string) (n : nat) (t : string) : Prop :=
  forall out, exists extra,
    length extra = n /\ scan key t (at_rest key out) = at_rest key (extra ++ out).

(** [{ body_html: "<h1>X</h1>", page_number_selector: ".page-number" }] *)
Definition numbered : options :=
  {| body_html := "<h1>X</h1>"; header_html := ""; footer_html := "";
     head_html := ""; page_size := "A4"; margin_left := "0mm";
     margin_right := "0mm"; header_height := "0mm"; footer_height := "0mm";
     page_number_selector := ".page-number"; footer_only_on_last_page := false;
     page_padding_top := "16px"; callback := None;
     onPdfReady := None; onPdfError := None; containerSelector := None |}.

(** ** The program of the isolated context *)

(** The two scripts of the composed document, as the program they are:
    the callback of [document.fonts.ready.then], pagify.js:353-453, and
    [generatePdfBlob], pagify.js:463-601.  What the program does outside
    itself is post messages to the parent window and, in one case, append a
    script element to its own [head]: these are its [effect]s, in order.
    Its console is not modelled, nor the handler class it registers with
    Paged.js (pagify.js:359-425), which runs inside [preview].  Each
    promise it awaits from a library is taken as settled, and the record
    [isolated] says how. *)
Inductive effect : Type :=
| posts (event_data : MessageData)
| appends_script (src : string).

Definition posted (effects : list effect) : list MessageData :=
  omap (fun e => match e with posts m => Some m | _ => None end) effects.

Definition scripts_appended (effects : list effect) : list string :=
  omap (fun e => match e with appends_script src => Some src | _ => None end)
    effects.

Definition html2pdf_bundle : string :=
  "https://unpkg.com/html2pdf.js@0.10.1/dist/html2pdf.bundle.min.js".

Definition Error_not_found : Error :=
  mkError "Error" "html2pdf function not found in imported module".

Definition Error_not_available : Error :=
  mkError "Error" "html2pdf not available after loading script".

Definition Error_script_failed : Error :=
  mkError "Error" "Failed to load html2pdf script".

Definition Error_no_content : Error :=
  mkError "Error" "No content found in body element".

Definition TypeError_innerHTML : Error :=
  mkError "TypeError" "Cannot read properties of null (reading 'innerHTML')".

(** The white space that [String.prototype.trim] removes, among the
    characters up to U+00FF. *)
Definition white_space (c : ascii) : bool :=
  existsb (Nat.eqb (nat_of_ascii c)) [9; 10; 11; 12; 13; 32; 160]%nat.

(** [s.trim().length === 0] *)
Definition blank (s : string) : bool :=
  forallb white_space (list_ascii_of_string s).

(** [typeof v === 'function'], for a value that is [None] when it is no
    function. *)
Definition typeof_function {A} (v : option A) : bool :=
  match v with Some _ => true | None => false end.

Section Isolated.

Context {page : Type}.

(** A value of which [typeof] says ['function'], used as the conversion
    library: [toPdf] is what [html2pdfLib().set(opt).from(body).toPdf()
    .get("pdf")] comes to, the document or a failure (thrown at the call or
    a rejection, which end in the same message), and [outputPdf] what
    [.outputPdf("blob")] makes of the document. *)
Record html2pdf := {
  toPdf : list page + Error;
  outputPdf : list page -> Blob + Error
}.

(** A module namespace object: its keys in the order of [Object.keys],
    each with its value when that value is a function. *)
Definition module : Type := list (string * option html2pdf).

(** The script element appended to [head]: [onload], with [window.html2pdf]
    as it is then, or [onerror]. *)
Inductive script_outcome : Type :=
| script_loads (window_html2pdf : option html2pdf)
| script_fails.

(** [import_pagedjs] is [await import('.../paged.esm.js')], [None] when it
    is fulfilled; [preview] is what follows it up to [totalPages =
    result.total] (the registration of the handler, [new Previewer()] and
    [await previewer.preview()]), the total or what one of them throws;
    [import_html2pdf] is [await import('.../html2pdf.bundle.min.js')];
    [window_html2pdf] is [window.html2pdf] once that import is settled,
    when it is a function; [body_innerHTML] is [document.body.innerHTML],
    [None] where [document.body] is [null]. *)
Record isolated := {
  import_pagedjs : option Error;
  preview : Z + Error;
  import_html2pdf : module + Error;
  window_html2pdf : option html2pdf;
  script_tag : script_outcome;
  body_innerHTML : option string;
  createObjectURL : Blob -> string
}.

(** [html2pdfModule[key]] when it is a function. *)
Fixpoint function_at (m : module) (key : string) : option html2pdf :=
  match m with
  | [] => None
  | (k, v) :: m' => if String.eqb k key then v else function_at m' key
  end.

(** [Object.keys(html2pdfModule).filter(key => typeof html2pdfModule[key]
    === 'function')] *)
Definition functionKeys (m : module) : list string :=
  filter (fun key => is_Some (function_at m key)) m.*1.

Definition Error_not_a_function (m : module) : Error :=
  mkError "Error"
    ("html2pdfLib is not a function. Available keys: " +:+ String.concat ", " m.*1).

(** pagify.js:477-499: the value the selection leaves in [html2pdfLib],
    [None] when it is no function, and the check that follows it. *)
Definition select_html2pdf (env : isolated) (m : module) : html2pdf + Error :=
  let html2pdfLib : option html2pdf + Error :=
    if typeof_function (function_at m "default")
    then inl (function_at m "default")
    else if typeof_function (function_at m "html2pdf")
    then inl (function_at m "html2pdf")
    else if typeof_function (window_html2pdf env)
    then inl (window_html2pdf env)
    else match functionKeys m with
         | key :: _ => inl (function_at m key)
         | [] => inr Error_not_found
         end in
  match html2pdfLib with
  | inl (Some lib) => inl lib
  | inl None => inr (Error_not_a_function m)
  | inr e => inr e
  end.

(** The fallback of pagify.js:504-524: the library is [window.html2pdf],
    after a script element was appended where it was not there yet. *)
Definition script_tag_fallback (env : isolated) : list effect * (html2pdf + Error) :=
  match window_html2pdf env with
  | Some lib => ([], inl lib)
  | None =>
      ([appends_script html2pdf_bundle],
       match script_tag env with
       | script_loads (Some lib) => inl lib
       | script_loads None => inr Error_not_available
       | script_fails => inr Error_script_failed
       end)
  end.

(** pagify.js:469-525: the dynamic import and the selection, and the
    fallback for whatever they throw. *)
Definition load_html2pdf (env : isolated) : list effect * (html2pdf + Error) :=
  match import_html2pdf env with
  | inl html2pdfModule =>
      match select_html2pdf env html2pdfModule with
      | inl lib => ([], inl lib)
      | inr importError => script_tag_fallback env
      end
  | inr importError => script_tag_fallback env
  end.

(** pagify.js:528-535. *)
Definition check_body (env : isolated) : unit + Error :=
  match body_innerHTML env with
  | None => inr TypeError_innerHTML
  | Some innerHTML => if blank innerHTML then inr Error_no_content else inl tt
  end.

(** The callback of [.get("pdf").then(...)] with the global [totalPages],
    which is [undefined] until pagination has set it. *)
Definition trim (totalPages : option Z) (pdf : list page) : list page :=
  match totalPages with
  | Some totalPages => remove_extra_pages totalPages pdf
  | None => pdf
  end.

(** The chain of pagify.js:562-583, up to the blob URL. *)
Definition convert (env : isolated) (lib : html2pdf) (totalPages : option Z)
    : string + Error :=
  match toPdf lib with
  | inl pdf =>
      match outputPdf lib (trim totalPages pdf) with
      | inl blob => inl (createObjectURL env blob)
      | inr error => inr error
      end
  | inr error => inr error
  end.

(** [generatePdfBlob()], pagify.js:463-601: its two [catch] blocks post the
    same message. *)
Definition generatePdfBlob (env : isolated) (totalPages : option Z)
    (instanceId : Z) : list effect :=
  let '(effects, html2pdfLib) := load_html2pdf env in
  let result :=
    match html2pdfLib with
    | inl lib =>
        match check_body env with
        | inl _ => convert env lib totalPages
        | inr error => inr error
        end
    | inr error => inr error
    end in
  effects ++
  [posts match result with
         | inl blobUrl => PDF_READY instanceId blobUrl
         | inr error => PDF_ERROR instanceId (message error)
         end].

(** The callback of [document.fonts.ready.then(...)], pagify.js:353-453. *)
Definition fonts_ready (env : isolated) (instanceId : Z) : list effect :=
  match (match import_pagedjs env with
         | None => preview env
         | Some error => inr error
         end) with
  | inl total =>
      posts (renderpdf instanceId) :: generatePdfBlob env (Some total) instanceId
  | inr error =>
      [posts (PDF_ERROR instanceId
                ("Failed to initialize Paged.js: " +:+ message error))]
  end.

End Isolated.

Arguments html2pdf : clear implicits.
Arguments module : clear implicits.
Arguments script_outcome : clear implicits.
Arguments isolated : clear implicits.

(** A context in which everything works: the module exports the library as
    [default], pagination counts two pages and the conversion makes
    three. *)
Definition three_pages : html2pdf string :=
  {| toPdf := inl ["p1"; "p2"; "p3"]%string;
     outputPdf := fun pdf => inl (mkBlob (String.concat "," pdf)) |}.

Definition working : isolated string :=
  {| import_pagedjs := None;
     preview := inl 2;
     import_html2pdf := inl [("default"%string, Some three_pages)];
     window_html2pdf := None;
     script_tag := script_fails;
     body_innerHTML := Some "<h1>X</h1>"%string;
     createObjectURL := fun blob => "blob:" +:+ blob_bytes blob |}.

(** The iframes mounted under the node [n]. *)
Definition mounted (w : world) (n : node) : list iframe :=
  default [] (children w !! n).

(** What the listener logs for a message. *)
Definition logged (m : MessageData) : list console_line :=
  match m with
  | PDF_READY _ blobUrl =>
      [{| level := level_log; text := ["PDF blob ready:"; blobUrl]%string |}]
  | PDF_ERROR _ error =>
      [{| level := level_error; text := ["PDF generation error:"; error]%string |}]
  | _ => []
  end.

(** [a] starts with a character that is no number character. *)
Definition starts_plain (a : string) : bool :=
  match a with
  | String c _ => negb (number_char c)
  | EmptyString => false
  end.

(** [{ ...o, onPdfReady: ready, onPdfError: error }] *)
Definition with_pdf_callbacks (ready error : option function) (o : options)
    : options :=
  {| body_html := body_html o; header_html := header_html o;
     footer_html := footer_html o; head_html := head_html o;
     page_size := page_size o; margin_left := margin_left o;
     margin_right := margin_right o; header_height := header_height o;
     footer_height := footer_height o;
     page_number_selector := page_number_selector o;
     footer_only_on_last_page := footer_only_on_last_page o;
     page_padding_top := page_padding_top o;
     callback := callback o;
     onPdfReady := ready;
     onPdfError := error;
     containerSelector := containerSelector o |}.

(** ** The iframes of each SDK object *)

(** The iframes a step of the process appended under the node [n]. *)
Definition appended (p p' : process) (n : node) : list iframe :=
  drop (length (mounted p.2 n)) (mounted p'.2 n).

(** The object a call is made on; a message is handled by every object
    and a new object has made no call yet. *)
Definition performed_by (k : nat) (op : process_operation) : bool :=
  match op with
  | render_on j _ | generatePDF_on j _ => bool_decide (j = k)
  | new_PagifySDK | window_message _ => false
  end.

(** The iframes the calls made on the object [k] appended under the node
    [n] over a process lifetime, in order. *)
Fixpoint mounted_by (k : nat) (ops : list (host * process_operation)) (p : process)
    (n : node) : list iframe :=
  match ops with
  | [] => []
  | (h, op) :: ops =>
      (if performed_by k op then appended p (process_step h op p).2 n else []) ++
      mounted_by k ops (process_step h op p).2 n
  end.

(** The process after a sequence of operations. *)
Definition process_run (ops : list (host * process_operation)) (p : process) : process :=
  foldl (fun p x => (process_step x.1 x.2 p).2) p ops.

(** The tags that close the head and open and close the body. *)
Definition head_close_key : string := "</head>".
Definition body_open_key : string := "<body>".
Definition body_close_key : string := "</body>".

(** The document from its start through [head_html], and from
    [header_html] through the footer slot after the body: what is between
    the two is [IframeHTML_10], and what follows is [IframeHTML_14]. *)
Definition head_part (instanceId : Z)
    (head_html page_size margin_left margin_right header_height footer_height
     page_padding_top pageNumberCSS : string) : string :=
  scripts instanceId +:+
  pageNumberCSS +:+ IframeHTML_3 +:+ page_padding_top +:+
  IframeHTML_4 +:+ margin_left +:+
  IframeHTML_5 +:+ margin_right +:+
  IframeHTML_6 +:+ header_height +:+
  IframeHTML_7 +:+ footer_height +:+
  IframeHTML_8 +:+ page_size +:+
  IframeHTML_9 +:+ head_html.

Definition body_part (body_html header_html footer_html : string)
    (footer_only_on_last_page : bool) : string :=
  header_html +:+ IframeHTML_11 +:+
  footer_before_body footer_only_on_last_page footer_html +:+
  IframeHTML_12 +:+ body_html +:+ IframeHTML_13 +:+
  footer_after_body footer_only_on_last_page footer_html.

(** The static text of the document outside [IframeHTML_10] and
    [IframeHTML_14]. *)
Definition plain_text : list string :=
  [IframeHTML_0; PagedJSInitScript_0; PagedJSInitScript_1; PagedJSInitScript_2;
   IframeHTML_1; PdfGenerationScript_0; PdfGenerationScript_1;
   PdfGenerationScript_2; PdfGenerationScript_3; IframeHTML_2;
   IframeHTML_3; IframeHTML_4; IframeHTML_5; IframeHTML_6; IframeHTML_7;
   IframeHTML_8; IframeHTML_9; IframeHTML_11; IframeHTML_12; IframeHTML_13;
   footer_open; footer_close].

(** * Properties *)

(** ** Text and scanning *)

Lemma append_nil (t : string) : "" +:+ t = t.
Proof. reflexivity. Qed.

Lemma append_cons c (s t : string) : String c s +:+ t = String c (s +:+ t).
Proof. reflexivity. Qed.

Lemma append_nil_r (s : string) : s +:+ "" = s.
Proof. induction s as [|c s IH]; [reflexivity | now rewrite append_cons, IH]. Qed.

Lemma append_assoc (a b c : string) : (a +:+ b) +:+ c = a +:+ (b +:+ c).
Proof. induction a as [|x a IH]; [reflexivity | now rewrite !append_cons, IH]. Qed.

Lemma occurs_in_app c a b : occurs_in c (a +:+ b) = occurs_in c a || occurs_in c b.
Proof.
  induction a as [|x a IH]; [reflexivity |].
  rewrite append_cons. cbn. rewrite IH. now rewrite orb_assoc.
Qed.

(** *** The scanner finds the fields *)

Section Sound.

Variables (k0 : ascii) (tail : string).
Let key := String k0 tail.
Hypothesis Hnum : number_char k0 = false.
Hypothesis Hfirst : occurs_in k0 tail = false.

(** No occurrence of the key starts with a character of its tail, nor with
    a number character. *)
Lemma field_at_tail pre k rest t :
  tail = pre +:+ String k rest -> field_at key (String k t) = [].
Proof.
  intros Htail. unfold field_at, key. cbn.
  destruct (Ascii.eqb_spec k0 k) as [->|]; [|reflexivity].
  rewrite Htail, occurs_in_app in Hfirst. cbn in Hfirst.
  rewrite Ascii.eqb_refl in Hfirst. cbn in Hfirst.
  now rewrite orb_true_r in Hfirst.
Qed.

Lemma field_at_number c t : number_char c = true -> field_at key (String c t) = [].
Proof.
  intros Hc. unfold field_at, key. cbn.
  destruct (Ascii.eqb_spec k0 c) as [->|]; [congruence | reflexivity].
Qed.

Lemma tail_not_key pre rest : tail = pre +:+ rest -> rest <> key.
Proof.
  intros Htail ->. unfold key in Htail.
  rewrite Htail, occurs_in_app in Hfirst. cbn in Hfirst.
  rewrite Ascii.eqb_refl in Hfirst. now rewrite orb_true_r in Hfirst.
Qed.

Lemma expect_tail pre rest :
  tail = pre +:+ rest -> well_formed k0 tail (expect rest).
Proof.
  intros Htail. destruct rest as [|k rest']; cbn; [exact I |].
  right. eauto.
Qed.

Lemma pending_expect pre rest t :
  tail = pre +:+ rest -> pending key (expect rest) t = field_at rest t.
Proof.
  intros Htail. destruct rest as [|k rest']; cbn [expect pending]; [reflexivity |].
  destruct (String.eqb_spec (String k rest') key) as [E|_]; [|reflexivity].
  now apply tail_not_key in Htail.
Qed.

(** Restarting on [c] finds what an occurrence that starts at [c] gives. *)
Lemma restart_spec c t :
  well_formed k0 tail (restart key c) /\
  pending key (restart key c) t = field_at key (String c t).
Proof.
  assert (Hf : field_at key (String c t) =
               if Ascii.eqb k0 c then field_at tail t else []).
  { unfold field_at, key. cbn [strip]. now destruct (Ascii.eqb k0 c). }
  rewrite Hf. unfold restart, key. fold key.
  destruct (Ascii.eqb k0 c).
  - split; [apply (expect_tail ""); reflexivity |].
    now rewrite (pending_expect "" tail) by reflexivity.
  - split; [now left |]. cbn [pending]. now rewrite String.eqb_refl.
Qed.

Lemma seek_key c : seek key c key = restart key c.
Proof. unfold seek, restart, key. now destruct (Ascii.eqb k0 c). Qed.

(** One character: what was found and what is pending, before and after. *)
Lemma step_spec c t st :
  well_formed k0 tail (mode st) ->
  well_formed k0 tail (mode (step key c st)) /\
  rev (found (step key c st)) ++ pending key (mode (step key c st)) t =
  rev (found st) ++ pending key (mode st) (String c t) ++ field_at key (String c t).
Proof.
  destruct st as [[rest|field] out]; unfold step; cbn [mode found].
  - intros [->|(pre & k & rest' & -> & Htail)].
    + fold key. rewrite seek_key. cbn [pending]. rewrite String.eqb_refl.
      destruct (restart_spec c t) as [Hwf Hp]. split; [assumption |].
      now rewrite Hp.
    + cbn [seek pending].
      destruct (String.eqb_spec (String k rest') key) as [E|_];
        [now apply tail_not_key in Htail |].
      unfold field_at at 1. cbn [strip].
      destruct (Ascii.eqb_spec k c) as [->|Hkc].
      * rewrite (field_at_tail pre c rest' t Htail), app_nil_r.
        split.
        -- apply (expect_tail (pre +:+ String c "")).
           now rewrite append_assoc.
        -- f_equal. apply (pending_expect (pre +:+ String c "")).
           now rewrite append_assoc.
      * destruct (restart_spec c t) as [Hwf Hp]. split; [assumption |].
        now rewrite Hp.
  - intros _. cbn [pending].
    destruct (number_char c) eqn:Hc; cbn [mode found pending].
    + split; [exact I |].
      rewrite (field_at_number c t Hc), app_nil_r. cbn [number_run].
      rewrite Hc. now rewrite append_assoc.
    + destruct (restart_spec c t) as [Hwf Hp]. split; [assumption |].
      cbn [number_run rev]. rewrite Hc, append_nil_r, Hp.
      now rewrite <- !app_assoc.
Qed.

Lemma pending_end m :
  well_formed k0 tail m ->
  finish {| mode := m; found := [] |} = pending key m "".
Proof.
  destruct m as [rest|field]; cbn.
  - intros [->|(pre & k & rest' & -> & Htail)].
    + fold key. now rewrite String.eqb_refl.
    + destruct (String.eqb_spec (String k rest') key) as [E|_];
        [now apply tail_not_key in Htail | reflexivity].
  - intros _. now rewrite append_nil_r.
Qed.

Lemma scan_spec t : forall st,
  well_formed k0 tail (mode st) ->
  finish (scan key t st) =
  rev (found st) ++ pending key (mode st) t ++ fields_after key t.
Proof.
  induction t as [|c t IH]; intros st Hwf.
  - cbn [scan fields_after]. rewrite app_nil_r.
    destruct st as [m out]. cbn [mode found] in *.
    rewrite <- (pending_end m Hwf). unfold finish; cbn.
    destruct m; cbn; [now rewrite app_nil_r | reflexivity].
  - cbn [scan fields_after].
    destruct (step_spec c t st Hwf) as [Hwf' Hstep].
    rewrite (IH _ Hwf'), app_assoc, Hstep. now rewrite <- !app_assoc.
Qed.

Lemma scan_sound s :
  finish (scan key s {| mode := Seeking key; found := [] |}) = fields_after key s.
Proof.
  rewrite scan_spec by now left. cbn [mode found rev pending app].
  now rewrite String.eqb_refl.
Qed.

End Sound.

(** For a good key, the fields are what the scanner finds. *)
Lemma scan_fields key s :
  good_key key = true ->
  fields_after key s = finish (scan key s {| mode := Seeking key; found := [] |}).
Proof.
  destruct key as [|k0 tail]; [discriminate |]. unfold good_key.
  intros H. apply andb_prop in H as [H1 H2].
  apply negb_true_iff in H1. apply negb_true_iff in H2.
  symmetry. exact (scan_sound k0 tail H1 H2 s).
Qed.

Example fields_after_sample :
  fields_after iter_key "{ iter: 12 }, { iiter: 5, iter: x }, { iter: -3" =
  ["12"; "5"; ""; "-3"]%string.
Proof. reflexivity. Qed.

(** *** Scanning a template *)

Lemma scan_app key s t st : scan key (s +:+ t) st = scan key t (scan key s st).
Proof.
  revert st. induction s as [|c s IH]; intros st; [reflexivity |].
  rewrite append_cons. simpl. apply IH.
Qed.

(** While it reads a number the scanner collects its characters. *)
Lemma scan_number key s acc out :
  number_chars s = true ->
  scan key s {| mode := Reading acc; found := out |} =
  {| mode := Reading (acc +:+ s); found := out |}.
Proof.
  revert acc. induction s as [|c s IH]; intros acc H; simpl in *.
  - now rewrite append_nil_r.
  - apply andb_prop in H as [Hc Hs]. unfold step; simpl. rewrite Hc.
    rewrite IH by assumption. now rewrite append_assoc.
Qed.

(** A number cannot begin a good key. *)
Lemma scan_number_seeking key s out :
  good_key key = true ->
  number_chars s = true ->
  scan key s {| mode := Seeking key; found := out |} =
  {| mode := Seeking key; found := out |}.
Proof.
  destruct key as [|k0 tail]; [discriminate |]. unfold good_key.
  intros Hk. apply andb_prop in Hk as [Hk0 _]. apply negb_true_iff in Hk0.
  induction s as [|c s IH]; intros H; simpl in *; [reflexivity |].
  apply andb_prop in H as [Hc Hs]. unfold step, seek, restart; simpl.
  destruct (Ascii.eqb_spec k0 c) as [->|_]; [congruence | now apply IH].
Qed.

Lemma number_chars_uint d : number_chars (NilEmpty.string_of_uint d) = true.
Proof. induction d; simpl; auto. Qed.

Lemma number_chars_show n : number_chars (show n) = true.
Proof.
  unfold show. destruct (Z.to_int n) as [d|d]; simpl;
    destruct d; try reflexivity; apply (number_chars_uint (_ _)).
Qed.

(** The decimal text of an identifier reads back as that identifier. *)
Lemma read_show n : read (show n) = Some n.
Proof.
  unfold read, show. rewrite NilZero.isi.
  - simpl. now rewrite DecimalZ.of_to.
  - destruct n; simpl; try discriminate.
    intros [= H]. now apply DecimalPos.Unsigned.to_uint_nonnil in H.
  - destruct n; simpl; try discriminate.
    intros [= H]. now apply DecimalPos.Unsigned.to_uint_nonnil in H.
Qed.

(** Scanning one static text of a template: by evaluation. *)
Ltac scan_text :=
  match goal with
  | |- context [scan ?k ?X {| mode := ?m; found := ?o |}] =>
      is_const X;
      let e := constr:(scan k X {| mode := m; found := o |}) in
      let r := eval vm_compute in e in
      replace e with r by (vm_compute; reflexivity)
  end.

(** Scanning the digits of the identifier. *)
Ltac scan_digits H :=
  first
    [ rewrite (scan_number _ _ _ _ H)
    | rewrite (scan_number_seeking postMessage_key _ _ eq_refl H)
    | rewrite (scan_number_seeking footer_key _ _ eq_refl H) ].

Ltac scan_template id :=
  let H := fresh "Hdigits" in
  let s := fresh "digits" in
  pose proof (number_chars_show id) as H;
  generalize dependent (show id); intros s H;
  unfold occurrences; rewrite scan_fields by reflexivity;
  rewrite ?scan_app;
  repeat (first [scan_text | scan_digits H]);
  vm_compute; reflexivity.

Lemma iter_fields_init instanceId :
  fields_after iter_key (getPagedJSInitScript instanceId) =
  [show instanceId; show instanceId].
Proof. unfold getPagedJSInitScript. scan_template instanceId. Qed.

Lemma iter_fields_pdf instanceId :
  fields_after iter_key (getPdfGenerationScript instanceId) =
  [show instanceId; show instanceId; show instanceId].
Proof. unfold getPdfGenerationScript. scan_template instanceId. Qed.

Lemma posts_init instanceId :
  occurrences postMessage_key (getPagedJSInitScript instanceId) = 2%nat.
Proof. unfold getPagedJSInitScript. scan_template instanceId. Qed.

Lemma posts_pdf instanceId :
  occurrences postMessage_key (getPdfGenerationScript instanceId) = 3%nat.
Proof. unfold getPdfGenerationScript. scan_template instanceId. Qed.

Lemma iter_fields_scripts instanceId :
  fields_after iter_key (scripts instanceId) = replicate 5 (show instanceId).
Proof.
  unfold scripts, getPagedJSInitScript, getPdfGenerationScript.
  rewrite !append_assoc. scan_template instanceId.
Qed.

Lemma posts_scripts instanceId :
  occurrences postMessage_key (scripts instanceId) = 5%nat.
Proof.
  unfold scripts, getPagedJSInitScript, getPdfGenerationScript.
  rewrite !append_assoc. scan_template instanceId.
Qed.

Lemma no_footer_in_scripts instanceId :
  occurrences footer_key (scripts instanceId) = 0%nat.
Proof.
  unfold scripts, getPagedJSInitScript, getPdfGenerationScript.
  rewrite !append_assoc. scan_template instanceId.
Qed.

(** ** The monad *)

Lemma invoke_frame h f args w :
  let w' := (invoke h f args w).2 in
  this w' = this w /\ children w' = children w /\ console w' = console w /\
  dispatched w' = dispatched w /\ calls w' = calls w ++ calls_of f args.
Proof.
  destruct f as [fn [|e]|p|p]; cbn.
  1,2: repeat split; reflexivity.
  - destruct (fetch h _); cbn; rewrite app_nil_r; repeat split; reflexivity.
  - rewrite app_nil_r; repeat split; reflexivity.
Qed.

Lemma invoke_returns h f args w :
  returns f -> (invoke h f args w).1 = Normal tt.
Proof.
  destruct f as [fn [|e]|p|p]; cbn; try tauto; try reflexivity.
  intros _. destruct (fetch h _); reflexivity.
Qed.

Lemma invoke_throws h fn e args w :
  invoke h (CallerFn fn (Throws e)) args w =
  (Throw e, with_calls (fun c => c ++ [{| callee := fn; arguments := args |}]) w).
Proof. reflexivity. Qed.

(** ** The listener *)

(** What [listener] does with a completion message, step by step. *)
Lemma listener_renderpdf h w iter :
  listener h (renderpdf iter) w =
  match callbackStorage (this w) !! iter with
  | Some (Some f) =>
      match invoke h f [] w with
      | (Normal _, w1) =>
          (Normal tt, with_this (with_callbackStorage (delete iter)) w1)
      | (Throw e, w1) => (Throw e, w1)
      end
  | _ => (Normal tt, with_this (with_callbackStorage (delete iter)) w)
  end.
Proof.
  unfold listener, bind, gets; cbn.
  destruct (callbackStorage (this w) !! iter) as [[f|]|]; reflexivity.
Qed.

(** What [listener] does with a PDF-ready message, step by step. *)
Lemma listener_PDF_READY h w iter blobUrl :
  let w0 := (console_log ["PDF blob ready:"; blobUrl]%string w).2 in
  listener h (PDF_READY iter blobUrl) w =
  match ready_side w iter with
  | Some f =>
      match invoke h f [blobUrl] w0 with
      | (Normal _, w1) =>
          dispatchEvent "pdfReady" "blobUrl" blobUrl
            (with_this (with_pdfCallbackStorage (delete iter)) w1)
      | (Throw e, w1) => (Throw e, w1)
      end
  | None => dispatchEvent "pdfReady" "blobUrl" blobUrl w0
  end.
Proof.
  unfold listener, ready_side, bind, gets; cbn.
  destruct (truthy_number iter); cbn;
    [destruct (pdfCallbackStorage (this w) !! iter ≫= stored_onPdfReady) as [f|]|];
    try reflexivity.
  destruct (invoke h f [blobUrl] _) as [[[]|e] w1]; reflexivity.
Qed.

(** And with a PDF-error message. *)
Lemma listener_PDF_ERROR h w iter error :
  let w0 := (console_error ["PDF generation error:"; error]%string w).2 in
  listener h (PDF_ERROR iter error) w =
  match error_side w iter with
  | Some f =>
      match invoke h f [error] w0 with
      | (Normal _, w1) =>
          dispatchEvent "pdfError" "error" error
            (with_this (with_pdfCallbackStorage (delete iter)) w1)
      | (Throw e, w1) => (Throw e, w1)
      end
  | None => dispatchEvent "pdfError" "error" error w0
  end.
Proof.
  unfold listener, error_side, bind, gets; cbn.
  destruct (truthy_number iter); cbn;
    [destruct (pdfCallbackStorage (this w) !! iter ≫= stored_onPdfError) as [f|]|];
    try reflexivity.
  destruct (invoke h f [error] _) as [[[]|e] w1]; reflexivity.
Qed.

(** The listener never touches the counter. *)
Lemma listener_counter h m w :
  instanceCounter (this (listener h m w).2) = instanceCounter (this w).
Proof.
  destruct m as [iter|iter blobUrl|iter error|].
  - rewrite listener_renderpdf.
    destruct (callbackStorage (this w) !! iter) as [[f|]|]; try reflexivity.
    pose proof (invoke_frame h f [] w) as (Hthis & _).
    destruct (invoke h f [] w) as [[[]|e] w1]; cbn in *; now rewrite Hthis.
  - rewrite listener_PDF_READY.
    destruct (ready_side w iter) as [f|]; try reflexivity.
    pose proof (invoke_frame h f [blobUrl]
                  (console_log ["PDF blob ready:"; blobUrl]%string w).2)
      as (Hthis & _).
    destruct (invoke h f [blobUrl] _) as [[[]|e] w1]; cbn in *; now rewrite Hthis.
  - rewrite listener_PDF_ERROR.
    destruct (error_side w iter) as [f|]; try reflexivity.
    pose proof (invoke_frame h f [error]
                  (console_error ["PDF generation error:"; error]%string w).2)
      as (Hthis & _).
    destruct (invoke h f [error] _) as [[[]|e] w1]; cbn in *; now rewrite Hthis.
  - reflexivity.
Qed.

Lemma PDF_READY_resolved h w iter blobUrl :
  pdf_result_resolved (ready_side w iter) blobUrl iter w
    (listener h (PDF_READY iter blobUrl) w).
Proof.
  unfold pdf_result_resolved. rewrite listener_PDF_READY.
  destruct (ready_side w iter) as [f|]; [|repeat split].
  set (w0 := (console_log _ w).2).
  pose proof (invoke_frame h f [blobUrl] w0) as (Hthis & _ & _ & _ & Hcalls).
  pose proof (invoke_returns h f [blobUrl] w0) as Hret.
  destruct (invoke h f [blobUrl] w0) as [[[]|e] w1]; cbn in *.
  - rewrite Hthis. split; [exact Hcalls |]. intros _. repeat split.
  - split; [exact Hcalls |]. intros Hr. specialize (Hret Hr). discriminate.
Qed.

Lemma PDF_ERROR_resolved h w iter error :
  pdf_result_resolved (error_side w iter) error iter w
    (listener h (PDF_ERROR iter error) w).
Proof.
  unfold pdf_result_resolved. rewrite listener_PDF_ERROR.
  destruct (error_side w iter) as [f|]; [|repeat split].
  set (w0 := (console_error _ w).2).
  pose proof (invoke_frame h f [error] w0) as (Hthis & _ & _ & _ & Hcalls).
  pose proof (invoke_returns h f [error] w0) as Hret.
  destruct (invoke h f [error] w0) as [[[]|e] w1]; cbn in *.
  - rewrite Hthis. split; [exact Hcalls |]. intros _. repeat split.
  - split; [exact Hcalls |]. intros Hr. specialize (Hret Hr). discriminate.
Qed.

Lemma no_pair_no_side w iter :
  pdfCallbackStorage (this w) !! iter = None ->
  ready_side w iter = None /\ error_side w iter = None.
Proof.
  intros H. unfold ready_side, error_side. rewrite H.
  destruct (truthy_number iter); split; reflexivity.
Qed.

(** Claim C7, in the form that holds of the code.  A completion message
    for [iter] calls the stored completion callback when there is one and
    calls nothing else; it never changes the stored PDF pairs, whatever the
    callback does; and when the callback comes back, or there is none, the
    listener completes and the completion entry of [iter] is gone, whether
    or not it held a callback. *)
Theorem renderpdf_processed h w iter :
  let r := listener h (renderpdf iter) w in
  pdfCallbackStorage (this r.2) = pdfCallbackStorage (this w) /\
  calls r.2 = calls w ++ match callbackStorage (this w) !! iter with
                         | Some (Some f) => calls_of f []
                         | _ => []
                         end /\
  (completion_returns w iter ->
   r.1 = Normal tt /\
   callbackStorage (this r.2) = delete iter (callbackStorage (this w)) /\
   completion_entry_deleted h w iter).
Proof.
  unfold completion_returns, completion_entry_deleted.
  rewrite listener_renderpdf.
  destruct (callbackStorage (this w) !! iter) as [[f|]|] eqn:Hf; cbn.
  - pose proof (invoke_frame h f [] w) as (Hthis & _ & _ & _ & Hcalls).
    pose proof (invoke_returns h f [] w) as Hret.
    destruct (invoke h f [] w) as [[[]|e] w1]; cbn in *.
    + rewrite Hthis. split; [reflexivity | split; [exact Hcalls |]].
      intros _. repeat split. apply lookup_delete_eq.
    + rewrite Hthis. split; [reflexivity | split; [exact Hcalls |]].
      intros Hr. specialize (Hret Hr). discriminate.
  - rewrite app_nil_r. repeat split. apply lookup_delete_eq.
  - rewrite app_nil_r. repeat split. apply lookup_delete_eq.
Qed.

(** Claim C7 as it is written fails here: the callback stored for
    identifier 1 throws, and the entry is still there after the completion
    message. *)
Lemma completion_entry_kept_on_throw :
  ~ completion_entry_deleted browser after_render_throwing_callback 1.
Proof. unfold completion_entry_deleted. vm_compute. discriminate. Qed.

Lemma renderpdf_processed_witness :
  completion_returns after_render_with_callback 1 /\
  completion_entry_deleted browser after_render_with_callback 1.
Proof.
  assert (H : completion_returns after_render_with_callback 1)
    by (vm_compute; exact I).
  split; [exact H |].
  exact (proj2 (proj2 (proj2 (proj2
    (renderpdf_processed browser after_render_with_callback 1)) H))).
Defined.

(** Claim C3, in the form that holds of the code.  A PDF-ready (PDF-error)
    message for [iter] looks for the ready (error) side of the pair stored
    for [iter].  When that side is set, the listener calls it, and only it,
    with the payload, and once it comes back the whole pair entry is
    deleted and the completion entries are as before.  When no pair is
    stored for [iter] the listener completes without an exception, calls
    nothing and leaves the registry as it was; so it does when a pair is
    stored whose matching side is not set. *)
Theorem pdf_result_processed h w iter payload :
  pdf_result_resolved (ready_side w iter) payload iter w
    (listener h (PDF_READY iter payload) w) /\
  pdf_result_resolved (error_side w iter) payload iter w
    (listener h (PDF_ERROR iter payload) w) /\
  (pdfCallbackStorage (this w) !! iter = None ->
   pdf_result_resolved None payload iter w (listener h (PDF_READY iter payload) w) /\
   pdf_result_resolved None payload iter w (listener h (PDF_ERROR iter payload) w)) /\
  (forall pair, pdfCallbackStorage (this w) !! iter = Some pair ->
   (stored_onPdfReady pair = None ->
    pdf_result_resolved None payload iter w (listener h (PDF_READY iter payload) w)) /\
   (stored_onPdfError pair = None ->
    pdf_result_resolved None payload iter w (listener h (PDF_ERROR iter payload) w))).
Proof.
  pose proof (PDF_READY_resolved h w iter payload) as H1.
  pose proof (PDF_ERROR_resolved h w iter payload) as H2.
  split; [exact H1 | split; [exact H2 |]]. split.
  - intros H. destruct (no_pair_no_side w iter H) as [Hr He].
    rewrite Hr in H1. rewrite He in H2. split; assumption.
  - intros pair Hpair. split; intros Hside.
    + assert (Hr : ready_side w iter = None)
        by (unfold ready_side; rewrite Hpair; cbn; rewrite Hside;
            now destruct (truthy_number iter)).
      now rewrite Hr in H1.
    + assert (He : error_side w iter = None)
        by (unfold error_side; rewrite Hpair; cbn; rewrite Hside;
            now destruct (truthy_number iter)).
      now rewrite He in H2.
Qed.

(** Claim C3 as it is written fails here: a pair is stored for identifier 1
    with no ready side; the PDF-ready message calls nothing and the pair
    stays. *)
Lemma stored_pair_kept_without_ready_side :
  ~ stored_pair_resolved browser after_render_onPdfError_only 1 "blob:1".
Proof.
  unfold stored_pair_resolved. intros H.
  assert (Hs : is_Some (pdfCallbackStorage (this after_render_onPdfError_only) !! 1))
    by (vm_compute; eauto).
  destruct (H Hs) as [Hcalls _]. vm_compute in Hcalls. discriminate.
Qed.

Lemma pdf_result_processed_witness :
  returns (CallerFn "ready" Returns) /\
  pdfCallbackStorage
    (this (listener browser (PDF_READY 1 "blob:1")
             after_render_with_pdf_callbacks).2) =
  delete 1 (pdfCallbackStorage (this after_render_with_pdf_callbacks)).
Proof.
  split; [exact I |].
  exact (proj1 (proj2 (proj2 (proj1
    (pdf_result_processed browser after_render_with_pdf_callbacks 1 "blob:1")) I))).
Defined.

(** Claim C10, in the form that holds of the code.  For a PDF-ready message
    the listener dispatches one [pdfReady] event on the window carrying the
    blob URL, and for a PDF-error message one [pdfError] event carrying the
    error, whenever the callback it calls comes back or it calls none; in
    particular for every message whose identifier has no pair registered,
    unknown or already resolved. *)
Theorem global_event_dispatched h w iter payload :
  (side_returns (ready_side w iter) ->
   pdfReady_dispatched h w iter payload) /\
  (side_returns (error_side w iter) ->
   dispatched (listener h (PDF_ERROR iter payload) w).2 =
   dispatched w ++ [pdfError_event payload]) /\
  (pdfCallbackStorage (this w) !! iter = None ->
   pdfReady_dispatched h w iter payload /\
   dispatched (listener h (PDF_ERROR iter payload) w).2 =
   dispatched w ++ [pdfError_event payload]).
Proof.
  assert (Hready : side_returns (ready_side w iter) ->
                   pdfReady_dispatched h w iter payload).
  { unfold pdfReady_dispatched. rewrite listener_PDF_READY.
    destruct (ready_side w iter) as [f|]; [|reflexivity].
    intros Hr. set (w0 := (console_log _ w).2).
    pose proof (invoke_frame h f [payload] w0) as (_ & _ & _ & Hd & _).
    pose proof (invoke_returns h f [payload] w0 Hr) as Hret.
    destruct (invoke h f [payload] w0) as [[[]|e] w1]; cbn in *;
      [now rewrite Hd | discriminate]. }
  assert (Herror : side_returns (error_side w iter) ->
                   dispatched (listener h (PDF_ERROR iter payload) w).2 =
                   dispatched w ++ [pdfError_event payload]).
  { rewrite listener_PDF_ERROR.
    destruct (error_side w iter) as [f|]; [|reflexivity].
    intros Hr. set (w0 := (console_error _ w).2).
    pose proof (invoke_frame h f [payload] w0) as (_ & _ & _ & Hd & _).
    pose proof (invoke_returns h f [payload] w0 Hr) as Hret.
    destruct (invoke h f [payload] w0) as [[[]|e] w1]; cbn in *;
      [now rewrite Hd | discriminate]. }
  split; [exact Hready | split; [exact Herror |]].
  intros H. destruct (no_pair_no_side w iter H) as [Hr He].
  split; [apply Hready; now rewrite Hr | apply Herror; now rewrite He].
Qed.

(** Claim C10 as it is written fails here: the ready callback stored for
    identifier 1 throws, and no event is dispatched. *)
Lemma no_global_event_on_throw :
  ~ pdfReady_dispatched browser after_render_throwing_onPdfReady 1 "blob:1".
Proof. unfold pdfReady_dispatched. vm_compute. discriminate. Qed.

Lemma global_event_dispatched_witness :
  pdfCallbackStorage (this loaded) !! 7 = None /\
  pdfReady_dispatched browser loaded 7 "blob:1".
Proof.
  assert (H : pdfCallbackStorage (this loaded) !! 7 = None) by reflexivity.
  split; [exact H |].
  exact (proj1 (proj2 (proj2 (global_event_dispatched browser loaded 7 "blob:1")) H)).
Defined.

(** ** render *)

Lemma allocate_spec o w :
  let id := instanceCounter (this w) in
  let r := allocate o w in
  r.1 = Normal id /\
  instanceCounter (this r.2) = id + 1 /\
  callbackStorage (this r.2) = <[id := callback o]> (callbackStorage (this w)) /\
  pdfCallbackStorage (this r.2) =
    (if truthy_function (onPdfReady o) || truthy_function (onPdfError o)
     then <[id := stored_pair o]> (pdfCallbackStorage (this w))
     else pdfCallbackStorage (this w)) /\
  children r.2 = children w /\ console r.2 = console w /\
  dispatched r.2 = dispatched w /\ calls r.2 = calls w /\
  promises r.2 = promises w.
Proof.
  unfold allocate, bind, gets, modify, ret; cbn.
  destruct (truthy_function (onPdfReady o) || truthy_function (onPdfError o));
    cbn; repeat split; reflexivity.
Qed.

Lemma mount_cases h instanceId o w :
  mount_outcome h instanceId o w (mount h instanceId o w).
Proof.
  unfold mount, createIframe, getContainer, document, appendChild,
    bind, ret, throw, modify.
  destruct (document_defined h) eqn:Hdoc; cbn; [|now constructor].
  destruct (containerSelector o) as [selector|] eqn:Hsel; cbn.
  - destruct (truthy_string selector) eqn:Htruthy; cbn.
    + destruct (querySelector h selector) as [n| |e] eqn:Hq; cbn.
      * eapply mount_in_container; eauto.
      * destruct (body h) as [n|] eqn:Hbody; cbn.
        -- eapply mount_fallback; eauto.
        -- eapply mount_fallback_no_body; eauto.
      * eapply mount_invalid_selector; eauto.
    + destruct (body h) as [n|] eqn:Hbody; cbn.
      * eapply mount_off_screen; eauto. now rewrite Hsel.
      * eapply mount_no_body; eauto. now rewrite Hsel.
  - destruct (body h) as [n|] eqn:Hbody; cbn.
    + eapply mount_off_screen; eauto. now rewrite Hsel.
    + eapply mount_no_body; eauto. now rewrite Hsel.
Qed.

(** [mount] leaves the SDK object, the calls, the events and the promises
    alone. *)
Lemma mount_frame h instanceId o w :
  let w' := (mount h instanceId o w).2 in
  this w' = this w /\ calls w' = calls w /\ dispatched w' = dispatched w /\
  promises w' = promises w.
Proof. destruct (mount_cases h instanceId o w); cbn; repeat split. Qed.

Lemma render_catch_spec h o e w :
  let r := render_catch h o e w in
  this r.2 = this w /\ children r.2 = children w /\
  dispatched r.2 = dispatched w /\
  console r.2 = console w ++
    [{| level := level_error; text := ["Pagify render error:"; message e] |}] /\
  calls r.2 = calls w ++ match onPdfError o with
                         | Some f => calls_of f [message e]
                         | None => []
                         end /\
  (side_returns (onPdfError o) <-> r.1 = Normal tt).
Proof.
  unfold render_catch, bind, console_error, modify; cbn.
  destruct (onPdfError o) as [f|]; cbn.
  - set (w0 := with_console _ w).
    pose proof (invoke_frame h f [message e] w0) as (H1 & H2 & H3 & H4 & H5).
    pose proof (invoke_returns h f [message e] w0) as Hret.
    cbn in *. rewrite H1, H2, H3, H4, H5.
    split; [reflexivity |]. split; [reflexivity |]. split; [reflexivity |].
    split; [reflexivity |]. split; [reflexivity |].
    split; [exact Hret |].
    destruct f as [fn [|e']|p|p]; cbn; [tauto | discriminate | tauto | tauto].
  - rewrite app_nil_r. repeat split.
Qed.

(** [render], step by step. *)
Lemma render_spec h o w :
  render h o w =
  match mount h (instanceCounter (this w)) o (allocate o w).2 with
  | (Normal _, w1) => (Normal tt, w1)
  | (Throw e, w1) => render_catch h o e w1
  end.
Proof.
  unfold render, try_catch, bind.
  pose proof (allocate_spec o w) as (Hid & _).
  destruct (allocate o w) as [[id|e] w0]; cbn in *; [|discriminate].
  injection Hid as ->.
  destruct (mount h _ o w0) as [[[]|e] w1]; reflexivity.
Qed.

(** The SDK object after [render] is the one [allocate] leaves. *)
Lemma render_this h o w : this (render h o w).2 = this (allocate o w).2.
Proof.
  rewrite render_spec.
  pose proof (mount_frame h (instanceCounter (this w)) o (allocate o w).2)
    as (Hthis & _).
  destruct (mount h _ o _) as [[[]|e] w1]; cbn in *; [exact Hthis |].
  pose proof (render_catch_spec h o e w1) as (Hc & _). cbn in Hc. congruence.
Qed.

Lemma render_counter h o w :
  instanceCounter (this (render h o w).2) = instanceCounter (this w) + 1.
Proof. rewrite render_this. apply allocate_spec. Qed.

(** The children after [render]: as before, or one iframe more on one
    node. *)
Lemma render_children h o w :
  let id := instanceCounter (this w) in
  children (render h o w).2 = children w \/
  exists n st,
    children (render h o w).2 = append_to n (mounted_iframe st id o) (children w).
Proof.
  intros id. rewrite render_spec.
  destruct (allocate_spec o w) as (_ & _ & _ & _ & Hch & _).
  assert (Hcatch : forall e w1, children (render_catch h o e w1).2 = children w1)
    by (intros e w1; apply render_catch_spec).
  fold id. destruct (mount_cases h id o (allocate o w).2);
    cbn [fst snd]; rewrite ?Hcatch;
    unfold console_warn, modify, with_children, with_console;
    cbn [fst snd children];
    rewrite ?Hch; eauto.
Qed.

(** [render] with a selector that resolves. *)
Lemma render_found h o w selector n :
  containerSelector o = Some selector ->
  truthy_string selector = true ->
  document_defined h = true ->
  querySelector h selector = Found n ->
  render h o w =
  (Normal tt,
   with_children
     (append_to n (mounted_iframe fill_container (instanceCounter (this w)) o))
     (allocate o w).2).
Proof.
  intros Hsel Htruthy Hdoc Hq. rewrite render_spec.
  destruct (mount_cases h (instanceCounter (this w)) o (allocate o w).2)
    as [?|sel' n' ? Hs' ? Hq'|sel' e' ? Hs' ? Hq'|sel' n' ? Hs' ? Hq' ?
       |sel' ? Hs' ? Hq' ?|n' ? Ht' ?|? Ht' ?];
    try congruence.
  - rewrite Hsel in Ht'. cbn in Ht'. congruence.
  - rewrite Hsel in Ht'. cbn in Ht'. congruence.
Qed.

(** Claim C1.  [render] allocates the value [id] of the counter, registers
    the completion callback under [id], and composes the document
    [iframeHTML_of id o]: an iframe it mounts carries that document and no
    other.  The document starts with the two scripts, and in them every
    [iter:] field reads, character for character, the decimal text of [id]
    (two fields in the initialization script, three in the PDF-generation
    script).  Each text of the two templates that precedes an identifier
    holds one [postMessage(] call, left open at its [iter: ] field, and the
    rest of the text holds none: each message the document posts has its
    field.  The decimal text reads back as [id]. *)
Theorem correlation_integrity h o w :
  let id := instanceCounter (this w) in
  let w' := (render h o w).2 in
  (allocate o w).1 = Normal id /\
  callbackStorage (this w') !! id = Some (callback o) /\
  (children w' = children w \/
   exists n st, children w' = append_to n (mounted_iframe st id o) (children w)) /\
  (forall st, srcdoc (mounted_iframe st id o) = Some (iframeHTML_of id o)) /\
  (exists rest, iframeHTML_of id o = scripts id +:+ rest) /\
  fields_after iter_key (getPagedJSInitScript id) = [show id; show id] /\
  fields_after iter_key (getPdfGenerationScript id) =
    [show id; show id; show id] /\
  fields_after iter_key (scripts id) = replicate 5 (show id) /\
  occurrences postMessage_key (getPagedJSInitScript id) = 2%nat /\
  occurrences postMessage_key (getPdfGenerationScript id) = 3%nat /\
  occurrences postMessage_key (scripts id) = 5%nat /\
  forallb message_literal_open
    [PagedJSInitScript_0; PagedJSInitScript_1;
     PdfGenerationScript_0; PdfGenerationScript_1; PdfGenerationScript_2] = true /\
  forallb no_message
    [IframeHTML_0; PagedJSInitScript_2; IframeHTML_1;
     PdfGenerationScript_3; IframeHTML_2] = true /\
  read (show id) = Some id.
Proof.
  intros id w'.
  assert (Hstored : callbackStorage (this w') !! id = Some (callback o)).
  { subst w'. rewrite render_this.
    destruct (allocate_spec o w) as (_ & _ & Hcb & _).
    rewrite Hcb. now rewrite lookup_insert_eq. }
  split; [apply allocate_spec |].
  split; [exact Hstored |].
  split; [apply render_children |].
  split; [reflexivity |].
  split; [eexists; unfold iframeHTML_of, buildIframeHTML; reflexivity |].
  split; [apply iter_fields_init |].
  split; [apply iter_fields_pdf |].
  split; [apply iter_fields_scripts |].
  split; [apply posts_init |].
  split; [apply posts_pdf |].
  split; [apply posts_scripts |].
  split; [vm_compute; reflexivity |].
  split; [vm_compute; reflexivity |].
  apply read_show.
Qed.




(** Claim C9, in the form that holds of the code.  When the container
    selector resolves to a node, [render] is fulfilled and appends to the
    children of that node, and nowhere else, one iframe: it carries the
    composed document, fills the container (width and height 100%) and has
    its border removed ([border: none]). *)
Theorem render_into_container h o w selector n :
  containerSelector o = Some selector ->
  truthy_string selector = true ->
  document_defined h = true ->
  querySelector h selector = Found n ->
  let f := mounted_iframe fill_container (instanceCounter (this w)) o in
  (render h o w).1 = Normal tt /\
  children (render h o w).2 =
    <[n := default [] (children w !! n) ++ [f]]> (children w) /\
  srcdoc f = Some (iframeHTML_of (instanceCounter (this w)) o) /\
  width (iframe_style f) = Some "100%"%string /\
  height (iframe_style f) = Some "100%"%string /\
  border (iframe_style f) = Some "none"%string /\
  ~ bordered f.
Proof.
  intros Hsel Htruthy Hdoc Hq f.
  rewrite (render_found h o w selector n Hsel Htruthy Hdoc Hq).
  destruct (allocate_spec o w) as (_ & _ & _ & _ & Hch & _).
  cbn [fst snd]. unfold with_children, append_to; cbn [children].
  rewrite Hch. repeat split.
  unfold bordered. cbn. auto.
Qed.

(** Claim C9 as it is written fails here: in a page where [#c] exists, the
    iframe that [render({ body_html: "<h1>X</h1>", containerSelector: "#c" })]
    appends to it has [border: none]. *)
Lemma mounted_context_not_bordered :
  ~ mounted_bordered browser (sample None None None (Some "#c")) loaded 1.
Proof.
  intros (f & Hf & _ & _ & Hb).
  rewrite (render_found browser (sample None None None (Some "#c")) loaded
             "#c" 1 eq_refl eq_refl eq_refl eq_refl) in Hf.
  cbn [snd] in Hf. unfold with_children, append_to in Hf. cbn [children] in Hf.
  rewrite lookup_insert_eq in Hf. apply (inj Some) in Hf.
  apply app_inj_tail in Hf as [_ <-]. apply Hb. reflexivity.
Qed.

Lemma render_into_container_witness :
  containerSelector (sample None None None (Some "#c")) = Some "#c"%string /\
  truthy_string "#c" = true /\
  document_defined browser = true /\
  querySelector browser "#c" = Found 1 /\
  (render browser (sample None None None (Some "#c")) loaded).1 = Normal tt.
Proof.
  repeat (split; [reflexivity |]).
  exact (proj1 (render_into_container browser (sample None None None (Some "#c"))
                  loaded "#c" 1 eq_refl eq_refl eq_refl eq_refl)).
Defined.

(** ** The facade *)

Lemma new_promise_spec w :
  new_promise w = (Normal (length (promises w)),
                   with_promises (fun ps => ps ++ [None]) w).
Proof. reflexivity. Qed.

(** With the error callback of the facade, [render] cannot throw. *)
Lemma render_modifiedOptions_fulfilled h o p w :
  (render h (modifiedOptions o p) w).1 = Normal tt.
Proof.
  rewrite render_spec.
  destruct (mount h _ _ _) as [[[]|e] w1]; [reflexivity |].
  apply render_catch_spec. exact I.
Qed.

Lemma generatePDF_spec h o w :
  let p := length (promises w) in
  let w0 := with_promises (fun ps => ps ++ [None]) w in
  generatePDF h o w =
  (Normal p,
   if window_defined h
   then (render h (modifiedOptions o p) w0).2
   else with_promises (fun ps => ps ++ [Some (Rejected Error_not_browser)]) w).
Proof.
  intros p w0. unfold generatePDF, bind. rewrite new_promise_spec. fold p w0.
  destruct (window_defined h).
  - unfold try_catch.
    pose proof (render_modifiedOptions_fulfilled h o p w0) as Hr.
    destruct (render h (modifiedOptions o p) w0) as [[[]|e] w1];
      [reflexivity | discriminate].
  - unfold settle, modify, ret, with_promises, w0; cbn.
    rewrite lookup_app_r, Nat.sub_diag by lia. cbn.
    f_equal. f_equal. unfold p.
    rewrite insert_app_r_alt, Nat.sub_diag by lia. reflexivity.
Qed.

Lemma generatePDF_counter h o w :
  instanceCounter (this (generatePDF h o w).2) =
  instanceCounter (this w) + (if window_defined h then 1 else 0).
Proof.
  rewrite generatePDF_spec. cbn [snd].
  destruct (window_defined h); [rewrite render_counter | cbn; lia]. reflexivity.
Qed.

Lemma settle_pending p s w :
  promises w !! p = Some None ->
  promises (settle p s w).2 = <[p := Some s]> (promises w).
Proof. intros H. unfold settle, modify, with_promises; cbn. now rewrite H. Qed.

(** Claim C8.  [generatePDF] returns a new promise [p].  Where [window] is
    not defined the world it leaves differs from the one it found by that
    promise only, already rejected with the error of pagify.js:652: no
    identifier is allocated, nothing is stored, logged or mounted.
    Otherwise the world it leaves is the one [render] leaves when given the
    caller's parameters with [onPdfReady] and [onPdfError] replaced by the
    two closures over [p], and the pair of closures is what the registry
    holds for the allocated identifier.  Called on a pending [p], the ready
    closure fetches the blob URL and resolves [p] with the blob (rejects it
    if the fetch fails); the error closure rejects [p] with an [Error]
    whose message is the text it was given. *)
Theorem generatePDF_facade h o w :
  let p := length (promises w) in
  let r := generatePDF h o w in
  r.1 = Normal p /\
  (if window_defined h
   then r.2 = (render h (modifiedOptions o p) (new_promise w).2).2 /\
        promises (new_promise w).2 !! p = Some None /\
        pdfCallbackStorage (this r.2) !! instanceCounter (this w) =
          Some {| stored_onPdfReady := Some (FacadeOnReady p);
                  stored_onPdfError := Some (FacadeOnError p) |}
   else r.2 = with_promises
                (fun ps => ps ++ [Some (Rejected Error_not_browser)]) w /\
        this r.2 = this w /\ children r.2 = children w /\
        console r.2 = console w /\ calls r.2 = calls w /\
        dispatched r.2 = dispatched w) /\
  (forall w1 blobUrl, promises w1 !! p = Some None ->
     let r1 := invoke h (FacadeOnReady p) [blobUrl] w1 in
     r1.1 = Normal tt /\
     promises r1.2 =
       <[p := Some (match fetch h blobUrl with
                    | inl blob => Resolved blob
                    | inr e => Rejected e
                    end)]> (promises w1)) /\
  (forall w1 text, promises w1 !! p = Some None ->
     let r1 := invoke h (FacadeOnError p) [text] w1 in
     r1.1 = Normal tt /\
     promises r1.2 = <[p := Some (Rejected (mkError "Error" text))]> (promises w1)).
Proof.
  intros p r. unfold r. rewrite generatePDF_spec. fold p. cbn [fst snd].
  split; [reflexivity |]. split; [|split].
  - destruct (window_defined h); [|repeat split].
    rewrite new_promise_spec. cbn [snd]. split; [reflexivity |]. split.
    + unfold with_promises; cbn. unfold p.
      rewrite lookup_app_r, Nat.sub_diag by lia. reflexivity.
    + rewrite render_this.
      destruct (allocate_spec (modifiedOptions o p)
                  (with_promises (fun ps => ps ++ [None]) w))
        as (_ & _ & _ & Hpdf & _).
      rewrite Hpdf. cbn. apply lookup_insert_eq.
  - intros w1 blobUrl Hp. cbn.
    destruct (fetch h blobUrl); (split; [reflexivity | now apply settle_pending]).
  - intros w1 text Hp. cbn. split; [reflexivity | now apply settle_pending].
Qed.

Lemma generatePDF_facade_witness :
  promises (generatePDF browser (sample None None None None) loaded).2 !! 0%nat =
    Some None /\
  promises
    (invoke browser (FacadeOnReady 0) ["blob:1"]
       (generatePDF browser (sample None None None None) loaded).2).2 =
  [Some (Resolved (mkBlob "%PDF-1.3"))].
Proof.
  assert (H : promises (generatePDF browser (sample None None None None)
                          loaded).2 !! 0%nat = Some None)
    by (vm_compute; reflexivity).
  split; [exact H |].
  pose proof (proj2 (proj1 (proj2 (proj2
    (generatePDF_facade browser (sample None None None None) loaded)))
    (generatePDF browser (sample None None None None) loaded).2 "blob:1" H))
    as Hready.
  exact Hready.
Defined.

(** ** The counter over a lifetime *)

Lemma perform_counter h op w :
  instanceCounter (this (perform h op w).2) =
  instanceCounter (this w) + Z.of_nat (length (allocated h op w)).
Proof.
  destruct op as [o|o|m]; unfold perform, allocated.
  - rewrite render_counter.
    destruct (allocate_spec o w) as (Hid & _).
    destruct (allocate o w) as [[id|e] w1]; cbn in *; [lia | discriminate].
  - unfold bind at 1. pose proof (generatePDF_counter h o w) as Hc.
    destruct (generatePDF h o w) as [[p|e] w1]; cbn [fst snd] in *;
      cbn [ret snd]; rewrite Hc;
      (destruct (window_defined h); [|cbn; lia]);
      unfold bind at 1; rewrite new_promise_spec;
      destruct (allocate_spec o (with_promises (fun ps => ps ++ [None]) w)) as (Hid & _);
      destruct (allocate o _) as [[id|e'] w2]; cbn in *; (lia || discriminate).
  - unfold initMessageListener. destruct (window_defined h); cbn.
    + rewrite listener_counter. lia.
    + lia.
Qed.

Lemma allocated_from_counter h op w :
  allocated h op w =
  (fun k => instanceCounter (this w) + Z.of_nat k) <$> seq 0 (length (allocated h op w)).
Proof.
  destruct op as [o|o|m]; unfold allocated; [| |reflexivity].
  - destruct (allocate_spec o w) as (Hid & _).
    destruct (allocate o w) as [[id|e] w1]; cbn in *; [|reflexivity].
    injection Hid as ->. f_equal. lia.
  - destruct (window_defined h); [|reflexivity].
    unfold bind. rewrite new_promise_spec.
    destruct (allocate_spec o (with_promises (fun ps => ps ++ [None]) w)) as (Hid & _).
    destruct (allocate o _) as [[id|e] w1]; cbn in *; [|reflexivity].
    injection Hid as ->. f_equal. lia.
Qed.

Lemma fmap_seq_shift (c d : Z) (n : nat) : forall i j : nat,
  d + Z.of_nat i = c + Z.of_nat j ->
  (fun k => d + Z.of_nat k) <$> seq i n = (fun k => c + Z.of_nat k) <$> seq j n.
Proof.
  induction n as [|n IH]; intros i j H; cbn; [reflexivity |].
  f_equal; [exact H | apply IH; lia].
Qed.

(** The identifiers of a lifetime are the consecutive values of the
    counter. *)
Lemma lifetime_ids ops : forall w,
  (lifetime ops w).1 =
  (fun k => instanceCounter (this w) + Z.of_nat k)
    <$> seq 0 (length (lifetime ops w).1).
Proof.
  induction ops as [|[h op] ops IH]; intros w; [reflexivity |].
  cbn [lifetime]. specialize (IH (perform h op w).2).
  destruct (lifetime ops (perform h op w).2) as [ids w'] eqn:Hl.
  cbn [fst] in *. rewrite length_app, seq_app, fmap_app.
  f_equal; [apply allocated_from_counter |].
  rewrite IH at 1. apply fmap_seq_shift. rewrite perform_counter. lia.
Qed.

(** An operation of the object [k] leaves the other objects as they are,
    and moves the counter of [k] by the identifiers it allocates, which are
    the values the counter goes through. *)
Lemma on_object_counter h k op p j :
  let r := on_object h k op p in
  counter_of r.2 j =
    (fun c => c + (if decide (j = k) then Z.of_nat (length r.1) else 0))
      <$> counter_of p j /\
  (forall c, counter_of p k = Some c ->
     r.1 = (fun i => c + Z.of_nat i) <$> seq 0 (length r.1)) /\
  (counter_of p k = None -> r.1 = []).
Proof.
  unfold on_object, counter_of.
  destruct (p.1 !! k) as [s|] eqn:Hk; cbn.
  - set (w := enter s p.2). split; [|split; [|discriminate]].
    + destruct (decide (j = k)) as [->|Hne].
      * rewrite list_lookup_insert_eq by (now apply lookup_lt_Some in Hk).
        rewrite Hk. cbn. f_equal. apply perform_counter.
      * rewrite list_lookup_insert_ne by congruence.
        destruct (p.1 !! j); cbn; [f_equal; lia | reflexivity].
    + intros c [= <-]. apply (allocated_from_counter h op w).
  - split; [|split; [discriminate | reflexivity]].
    destruct (decide (j = k)) as [->|_].
    + now rewrite Hk.
    + destruct (p.1 !! j); cbn; [f_equal; lia | reflexivity].
Qed.

(** A message moves no counter. *)
Lemma on_message_counter h event_data p j :
  counter_of (on_message h event_data p) j = counter_of p j.
Proof.
  unfold on_message. generalize (seq 0 (length p.1)). intros ks. revert p.
  induction ks as [|k ks IH]; intros p; [reflexivity |]. cbn [foldl].
  rewrite IH. destruct (on_object_counter h k (post event_data) p j) as (-> & _).
  assert (Hnone : (on_object h k (post event_data) p).1 = []).
  { unfold on_object. now destruct (p.1 !! k). }
  rewrite Hnone. cbn. destruct (counter_of p j); cbn; [|reflexivity].
  f_equal. destruct (decide (j = k)); lia.
Qed.

Lemma allocated_by_app k a b :
  allocated_by k (a ++ b) = allocated_by k a ++ allocated_by k b.
Proof. unfold allocated_by. now rewrite filter_app, fmap_app. Qed.

Lemma allocated_by_tagged k j ids :
  allocated_by k ((fun id => (j, id)) <$> ids) = if decide (j = k) then ids else [].
Proof.
  unfold allocated_by. induction ids as [|id ids IH].
  - now destruct (decide (j = k)).
  - rewrite fmap_cons, filter_cons. cbn [fst].
    destruct (decide (j = k)); [rewrite fmap_cons |]; rewrite IH; reflexivity.
Qed.

(** A new object starts at 1, where an object not made yet is taken to
    start. *)
Lemma new_object_next p k : next_of (p.1 ++ [constructor], p.2) k = next_of p k.
Proof.
  unfold next_of, counter_of. cbn [fst].
  destruct (decide (k < length p.1)%nat) as [Hlt|Hge].
  - now rewrite lookup_app_l.
  - rewrite lookup_app_r by lia.
    assert (E : p.1 !! k = None) by (apply lookup_ge_None; lia). rewrite E.
    now destruct (k - length p.1)%nat as [|[|i]].
Qed.

(** One operation of the process, for the object [k]: the identifiers it
    allocates on [k] are the values the counter of [k] goes through. *)
Lemma process_step_next h op p k :
  let r := process_step h op p in
  next_of r.2 k = next_of p k + Z.of_nat (length (allocated_by k r.1)) /\
  allocated_by k r.1 =
    (fun i => next_of p k + Z.of_nat i) <$> seq 0 (length (allocated_by k r.1)).
Proof.
  assert (Hcall : forall j op',
            let r := on_object h j op' p in
            next_of r.2 k =
              next_of p k +
              Z.of_nat (length (allocated_by k ((fun id => (j, id)) <$> r.1))) /\
            allocated_by k ((fun id => (j, id)) <$> r.1) =
              (fun i => next_of p k + Z.of_nat i)
                <$> seq 0 (length (allocated_by k ((fun id => (j, id)) <$> r.1)))).
  { intros j op' r. rewrite allocated_by_tagged. unfold next_of.
    destruct (on_object_counter h j op' p k) as (Hc & _).
    destruct (on_object_counter h j op' p j) as (_ & Hids & Hnone).
    fold r in Hc, Hids, Hnone. rewrite Hc.
    destruct (decide (j = k)) as [->|Hne].
    - rewrite decide_True by reflexivity.
      destruct (counter_of p k) as [c|]; cbn.
      + split; [reflexivity | now apply Hids].
      + rewrite Hnone by reflexivity. split; [reflexivity | reflexivity].
    - rewrite decide_False by congruence. cbn.
      split; [|reflexivity]. destruct (counter_of p k); cbn; lia. }
  destruct op as [|j o|j o|event_data]; cbn [process_step fst snd].
  - rewrite new_object_next. cbn. split; [lia | reflexivity].
  - apply Hcall.
  - apply Hcall.
  - unfold next_of. rewrite on_message_counter. cbn. split; [lia | reflexivity].
Qed.

(** The identifiers an object allocates over a process lifetime are the
    consecutive values of its counter. *)
Lemma process_lifetime_ids k ops : forall p,
  allocated_by k (process_lifetime ops p) =
  (fun i => next_of p k + Z.of_nat i)
    <$> seq 0 (length (allocated_by k (process_lifetime ops p))).
Proof.
  induction ops as [|[h op] ops IH]; intros p; [reflexivity |].
  cbn [process_lifetime]. rewrite allocated_by_app.
  destruct (process_step_next h op p k) as (Hc & Hids).
  specialize (IH (process_step h op p).2).
  rewrite length_app, seq_app, fmap_app. f_equal; [exact Hids |].
  rewrite IH at 1. apply fmap_seq_shift. lia.
Qed.

Lemma next_of_loaded k : next_of loaded_process k = 1.
Proof. unfold next_of, counter_of. cbn. now destruct k as [|[|k]]. Qed.

Lemma process_ids_from_one k ops :
  let ids := allocated_by k (process_lifetime ops loaded_process) in
  ids = Z.of_nat <$> seq 1 (length ids).
Proof.
  intros ids. unfold ids at 1. rewrite process_lifetime_ids, next_of_loaded.
  fold ids. rewrite <- (fmap_seq_shift 0 1 _ 0 1 eq_refl).
  apply list_fmap_ext. intros _ i _. cbn. lia.
Qed.

Lemma from_one_sorted n m : StronglySorted Z.lt (Z.of_nat <$> seq m n).
Proof.
  revert m. induction n as [|n IH]; intros m; cbn; constructor; [apply IH |].
  apply Forall_forall. intros x Hx.
  apply list_elem_of_fmap in Hx as (k & -> & Hk).
  rewrite list_elem_of_In, in_seq in Hk. lia.
Qed.

Lemma from_one_NoDup n m : NoDup (Z.of_nat <$> seq m n).
Proof. apply NoDup_fmap; [intros x y; lia | apply NoDup_seq]. Qed.

(** Identifiers tagged with their objects are distinct as soon as those of
    each object are. *)
Lemma tagged_NoDup (ids : list (nat * Z)) :
  (forall k, NoDup (allocated_by k ids)) -> NoDup ids.
Proof.
  induction ids as [|[k id] ids IH]; intros H; [constructor |].
  constructor.
  - intros Hin. specialize (H k). unfold allocated_by in H.
    rewrite filter_cons in H. cbn [fst] in H. rewrite decide_True in H by reflexivity.
    rewrite fmap_cons in H. apply NoDup_cons in H as [H _]. apply H.
    apply list_elem_of_fmap. exists (k, id). split; [reflexivity |].
    apply list_elem_of_filter. split; [reflexivity | exact Hin].
  - apply IH. intros j. specialize (H j). unfold allocated_by in *.
    rewrite filter_cons in H. cbn [fst] in H.
    destruct (decide (k = j)); [|exact H].
    rewrite fmap_cons in H. now apply NoDup_cons in H as [_ H].
Qed.

(** Claim C4.  Over any sequence of calls of [render] and [generatePDF] and of
    messages, in any host, the identifiers allocated since the SDK was
    loaded are 1, 2, 3, ... in the order of allocation: they start at 1,
    increase strictly, and no two are equal.  Every call of [render] adds
    one to the counter, whether or not it fails, and no operation changes
    the counter but by the number of identifiers it allocates.  The same
    holds of every SDK object of a process that makes several: over any
    sequence of [new PagifySDK()], calls on any of the objects and messages,
    the identifiers one object allocates are 1, 2, 3, ..., strictly
    increasing and distinct, and an identifier together with the object
    that allocated it is never allocated twice. *)
Theorem identifiers_strictly_increasing ops :
  let ids := (lifetime ops loaded).1 in
  ids = Z.of_nat <$> seq 1 (length ids) /\
  StronglySorted Z.lt ids /\
  NoDup ids /\
  (forall h o w,
     instanceCounter (this (render h o w).2) = instanceCounter (this w) + 1) /\
  (forall h op w,
     instanceCounter (this (perform h op w).2) =
     instanceCounter (this w) + Z.of_nat (length (allocated h op w))) /\
  (forall process_ops k,
     let ids_k := allocated_by k (process_lifetime process_ops loaded_process) in
     ids_k = Z.of_nat <$> seq 1 (length ids_k) /\
     StronglySorted Z.lt ids_k /\
     NoDup ids_k) /\
  (forall process_ops, NoDup (process_lifetime process_ops loaded_process)).
Proof.
  intros ids.
  assert (Hids : ids = Z.of_nat <$> seq 1 (length ids)).
  { unfold ids at 1. rewrite lifetime_ids. fold ids.
    rewrite <- (fmap_seq_shift 0 1 _ 0 1 eq_refl).
    apply list_fmap_ext. intros _ k _. cbn. lia. }
  split; [exact Hids |]. split; [rewrite Hids; apply from_one_sorted |].
  split; [rewrite Hids; apply from_one_NoDup |].
  split; [intros h o w; apply render_counter |].
  split; [intros h op w; apply perform_counter |].
  split.
  - intros process_ops k ids_k.
    pose proof (process_ids_from_one k process_ops) as Hk. fold ids_k in Hk.
    split; [exact Hk |]. rewrite Hk.
    split; [apply from_one_sorted | apply from_one_NoDup].
  - intros process_ops. apply tagged_NoDup. intros k.
    rewrite (process_ids_from_one k process_ops). apply from_one_NoDup.
Qed.

(** Claim C4, counterexample.  "No two invocations ever share an
    identifier" fails in a process that makes a second SDK object: the
    first call of [render] on the singleton and the first call on the new
    object both allocate the identifier 1. *)
Lemma two_objects_share_identifier :
  ~ identifiers_never_shared
      [(browser, new_PagifySDK);
       (browser, render_on 0 (sample None None None None));
       (browser, render_on 1 (sample None None None None))].
Proof.
  unfold identifiers_never_shared.
  replace ((process_lifetime _ _).*2) with [1; 1] by (vm_compute; reflexivity).
  intros H. apply NoDup_cons in H as [H _]. apply H. apply list_elem_of_here.
Qed.

(** ** Trimming *)

Section TrimmingProperties.

Context {page : Type}.
Implicit Types pdf : list page.

Lemma delete_down_step i totalPages pdf :
  delete_down i totalPages pdf =
  if Z_gt_dec i totalPages
  then delete_down (i - 1) totalPages (deletePage i pdf)
  else pdf.
Proof.
  rewrite delete_down_equation_1. destruct (Z_gt_dec i totalPages); reflexivity.
Qed.

(** Deleting the last page. *)
Lemma deletePage_last pdf :
  0 < getNumberOfPages pdf ->
  deletePage (getNumberOfPages pdf) pdf =
  take (Z.to_nat (getNumberOfPages pdf - 1)) pdf.
Proof.
  intros H. unfold deletePage.
  replace (0 <? getNumberOfPages pdf) with true by (symmetry; apply Z.ltb_lt; lia).
  rewrite Z.leb_refl. cbn [andb].
  unfold getNumberOfPages at 2. rewrite Nat2Z.id, drop_all. apply app_nil_r.
Qed.

(** The loop, entered at the page count, keeps the first [totalPages]
    pages. *)
Lemma delete_down_spec (totalPages : Z) : forall (n : nat) pdf,
  0 <= totalPages ->
  n = length pdf ->
  totalPages <= getNumberOfPages pdf ->
  delete_down (getNumberOfPages pdf) totalPages pdf =
  take (Z.to_nat totalPages) pdf.
Proof.
  induction n as [n IH] using lt_wf_ind. intros pdf Ht Hn Hle.
  rewrite delete_down_step.
  destruct (Z_gt_dec (getNumberOfPages pdf) totalPages) as [Hgt|Hngt].
  - rewrite deletePage_last by lia.
    set (pdf' := take (Z.to_nat (getNumberOfPages pdf - 1)) pdf).
    assert (Hlen : getNumberOfPages pdf' = getNumberOfPages pdf - 1).
    { unfold pdf', getNumberOfPages in *. rewrite length_take. lia. }
    rewrite <- Hlen.
    rewrite (IH (length pdf')); try lia.
    + unfold pdf'. rewrite take_take. f_equal. unfold getNumberOfPages in *. lia.
    + unfold getNumberOfPages in Hlen, Hgt. lia.
  - unfold getNumberOfPages in *. rewrite take_ge by lia. reflexivity.
Qed.

(** Claim C2.  When the conversion produced more pages than pagination reported
    and that total is positive, the trimming step leaves exactly the first
    [totalPages] pages: the trailing excess is what it deleted, and the
    page count of the result is [totalPages].  When the page count does not
    exceed the total, or the total is not positive, the document is left
    as it is. *)
Theorem trimming_exact (totalPages : Z) pdf :
  let pageCount := getNumberOfPages pdf in
  let trimmed := remove_extra_pages totalPages pdf in
  (pageCount > totalPages /\ totalPages > 0 ->
   trimmed = take (Z.to_nat totalPages) pdf /\
   pdf = trimmed ++ drop (Z.to_nat totalPages) pdf /\
   getNumberOfPages trimmed = totalPages) /\
  (pageCount <= totalPages \/ totalPages <= 0 -> trimmed = pdf).
Proof.
  intros pageCount trimmed. unfold trimmed, remove_extra_pages. fold pageCount.
  split.
  - intros [Hgt Hpos].
    replace (pageCount >? totalPages) with true by (symmetry; apply Z.gtb_gt; lia).
    replace (totalPages >? 0) with true by (symmetry; apply Z.gtb_gt; lia).
    cbn [andb]. unfold pageCount in *.
    rewrite (delete_down_spec totalPages (length pdf)) by lia.
    split; [reflexivity |]. split; [now rewrite take_drop |].
    unfold getNumberOfPages, pageCount in *. rewrite length_take. lia.
  - intros [Hle|Hle].
    + replace (pageCount >? totalPages) with false; [reflexivity |].
      symmetry. rewrite Z.gtb_ltb. apply Z.ltb_ge. lia.
    + replace (totalPages >? 0) with false; [now rewrite andb_false_r |].
      symmetry. rewrite Z.gtb_ltb. apply Z.ltb_ge. lia.
Qed.

End TrimmingProperties.

Lemma trimming_exact_witness :
  (getNumberOfPages ["p1"; "p2"; "p3"; "p4"; "p5"]%string > 2 /\ 2 > 0) /\
  remove_extra_pages 2 ["p1"; "p2"; "p3"; "p4"; "p5"]%string = ["p1"; "p2"]%string.
Proof.
  assert (H : getNumberOfPages ["p1"; "p2"; "p3"; "p4"; "p5"]%string > 2 /\ 2 > 0)
    by (split; reflexivity).
  split; [exact H |].
  exact (proj1 (proj1 (trimming_exact 2 ["p1"; "p2"; "p3"; "p4"; "p5"]%string) H)).
Defined.

(** ** The footer *)

Lemma footer_free_app a b : footer_free a -> footer_free b -> footer_free (a +:+ b).
Proof. intros Ha Hb out. now rewrite scan_app, Ha, Hb. Qed.

Lemma footer_free_nil : footer_free "".
Proof. intros out. reflexivity. Qed.

Lemma footer_free_static : Forall footer_free static_text.
Proof. repeat constructor; intros out; vm_compute; reflexivity. Qed.

Lemma footer_free_scripts instanceId : footer_free (scripts instanceId).
Proof.
  intros out. unfold idle, scripts, getPagedJSInitScript, getPdfGenerationScript.
  rewrite !append_assoc.
  pose proof (number_chars_show instanceId) as H.
  generalize dependent (show instanceId); intros s H.
  rewrite ?scan_app.
  repeat (first [scan_text | scan_digits H]).
  reflexivity.
Qed.

(** A footer region with a footer-free content: one opener. *)
Lemma scan_footer_region footer_html out :
  footer_free footer_html ->
  scan footer_key (footer_region footer_html) (idle out) = idle (""%string :: out).
Proof.
  intros H. unfold footer_region. rewrite !scan_app.
  replace (scan footer_key footer_open (idle out)) with (idle (""%string :: out))
    by (vm_compute; reflexivity).
  rewrite H. vm_compute. reflexivity.
Qed.

Lemma occurrences_idle t n :
  (forall out, exists extra, length extra = n /\
     scan footer_key t (idle out) = idle (extra ++ out)) ->
  occurrences footer_key t = n.
Proof.
  intros H. unfold occurrences. rewrite scan_fields by reflexivity.
  destruct (H []) as (extra & Hn & Hs). fold (idle []). rewrite Hs.
  unfold finish, idle; cbn [mode found]. now rewrite length_rev, app_nil_r.
Qed.

Lemma scan_free_app a rest out :
  footer_free a ->
  scan footer_key (a +:+ rest) (idle out) = scan footer_key rest (idle out).
Proof. intros Ha. now rewrite scan_app, Ha. Qed.

Section FooterCount.

Variables (instanceId : Z)
  (body_html header_html footer_html head_html page_size
   margin_left margin_right header_height footer_height : string)
  (footer_only_on_last_page : bool)
  (page_padding_top pageNumberCSS : string).

Hypothesis fragments_free :
  Forall footer_free
    [pageNumberCSS; page_padding_top; margin_left; margin_right;
     header_height; footer_height; page_size; head_html; header_html;
     footer_html; body_html].

Ltac in_list :=
  solve [repeat match goal with
                | |- ?x ∈ ?y :: _ =>
                    first [constr_eq x y; apply list_elem_of_here
                          | apply list_elem_of_further]
                end].

Lemma fragment_free t :
  t ∈ [pageNumberCSS; page_padding_top; margin_left; margin_right;
       header_height; footer_height; page_size; head_html; header_html;
       footer_html; body_html] ->
  footer_free t.
Proof. revert t. apply Forall_forall. exact fragments_free. Qed.

Lemma static_free t : t ∈ static_text -> footer_free t.
Proof. revert t. apply Forall_forall. exact footer_free_static. Qed.

Lemma footer_free_styles_and_header :
  footer_free
    (styles_and_header header_html head_html page_size margin_left margin_right
       header_height footer_height page_padding_top pageNumberCSS).
Proof.
  unfold styles_and_header.
  repeat (apply footer_free_app;
          [first [apply fragment_free; in_list
                 | apply static_free; unfold static_text; in_list] |]).
  apply static_free. unfold static_text. in_list.
Qed.

Lemma scan_before_body out :
  scan footer_key
    (before_body instanceId header_html footer_html head_html page_size
       margin_left margin_right header_height footer_height
       footer_only_on_last_page page_padding_top pageNumberCSS) (idle out) =
  idle (if footer_only_on_last_page then out else ""%string :: out).
Proof.
  unfold before_body.
  rewrite (scan_free_app (scripts instanceId)) by apply footer_free_scripts.
  rewrite (scan_free_app (styles_and_header _ _ _ _ _ _ _ _ _))
    by exact footer_free_styles_and_header.
  rewrite (scan_app _ (footer_before_body _ _)).
  assert (H12 : footer_free IframeHTML_12)
    by (apply static_free; unfold static_text; in_list).
  unfold footer_before_body. destruct footer_only_on_last_page.
  - cbn [scan]. apply H12.
  - rewrite scan_footer_region by (apply fragment_free; in_list). apply H12.
Qed.

Lemma scan_after_body out :
  scan footer_key (after_body footer_html footer_only_on_last_page) (idle out) =
  idle (if footer_only_on_last_page then ""%string :: out else out).
Proof.
  unfold after_body.
  rewrite (scan_free_app IframeHTML_13)
    by (apply static_free; unfold static_text; in_list).
  rewrite (scan_app _ (footer_after_body _ _)).
  assert (H14 : footer_free IframeHTML_14)
    by (apply static_free; unfold static_text; in_list).
  unfold footer_after_body. destruct footer_only_on_last_page.
  - rewrite scan_footer_region by (apply fragment_free; in_list). apply H14.
  - cbn [scan]. apply H14.
Qed.

(** With fragments that are free of footer openers, the openers of the
    document are those of its footer slots. *)
Lemma footer_count :
  buildIframeHTML instanceId body_html header_html footer_html head_html
    page_size margin_left margin_right header_height footer_height
    footer_only_on_last_page page_padding_top pageNumberCSS =
  before_body instanceId header_html footer_html head_html page_size
    margin_left margin_right header_height footer_height
    footer_only_on_last_page page_padding_top pageNumberCSS +:+
  body_html +:+ after_body footer_html footer_only_on_last_page /\
  occurrences footer_key
    (before_body instanceId header_html footer_html head_html page_size
       margin_left margin_right header_height footer_height
       footer_only_on_last_page page_padding_top pageNumberCSS) =
    (if footer_only_on_last_page then 0 else 1)%nat /\
  occurrences footer_key (after_body footer_html footer_only_on_last_page) =
    (if footer_only_on_last_page then 1 else 0)%nat /\
  occurrences footer_key
    (buildIframeHTML instanceId body_html header_html footer_html head_html
       page_size margin_left margin_right header_height footer_height
       footer_only_on_last_page page_padding_top pageNumberCSS) = 1%nat.
Proof.
  assert (Hdoc :
    buildIframeHTML instanceId body_html header_html footer_html head_html
      page_size margin_left margin_right header_height footer_height
      footer_only_on_last_page page_padding_top pageNumberCSS =
    before_body instanceId header_html footer_html head_html page_size
      margin_left margin_right header_height footer_height
      footer_only_on_last_page page_padding_top pageNumberCSS +:+
    body_html +:+ after_body footer_html footer_only_on_last_page).
  { unfold buildIframeHTML, before_body, after_body.
    now rewrite !append_assoc. }
  split; [exact Hdoc |]. split; [|split].
  - apply occurrences_idle. intros out. rewrite scan_before_body.
    destruct footer_only_on_last_page;
      [exists [] | exists [""%string]]; split; reflexivity.
  - apply occurrences_idle. intros out. rewrite scan_after_body.
    destruct footer_only_on_last_page;
      [exists [""%string] | exists []]; split; reflexivity.
  - rewrite Hdoc. apply occurrences_idle. intros out.
    assert (Hbody : footer_free body_html) by (apply fragment_free; in_list).
    rewrite (scan_app _ (before_body _ _ _ _ _ _ _ _ _ _ _ _)), scan_before_body.
    rewrite (scan_free_app body_html) by exact Hbody.
    rewrite scan_after_body.
    destruct footer_only_on_last_page; exists [""%string]; split; reflexivity.
Qed.

End FooterCount.




(** The count on a document whose fragments are free of footer openers:
    flag true, one opener, after the body. *)
Example document_with_last_page_footer :
  occurrences footer_key
    (before_body 1 "<b>H</b>" "<i>F</i>" "<style></style>"
       "A4" "0mm" "0mm" "0mm" "0mm" true "16px" "") = 0%nat /\
  occurrences footer_key (after_body "<i>F</i>" true) = 1%nat /\
  occurrences footer_key
    (buildIframeHTML 1 "<h1>X</h1>" "<b>H</b>" "<i>F</i>" "<style></style>"
       "A4" "0mm" "0mm" "0mm" "0mm" true "16px" "") = 1%nat.
Proof.
  apply (footer_count 1 "<h1>X</h1>" "<b>H</b>" "<i>F</i>" "<style></style>"
           "A4" "0mm" "0mm" "0mm" "0mm" true "16px" "").
  repeat constructor; intros out; vm_compute; reflexivity.
Qed.

Example document_with_repeating_footer :
  occurrences footer_key
    (buildIframeHTML 1 "<h1>X</h1>" "<b>H</b>" "<i>F</i>" "" "A4" "0mm" "0mm"
       "0mm" "0mm" false "16px" "") = 1%nat.
Proof. vm_compute. reflexivity. Qed.

(** * More of the code *)

(** ** render, case by case *)

(** Extra X1.  A container selector that resolves to no element does not
    fail [render]: [getContainer] logs one warning that names the selector
    and falls back to [document.body].  The iframe appended there, and
    nowhere else, carries the composed document and keeps the style
    [createIframe] gives an iframe with a selector (width and height 100%),
    not the off-screen one; nothing else is logged and no callback is
    called. *)
Theorem render_falls_back_to_body h o w selector n :
  containerSelector o = Some selector ->
  truthy_string selector = true ->
  document_defined h = true ->
  querySelector h selector = NotFound ->
  body h = Some n ->
  let id := instanceCounter (this w) in
  let r := render h o w in
  r.1 = Normal tt /\
  console r.2 =
    console w ++ [{| level := level_warn; text := not_found_warning selector |}] /\
  children r.2 = append_to n (mounted_iframe fill_container id o) (children w) /\
  calls r.2 = calls w.
Proof.
  intros Hsel Htruthy Hdoc Hq Hbody id r. unfold r. rewrite render_spec. fold id.
  destruct (allocate_spec o w) as (_ & _ & _ & _ & Hch & Hcon & _ & Hcalls & _).
  destruct (mount_cases h id o (allocate o w).2)
    as [?|sel' n' ? Hs' ? Hq'|sel' e' ? Hs' ? Hq'|sel' n' ? Hs' ? Hq' Hb'
       |sel' ? Hs' ? Hq' ?|n' ? Ht' ?|? Ht' ?];
    try congruence;
    try (rewrite Hsel in Ht'; cbn in Ht'; congruence).
  assert (sel' = selector) as -> by congruence.
  assert (n' = n) as -> by congruence.
  cbn [fst snd]. unfold console_warn, modify, with_children, with_console.
  cbn [fst snd children console calls]. rewrite Hch, Hcon, Hcalls.
  repeat split.
Qed.

Lemma render_falls_back_to_body_witness :
  (render browser (sample None None None (Some "#missing")) loaded).1 = Normal tt /\
  console (render browser (sample None None None (Some "#missing")) loaded).2 =
    [{| level := level_warn; text := not_found_warning "#missing" |}].
Proof.
  pose proof (render_falls_back_to_body browser
                (sample None None None (Some "#missing")) loaded "#missing" 0%nat
                eq_refl eq_refl eq_refl eq_refl eq_refl) as H.
  exact (conj (proj1 H) (proj1 (proj2 H))).
Defined.

(** Extra X2.  Without a container selector ([null], or the empty string,
    which is falsy too) [render] appends to [document.body], and nowhere
    else, one iframe that carries the composed document and is moved off
    the screen: [position: absolute], [top] and [left] at [-9999px],
    [border: none], no width or height set.  Nothing is logged and no
    callback is called. *)
Theorem render_off_screen h o w n :
  truthy (containerSelector o) = false ->
  document_defined h = true ->
  body h = Some n ->
  let id := instanceCounter (this w) in
  let r := render h o w in
  r.1 = Normal tt /\
  children r.2 = append_to n (mounted_iframe off_screen id o) (children w) /\
  iframe_style (mounted_iframe off_screen id o) =
    {| width := None; height := None; border := Some "none"%string;
       position := Some "absolute"%string; top := Some "-9999px"%string;
       left := Some "-9999px"%string |} /\
  console r.2 = console w /\
  calls r.2 = calls w.
Proof.
  intros Htruthy Hdoc Hbody id r. unfold r. rewrite render_spec. fold id.
  destruct (allocate_spec o w) as (_ & _ & _ & _ & Hch & Hcon & _ & Hcalls & _).
  destruct (mount_cases h id o (allocate o w).2)
    as [?|sel' n' ? Hs' Ht' Hq'|sel' e' ? Hs' Ht' Hq'|sel' n' ? Hs' Ht' Hq' Hb'
       |sel' ? Hs' Ht' Hq' ?|n' ? Ht' ?|? Ht' ?];
    try congruence;
    try (rewrite Hs' in Htruthy; cbn in Htruthy; congruence).
  assert (n' = n) as -> by congruence.
  cbn [fst snd]. unfold with_children. cbn [children console calls].
  rewrite Hch, Hcon, Hcalls. repeat split.
Qed.

Lemma render_off_screen_witness :
  children (render browser (sample None None None (Some "")) loaded).2 =
  append_to 0%nat (mounted_iframe off_screen 1 (sample None None None (Some ""))) ∅.
Proof.
  exact (proj1 (proj2 (render_off_screen browser (sample None None None (Some ""))
                         loaded 0%nat eq_refl eq_refl eq_refl))).
Defined.

(** [mount] throws for the reasons of [mount_failure], and for no other. *)
Lemma mount_throws_iff h id o w e :
  (mount h id o w).1 = Throw e <-> mount_failure h o e.
Proof.
  split.
  - intros H. destruct (mount_cases h id o w); cbn in H; try discriminate;
      injection H as <-;
      eauto using no_document, invalid_selector, no_body_to_fall_back_to, no_body.
  - intros H.
    destruct (mount_cases h id o w)
      as [?|sel' n' ? Hs' Ht' Hq'|sel' e' ? Hs' Ht' Hq'|sel' n' ? Hs' Ht' Hq' Hb'
         |sel' ? Hs' Ht' Hq' ?|n' ? Ht' ?|? Ht' ?];
      destruct H as [?|s e ? Hs Ht Hq|s ? Hs Ht Hq ?|? Ht ?]; cbn;
      try congruence;
      try (rewrite Hs in Ht'; cbn in Ht'; congruence);
      try (rewrite Hs' in Ht; cbn in Ht; congruence).
Qed.

Lemma mount_normal h id o w :
  (forall e, ~ mount_failure h o e) -> (mount h id o w).1 = Normal tt.
Proof.
  intros H. destruct (mount h id o w) as [[[]|e] w1] eqn:E; [reflexivity |].
  exfalso. apply (H e), (mount_throws_iff h id o w). now rewrite E.
Qed.

(** [render] when mounting fails: the [catch] block runs in the world
    [allocate] left, but for a warning that [getContainer] may have
    logged. *)
Lemma render_failed h o w e :
  mount_failure h o e ->
  exists w1,
    render h o w = render_catch h o e w1 /\
    this w1 = this (allocate o w).2 /\ children w1 = children w /\
    calls w1 = calls w /\ dispatched w1 = dispatched w /\
    promises w1 = promises w.
Proof.
  intros Hfail. set (id := instanceCounter (this w)).
  apply (mount_throws_iff h id o (allocate o w).2) in Hfail.
  destruct (allocate_spec o w) as (_ & _ & _ & _ & Hch & _ & Hd & Hcalls & Hp).
  pose proof (mount_frame h id o (allocate o w).2) as (Hthis & Hmcalls & Hmd & Hmp).
  assert (Hmch : children (mount h id o (allocate o w).2).2 = children w)
    by (destruct (mount_cases h id o (allocate o w).2); cbn in Hfail;
        try discriminate; cbn; unfold console_warn, modify, with_console; cbn;
        exact Hch).
  rewrite render_spec. fold id.
  destruct (mount h id o (allocate o w).2) as [[[]|e'] w1]; cbn in Hfail;
    [discriminate |]. injection Hfail as ->. cbn [fst snd] in *.
  exists w1. split; [reflexivity |]. split; [exact Hthis |].
  split; [exact Hmch |]. split; [congruence |]. split; congruence.
Qed.

(** Extra X3.  When mounting fails (no [document], a selector that is not
    valid, or no [document.body] to append to), [render] has appended
    nothing, and yet the identifier is used up and what it stored under it
    stays stored: the completion callback, and the pair of PDF callbacks
    when one of them was given.  No message will ever come for that
    identifier, so nothing removes them.  The error callback, when given,
    is called with the message of the failure and nothing else is called;
    the last line logged is the error. *)
Theorem failed_render_stays_registered h o w e :
  mount_failure h o e ->
  let id := instanceCounter (this w) in
  let r := render h o w in
  children r.2 = children w /\
  instanceCounter (this r.2) = id + 1 /\
  callbackStorage (this r.2) !! id = Some (callback o) /\
  pdfCallbackStorage (this r.2) !! id =
    (if truthy_function (onPdfReady o) || truthy_function (onPdfError o)
     then Some (stored_pair o)
     else pdfCallbackStorage (this w) !! id) /\
  calls r.2 = calls w ++ match onPdfError o with
                         | Some f => calls_of f [message e]
                         | None => []
                         end /\
  last (console r.2) =
    Some {| level := level_error; text := ["Pagify render error:"; message e] |}.
Proof.
  intros Hfail id r.
  destruct (allocate_spec o w) as (_ & Hc & Hcb & Hpdf & _).
  rewrite <- (render_this h o w) in Hc, Hcb, Hpdf. fold r id in Hc, Hcb, Hpdf.
  destruct (render_failed h o w e Hfail) as (w1 & Hr & _ & Hch & Hcalls & _).
  pose proof (render_catch_spec h o e w1) as (_ & Hrch & _ & Hrcon & Hrcalls & _).
  cbn zeta in *.
  split; [unfold r; rewrite Hr; congruence |]. split; [exact Hc |].
  split; [rewrite Hcb; apply lookup_insert_eq |].
  split; [rewrite Hpdf;
          destruct (truthy_function (onPdfReady o) || truthy_function (onPdfError o));
          [apply lookup_insert_eq | reflexivity] |].
  unfold r. rewrite Hr.
  split; [rewrite Hrcalls, Hcalls; reflexivity |].
  rewrite Hrcon. apply last_snoc.
Qed.

Lemma failed_render_stays_registered_witness :
  mount_failure nodejs (sample (Some (CallerFn "done" Returns)) None None None)
    ReferenceError_document /\
  callbackStorage
    (this (render nodejs (sample (Some (CallerFn "done" Returns)) None None None)
             loaded).2) !! 1 = Some (Some (CallerFn "done" Returns)).
Proof.
  assert (H : mount_failure nodejs
                (sample (Some (CallerFn "done" Returns)) None None None)
                ReferenceError_document)
    by (apply no_document; reflexivity).
  split; [exact H |].
  exact (proj1 (proj2 (proj2 (failed_render_stays_registered nodejs
    (sample (Some (CallerFn "done" Returns)) None None None) loaded _ H)))).
Defined.

(** ** The registry over a lifetime *)

(** What a message does to the SDK object: nothing to the counter, and to
    each store nothing or the deletion of the entry of its identifier. *)
Lemma listener_this h m w :
  let s := this w in
  let s' := this (listener h m w).2 in
  instanceCounter s' = instanceCounter s /\
  (callbackStorage s' = callbackStorage s \/
   exists iter, message_iter m = Some iter /\
     callbackStorage s' = delete iter (callbackStorage s)) /\
  (pdfCallbackStorage s' = pdfCallbackStorage s \/
   exists iter, message_iter m = Some iter /\
     pdfCallbackStorage s' = delete iter (pdfCallbackStorage s)).
Proof.
  intros s s'. split; [apply listener_counter |]. subst s s'.
  destruct m as [iter|iter blobUrl|iter error|].
  - rewrite listener_renderpdf.
    destruct (callbackStorage (this w) !! iter) as [[f|]|];
      [|split; [right; eauto | left; reflexivity]..].
    pose proof (invoke_frame h f [] w) as (Hthis & _).
    destruct (invoke h f [] w) as [[[]|e] w1]; cbn in *; rewrite Hthis;
      (split; [|left; reflexivity]); [right; eauto | left; reflexivity].
  - rewrite listener_PDF_READY.
    destruct (ready_side w iter) as [f|]; [|split; left; reflexivity].
    pose proof (invoke_frame h f [blobUrl]
                  (console_log ["PDF blob ready:"; blobUrl]%string w).2)
      as (Hthis & _).
    destruct (invoke h f [blobUrl] _) as [[[]|e] w1]; cbn in *; rewrite Hthis;
      (split; [left; reflexivity |]); [right; eauto | left; reflexivity].
  - rewrite listener_PDF_ERROR.
    destruct (error_side w iter) as [f|]; [|split; left; reflexivity].
    pose proof (invoke_frame h f [error]
                  (console_error ["PDF generation error:"; error]%string w).2)
      as (Hthis & _).
    destruct (invoke h f [error] _) as [[[]|e] w1]; cbn in *; rewrite Hthis;
      (split; [left; reflexivity |]); [right; eauto | left; reflexivity].
  - split; left; reflexivity.
Qed.

(** The listener mounts nothing. *)
Lemma listener_children h m w : children (listener h m w).2 = children w.
Proof.
  destruct m as [iter|iter blobUrl|iter error|].
  - rewrite listener_renderpdf.
    destruct (callbackStorage (this w) !! iter) as [[f|]|]; try reflexivity.
    pose proof (invoke_frame h f [] w) as (_ & Hch & _).
    destruct (invoke h f [] w) as [[[]|e] w1]; cbn in *; exact Hch.
  - rewrite listener_PDF_READY.
    destruct (ready_side w iter) as [f|]; try reflexivity.
    pose proof (invoke_frame h f [blobUrl]
                  (console_log ["PDF blob ready:"; blobUrl]%string w).2)
      as (_ & Hch & _).
    destruct (invoke h f [blobUrl] _) as [[[]|e] w1]; cbn in *; exact Hch.
  - rewrite listener_PDF_ERROR.
    destruct (error_side w iter) as [f|]; try reflexivity.
    pose proof (invoke_frame h f [error]
                  (console_error ["PDF generation error:"; error]%string w).2)
      as (_ & Hch & _).
    destruct (invoke h f [error] _) as [[[]|e] w1]; cbn in *; exact Hch.
  - reflexivity.
Qed.

Lemma allocate_fresh o w :
  registry_fresh (this w) -> registry_fresh (this (allocate o w).2).
Proof.
  intros (H1 & Hcb & Hpdf).
  destruct (allocate_spec o w) as (_ & Hc' & Hcb' & Hpdf' & _).
  unfold registry_fresh. rewrite Hc', Hcb', Hpdf'. split; [lia |]. split.
  - intros id. rewrite lookup_insert_is_Some. intros [<-|[_ H]]; [lia |].
    specialize (Hcb id H). lia.
  - intros id pair.
    destruct (truthy_function (onPdfReady o) || truthy_function (onPdfError o))
      eqn:Hany.
    + rewrite lookup_insert_Some. intros [[<- <-]|[_ H]].
      * split; [lia | exact Hany].
      * destruct (Hpdf id pair H). split; [lia | assumption].
    + intros H. destruct (Hpdf id pair H). split; [lia | assumption].
Qed.

Lemma listener_fresh h m w :
  registry_fresh (this w) -> registry_fresh (this (listener h m w).2).
Proof.
  intros (H1 & Hcb & Hpdf).
  destruct (listener_this h m w) as (Hc' & Hcb' & Hpdf').
  unfold registry_fresh. rewrite Hc'. split; [exact H1 |]. split.
  - intros id. destruct Hcb' as [->|(iter & _ & ->)]; [apply Hcb |].
    rewrite lookup_delete_is_Some. intros [_ H]. now apply Hcb.
  - intros id pair. destruct Hpdf' as [->|(iter & _ & ->)]; [apply Hpdf |].
    rewrite lookup_delete_Some. intros [_ H]. now apply Hpdf.
Qed.

Lemma perform_fresh h op w :
  registry_fresh (this w) -> registry_fresh (this (perform h op w).2).
Proof.
  intros H. destruct op as [o|o|m]; unfold perform.
  - rewrite render_this. now apply allocate_fresh.
  - unfold bind. rewrite generatePDF_spec. cbn [fst snd ret].
    destruct (window_defined h); [|exact H].
    rewrite render_this. now apply allocate_fresh.
  - unfold initMessageListener. destruct (window_defined h); [|exact H].
    now apply listener_fresh.
Qed.

Lemma lifetime_fresh ops : forall w,
  registry_fresh (this w) -> registry_fresh (this (lifetime ops w).2).
Proof.
  induction ops as [|[h op] ops IH]; intros w H; [exact H |].
  cbn [lifetime]. specialize (IH (perform h op w).2 (perform_fresh h op w H)).
  destruct (lifetime ops (perform h op w).2) as [ids w']. exact IH.
Qed.

Lemma loaded_fresh : registry_fresh (this loaded).
Proof.
  split; [cbn; lia |]. split.
  - intros id [x H]. cbn in H. now rewrite lookup_empty in H.
  - intros id pair H. cbn in H. now rewrite lookup_empty in H.
Qed.

(** No entry is stored outside the identifiers that were allocated. *)
Lemma fresh_outside s id :
  registry_fresh s -> ~ (1 <= id < instanceCounter s) ->
  callbackStorage s !! id = None /\ pdfCallbackStorage s !! id = None.
Proof.
  intros (H1 & Hcb & Hpdf) Hid. split.
  - destruct (callbackStorage s !! id) eqn:E; [|reflexivity].
    exfalso. apply Hid, Hcb. eauto.
  - destruct (pdfCallbackStorage s !! id) as [pair|] eqn:E; [|reflexivity].
    exfalso. now apply Hid, (Hpdf id pair).
Qed.

Lemma fresh_unused s :
  registry_fresh s ->
  instanceCounter s <> 0 /\
  callbackStorage s !! instanceCounter s = None /\
  pdfCallbackStorage s !! instanceCounter s = None.
Proof.
  intros H. destruct (fresh_outside s (instanceCounter s) H) as [Hcb Hpdf]; [lia |].
  destruct H as (Hc & _). split; [lia | auto].
Qed.

(** Extra X4.  In every world a process can reach from the loading of the
    SDK, by calls of [render] and [generatePDF] and messages in any order
    and in any hosts, the two stores hold entries only under identifiers
    that were allocated, from 1 to the counter excluded, and a stored pair
    has at least one side set.  So the next identifier to be allocated is
    in neither store (an allocation never overwrites an entry), and
    neither is 0, the one identifier the listener treats as absent. *)
Theorem registry_keys_are_allocated ops :
  let s := this (lifetime ops loaded).2 in
  registry_fresh s /\
  callbackStorage s !! instanceCounter s = None /\
  pdfCallbackStorage s !! instanceCounter s = None /\
  callbackStorage s !! 0 = None /\
  pdfCallbackStorage s !! 0 = None.
Proof.
  intros s. assert (H : registry_fresh s) by (apply lifetime_fresh, loaded_fresh).
  split; [exact H |].
  destruct (fresh_unused s H) as (_ & ? & ?).
  destruct (fresh_outside s 0 H) as [? ?]; [lia | auto].
Qed.

(** Extra X5.  A message touches the entries of its own identifier only:
    whatever the message and whatever the callback it calls does (return or
    throw), the entries of every other identifier are in both stores as
    they were, the counter is as it was, and nothing is mounted. *)
Theorem message_touches_its_identifier_only h m w id :
  message_iter m <> Some id ->
  let w' := (listener h m w).2 in
  callbackStorage (this w') !! id = callbackStorage (this w) !! id /\
  pdfCallbackStorage (this w') !! id = pdfCallbackStorage (this w) !! id /\
  instanceCounter (this w') = instanceCounter (this w) /\
  children w' = children w.
Proof.
  intros Hid w'. subst w'.
  destruct (listener_this h m w) as (Hc & Hcb & Hpdf).
  split; [|split; [|split; [exact Hc | apply listener_children]]].
  - destruct Hcb as [->|(iter & Hm & ->)]; [reflexivity |].
    apply lookup_delete_ne. congruence.
  - destruct Hpdf as [->|(iter & Hm & ->)]; [reflexivity |].
    apply lookup_delete_ne. congruence.
Qed.

Lemma message_touches_its_identifier_only_witness :
  callbackStorage
    (this (listener browser (renderpdf 2) after_render_with_callback).2) !! 1 =
  callbackStorage (this after_render_with_callback) !! 1.
Proof.
  exact (proj1 (message_touches_its_identifier_only browser (renderpdf 2)
                  after_render_with_callback 1 ltac:(discriminate))).
Defined.

(** A completion message whose callback comes back. *)
Lemma completion_step h w iter callback :
  callbackStorage (this w) !! iter = Some callback ->
  side_returns callback ->
  let r := listener h (renderpdf iter) w in
  r.1 = Normal tt /\
  instanceCounter (this r.2) = instanceCounter (this w) /\
  callbackStorage (this r.2) = delete iter (callbackStorage (this w)) /\
  pdfCallbackStorage (this r.2) = pdfCallbackStorage (this w) /\
  calls r.2 = calls w ++ match callback with
                         | Some f => calls_of f []
                         | None => []
                         end.
Proof.
  intros Hcb Hret. cbn zeta. rewrite listener_renderpdf, Hcb.
  destruct callback as [f|]; cbn.
  - pose proof (invoke_frame h f [] w) as (Hthis & _ & _ & _ & Hcalls).
    pose proof (invoke_returns h f [] w Hret) as Hn.
    destruct (invoke h f [] w) as [[[]|e] w2]; cbn in *; [|discriminate].
    rewrite Hthis. auto.
  - rewrite app_nil_r. auto.
Qed.

(** Extra X6.  A round trip through the completion store.  In a world the
    process can reach, [render] followed by the completion message of the
    identifier it allocated, in any hosts, leaves the completion store
    exactly as it was before [render]: the entry that [render] inserted is
    the entry the message deletes, and no older entry was overwritten.
    The listener completes and calls the completion callback once, with
    no argument, when there is one (it is assumed to come back). *)
Theorem completion_round_trip ops h h' o :
  let w := (lifetime ops loaded).2 in
  let id := instanceCounter (this w) in
  let w1 := (render h o w).2 in
  let r := listener h' (renderpdf id) w1 in
  side_returns (callback o) ->
  r.1 = Normal tt /\
  callbackStorage (this r.2) = callbackStorage (this w) /\
  calls r.2 = calls w1 ++ completion_calls o.
Proof.
  intros w id w1 r Hret.
  destruct (fresh_unused (this w)) as (_ & Hfresh & _);
    [apply lifetime_fresh, loaded_fresh |]. fold id in Hfresh.
  assert (Hcb : callbackStorage (this w1) =
                <[id := callback o]> (callbackStorage (this w)))
    by (unfold w1; rewrite render_this; apply allocate_spec).
  destruct (completion_step h' w1 id (callback o)) as (Hn & _ & Hdel & _ & Hcalls);
    [rewrite Hcb; apply lookup_insert_eq | exact Hret |].
  fold r in Hn, Hdel, Hcalls. split; [exact Hn |]. split; [|exact Hcalls].
  rewrite Hdel, Hcb. now apply delete_insert_id.
Qed.

Lemma completion_round_trip_witness :
  side_returns (callback (sample (Some (CallerFn "done" Returns)) None None None)) /\
  callbackStorage
    (this (listener browser (renderpdf 1)
             (render browser (sample (Some (CallerFn "done" Returns)) None None None)
                loaded).2).2) = ∅.
Proof.
  split; [exact I |].
  exact (proj1 (proj2 (completion_round_trip [] browser browser
    (sample (Some (CallerFn "done" Returns)) None None None) I))).
Defined.

Lemma result_resolved h w m iter :
  message_iter m = Some iter ->
  m <> renderpdf iter ->
  pdf_result_resolved (result_side w m) (payload m) iter w (listener h m w).
Proof.
  destruct m as [i|i blobUrl|i error|]; intros [= <-] Hm; cbn [result_side payload].
  - congruence.
  - apply PDF_READY_resolved.
  - apply PDF_ERROR_resolved.
Qed.

(** A PDF-result message whose callback comes back. *)
Lemma result_step h w m iter f :
  message_iter m = Some iter ->
  result_side w m = Some f ->
  returns f ->
  let r := listener h m w in
  r.1 = Normal tt /\
  instanceCounter (this r.2) = instanceCounter (this w) /\
  callbackStorage (this r.2) = callbackStorage (this w) /\
  pdfCallbackStorage (this r.2) = delete iter (pdfCallbackStorage (this w)) /\
  calls r.2 = calls w ++ calls_of f [payload m].
Proof.
  intros Hm Hside Hret r.
  assert (Hm0 : m <> renderpdf iter) by (intros ->; discriminate).
  pose proof (result_resolved h w m iter Hm Hm0) as H.
  rewrite Hside in H. cbn in H. destruct H as (Hcalls & H).
  destruct (H Hret) as (Hn & Hpdf & Hcb).
  split; [exact Hn |]. split; [apply listener_counter | auto].
Qed.

(** Extra X7.  The PDF callbacks of an identifier fire at most once, and
    only one of the two.  Once a PDF-result message (ready or error) has
    found its side of the pair set and the callback has come back, the
    pair is gone; any later PDF-result message for the same identifier, of
    either kind and in any host, completes without calling anything and
    leaves the SDK object as it is. *)
Theorem pdf_callbacks_fire_at_most_once h h' w m m' iter f :
  message_iter m = Some iter ->
  result_side w m = Some f ->
  returns f ->
  message_iter m' = Some iter ->
  m' <> renderpdf iter ->
  let w1 := (listener h m w).2 in
  calls w1 = calls w ++ calls_of f [payload m] /\
  pdfCallbackStorage (this w1) !! iter = None /\
  result_side w1 m' = None /\
  (listener h' m' w1).1 = Normal tt /\
  calls (listener h' m' w1).2 = calls w1 /\
  this (listener h' m' w1).2 = this w1.
Proof.
  intros Hm Hside Hret Hm' Hnot w1.
  destruct (result_step h w m iter f Hm Hside Hret) as (_ & _ & _ & Hpdf & Hcalls).
  fold w1 in Hcalls, Hpdf.
  assert (Hnone : pdfCallbackStorage (this w1) !! iter = None)
    by (rewrite Hpdf; apply lookup_delete_eq).
  destruct (no_pair_no_side w1 iter Hnone) as [Hr He].
  assert (Hside' : result_side w1 m' = None).
  { destruct m' as [i|i b|i e|]; try reflexivity;
      injection Hm' as ->; assumption. }
  pose proof (result_resolved h' w1 m' iter Hm' Hnot) as H2.
  rewrite Hside' in H2. cbn in H2. destruct H2 as (Hn & Hthis & Hcalls').
  auto 10.
Qed.

Lemma pdf_callbacks_fire_at_most_once_witness :
  calls (listener browser (PDF_ERROR 1 "late")
           (listener browser (PDF_READY 1 "blob:1")
              after_render_with_pdf_callbacks).2).2 =
  calls (listener browser (PDF_READY 1 "blob:1") after_render_with_pdf_callbacks).2.
Proof.
  exact (proj1 (proj2 (proj2 (proj2 (proj2
    (pdf_callbacks_fire_at_most_once browser browser
       after_render_with_pdf_callbacks (PDF_READY 1 "blob:1") (PDF_ERROR 1 "late")
       1 (CallerFn "ready" Returns) eq_refl eq_refl I eq_refl
       ltac:(discriminate))))))).
Defined.

(** ** Promises of the facade *)

Lemma settled_stay_refl w : settled_stay w w.
Proof. intros p s H. exact H. Qed.

Lemma settled_stay_trans w1 w2 w3 :
  settled_stay w1 w2 -> settled_stay w2 w3 -> settled_stay w1 w3.
Proof. intros H12 H23 p s H. apply H23, H12, H. Qed.

Lemma settled_stay_eq w w' : promises w' = promises w -> settled_stay w w'.
Proof. intros E p s H. now rewrite E. Qed.

(** [resolve] and [reject] leave a settled promise alone, and every other
    promise too. *)
Lemma settle_settled p s w : settled_stay w (settle p s w).2.
Proof.
  intros q t H. unfold settle, modify, with_promises; cbn.
  destruct (promises w !! p) as [[u|]|] eqn:Hp; try exact H.
  destruct (decide (p = q)) as [->|Hne]; [congruence |].
  now rewrite list_lookup_insert_ne.
Qed.

Lemma invoke_settled h f args w : settled_stay w (invoke h f args w).2.
Proof.
  destruct f as [fn [|e]|p|p]; cbn.
  1,2: apply settled_stay_eq; reflexivity.
  - destruct (fetch h _); apply settle_settled.
  - apply settle_settled.
Qed.

Lemma listener_settled h m w : settled_stay w (listener h m w).2.
Proof.
  destruct m as [iter|iter blobUrl|iter error|].
  - rewrite listener_renderpdf.
    destruct (callbackStorage (this w) !! iter) as [[f|]|];
      try (apply settled_stay_eq; reflexivity).
    pose proof (invoke_settled h f [] w) as H.
    destruct (invoke h f [] w) as [[[]|e] w1]; exact H.
  - rewrite listener_PDF_READY.
    destruct (ready_side w iter) as [f|]; [|apply settled_stay_eq; reflexivity].
    pose proof (invoke_settled h f [blobUrl]
                  (console_log ["PDF blob ready:"; blobUrl]%string w).2) as H.
    destruct (invoke h f [blobUrl] _) as [[[]|e] w1]; exact H.
  - rewrite listener_PDF_ERROR.
    destruct (error_side w iter) as [f|]; [|apply settled_stay_eq; reflexivity].
    pose proof (invoke_settled h f [error]
                  (console_error ["PDF generation error:"; error]%string w).2) as H.
    destruct (invoke h f [error] _) as [[[]|e] w1]; exact H.
  - apply settled_stay_refl.
Qed.

Lemma render_catch_settled h o e w : settled_stay w (render_catch h o e w).2.
Proof.
  unfold render_catch, bind, console_error, modify; cbn.
  destruct (onPdfError o) as [f|]; [|apply settled_stay_eq; reflexivity].
  apply (invoke_settled h f [message e] (with_console _ w)).
Qed.

Lemma render_settled h o w : settled_stay w (render h o w).2.
Proof.
  rewrite render_spec.
  destruct (allocate_spec o w) as (_ & _ & _ & _ & _ & _ & _ & _ & Hp).
  pose proof (mount_frame h (instanceCounter (this w)) o (allocate o w).2)
    as (_ & _ & _ & Hp').
  destruct (mount h _ o _) as [[[]|e] w1]; cbn in *.
  - apply settled_stay_eq. congruence.
  - eapply settled_stay_trans; [|apply render_catch_settled].
    apply settled_stay_eq. congruence.
Qed.

Lemma generatePDF_settled h o w : settled_stay w (generatePDF h o w).2.
Proof.
  rewrite generatePDF_spec. cbn [snd].
  assert (Happ : forall x, settled_stay w (with_promises (fun ps => ps ++ [x]) w)).
  { intros x p s H. cbn. now apply lookup_app_l_Some. }
  destruct (window_defined h); [|apply Happ].
  eapply settled_stay_trans; [apply (Happ None) | apply render_settled].
Qed.

Lemma perform_settled h op w : settled_stay w (perform h op w).2.
Proof.
  destruct op as [o|o|m]; unfold perform.
  - apply render_settled.
  - unfold bind. pose proof (generatePDF_settled h o w) as H.
    destruct (generatePDF h o w) as [[p|e] w1]; exact H.
  - unfold initMessageListener. destruct (window_defined h);
      [apply listener_settled | apply settled_stay_refl].
Qed.

Lemma lifetime_settled ops : forall w, settled_stay w (lifetime ops w).2.
Proof.
  induction ops as [|[h op] ops IH]; intros w; [apply settled_stay_refl |].
  cbn [lifetime]. specialize (IH (perform h op w).2).
  destruct (lifetime ops (perform h op w).2) as [ids w'].
  eapply settled_stay_trans; [apply perform_settled | exact IH].
Qed.

Lemma mount_failure_modifiedOptions h o p e :
  mount_failure h (modifiedOptions o p) e <-> mount_failure h o e.
Proof.
  split; intros H; destruct H;
    eauto using no_document, invalid_selector, no_body_to_fall_back_to, no_body.
Qed.

(** The pair [generatePDF] registers, and its promise when it returns. *)
Lemma generatePDF_registered h o w :
  window_defined h = true ->
  let p := length (promises w) in
  let id := instanceCounter (this w) in
  let w1 := (generatePDF h o w).2 in
  pdfCallbackStorage (this w1) !! id = Some (facade_pair p) /\
  calls w1 = calls w /\
  ((forall e, ~ mount_failure h o e) -> promises w1 = promises w ++ [None]) /\
  (forall e, mount_failure h o e ->
     children w1 = children w /\
     promises w1 = promises w ++ [Some (Rejected (mkError "Error" (message e)))]).
Proof.
  intros Hwin p id w1. unfold w1. rewrite generatePDF_spec, Hwin. cbn [snd]. fold p.
  set (w0 := with_promises (fun ps => ps ++ [None]) w).
  set (o' := modifiedOptions o p).
  destruct (allocate_spec o' w0) as (_ & _ & _ & Hpdf & _ & _ & _ & Hacalls & Hp).
  split; [rewrite render_this, Hpdf; apply lookup_insert_eq |].
  pose proof (mount_frame h id o' (allocate o' w0).2) as (_ & Hmcalls & _ & Hp').
  change (calls w0) with (calls w) in Hacalls.
  split; [|split].
  - rewrite render_spec. change (instanceCounter (this w0)) with id.
    destruct (mount h id o' _) as [[[]|e] w2]; cbn [fst snd] in *;
      [congruence |].
    pose proof (render_catch_spec h o' e w2) as (_ & _ & _ & _ & Hrcalls & _).
    change (calls (render_catch h o' e w2).2 = calls w2 ++ []) in Hrcalls.
    rewrite app_nil_r in Hrcalls. congruence.
  - intros Hok. rewrite render_spec. change (instanceCounter (this w0)) with id.
    assert (Hok' : forall e, ~ mount_failure h o' e)
      by (intros e He; apply (Hok e), (mount_failure_modifiedOptions h o p e), He).
    pose proof (mount_normal h id o' (allocate o' w0).2 Hok') as Hn.
    destruct (mount h id o' _) as [[[]|e] w2]; cbn in *; [congruence | discriminate].
  - intros e He. apply (mount_failure_modifiedOptions h o p e) in He.
    destruct (render_failed h o' w0 e He) as (w2 & -> & _ & Hch & _ & _ & Hp2).
    split; [rewrite (proj1 (proj2 (render_catch_spec h o' e w2))); exact Hch |].
    unfold render_catch, bind, console_error, modify, o'; cbn.
    unfold settle, modify, with_promises; cbn. rewrite Hp2. cbn.
    unfold p. rewrite lookup_app_r, Nat.sub_diag by lia. cbn.
    rewrite insert_app_r_alt, Nat.sub_diag by lia. reflexivity.
Qed.

(** Extra X9.  The facade end to end, when mounting succeeds.  In a host
    with a window and for an identifier that is not 0, [generatePDF] returns
    with its promise pending; the PDF-result message of the identifier it
    allocated then settles the promise, in the host [h'] the message
    arrives in: a PDF-ready message resolves it with the blob that
    [fetch(blobUrl)] gives there, or rejects it with the error of the
    fetch; a PDF-error message rejects it with an [Error] whose message is
    the text of the message.  The pair of closures is then gone from the
    registry and no function of the caller was called. *)
Theorem generatePDF_settles_with_result h h' o w m :
  window_defined h = true ->
  (forall e, ~ mount_failure h o e) ->
  instanceCounter (this w) <> 0 ->
  message_iter m = Some (instanceCounter (this w)) ->
  m <> renderpdf (instanceCounter (this w)) ->
  let p := length (promises w) in
  let w1 := (generatePDF h o w).2 in
  let w2 := (listener h' m w1).2 in
  promises w1 !! p = Some None /\
  promises w2 !! p =
    Some (Some match m with
               | PDF_READY _ blobUrl =>
                   match fetch h' blobUrl with
                   | inl blob => Resolved blob
                   | inr e => Rejected e
                   end
               | _ => Rejected (mkError "Error" (payload m))
               end) /\
  pdfCallbackStorage (this w2) !! instanceCounter (this w) = None /\
  calls w2 = calls w.
Proof.
  intros Hwin Hok Hid Hm Hnot p w1 w2.
  destruct (generatePDF_registered h o w Hwin) as (Hpair & Hcalls & Hpend & _).
  specialize (Hpend Hok). fold p w1 in Hpair, Hpend, Hcalls.
  assert (Hp : promises w1 !! p = Some None).
  { rewrite Hpend. unfold p. rewrite lookup_app_r, Nat.sub_diag by lia. reflexivity. }
  split; [exact Hp |].
  assert (Htruthy : truthy_number (instanceCounter (this w)) = true).
  { unfold truthy_number. apply negb_true_iff, Z.eqb_neq, Hid. }
  rewrite <- Hcalls.
  subst w2. destruct m as [i|i blobUrl|i error|]; try discriminate;
    injection Hm as ->; [congruence | |].
  - rewrite listener_PDF_READY. unfold ready_side. rewrite Htruthy, Hpair. cbn.
    destruct (fetch h' blobUrl) as [blob|e]; cbn;
      unfold with_console; cbn; rewrite Hp; cbn;
      (split; [apply list_lookup_insert_eq; now apply lookup_lt_Some in Hp |]);
      (split; [apply lookup_delete_eq | reflexivity]).
  - rewrite listener_PDF_ERROR. unfold error_side. rewrite Htruthy, Hpair. cbn.
    unfold with_console; cbn. rewrite Hp; cbn.
    split; [apply list_lookup_insert_eq; now apply lookup_lt_Some in Hp |].
    split; [apply lookup_delete_eq | reflexivity].
Qed.

Lemma generatePDF_settles_with_result_witness :
  promises
    (listener browser (PDF_READY 1 "blob:1")
       (generatePDF browser (sample None None None None) loaded).2).2 !! 0%nat =
  Some (Some (Resolved (mkBlob "%PDF-1.3"))).
Proof.
  assert (Hok : forall e, ~ mount_failure browser (sample None None None None) e)
    by (intros e H; inversion H; discriminate).
  exact (proj1 (proj2 (generatePDF_settles_with_result browser browser
    (sample None None None None) loaded (PDF_READY 1 "blob:1") eq_refl Hok
    ltac:(discriminate) eq_refl ltac:(discriminate)))).
Defined.

(** Extra X10.  The facade when mounting fails.  In a host with a window
    where [mount] throws [e], [generatePDF] still returns its promise, and
    the promise is already rejected, with a new [Error] whose message is
    the message of [e] (its name is lost).  Nothing was mounted and no
    function of the caller was called; the pair of closures stays in the
    registry under the identifier that was used up; and nothing the
    process does later changes the rejection. *)
Theorem generatePDF_rejects_when_mounting_fails h o w e ops :
  window_defined h = true ->
  mount_failure h o e ->
  let p := length (promises w) in
  let r := generatePDF h o w in
  let rejection := Rejected (mkError "Error" (message e)) in
  r.1 = Normal p /\
  promises r.2 = promises w ++ [Some rejection] /\
  promises (lifetime ops r.2).2 !! p = Some (Some rejection) /\
  children r.2 = children w /\
  calls r.2 = calls w /\
  pdfCallbackStorage (this r.2) !! instanceCounter (this w) = Some (facade_pair p).
Proof.
  intros Hwin Hfail p r rejection.
  destruct (generatePDF_registered h o w Hwin) as (Hpair & Hcalls & _ & Hrej).
  destruct (Hrej e Hfail) as (Hch & Hp). fold p r rejection in Hpair, Hcalls, Hch, Hp.
  split; [unfold r; now rewrite generatePDF_spec |].
  split; [exact Hp |]. split; [|auto].
  apply lifetime_settled. rewrite Hp. unfold p.
  rewrite lookup_app_r, Nat.sub_diag by lia. reflexivity.
Qed.

Lemma generatePDF_rejects_when_mounting_fails_witness :
  mount_failure browser (sample None None None (Some "["))
    (mkError "SyntaxError" "'[' is not a valid selector") /\
  promises (generatePDF browser (sample None None None (Some "[")) loaded).2 =
  [Some (Rejected (mkError "Error" "'[' is not a valid selector"))].
Proof.
  assert (H : mount_failure browser (sample None None None (Some "["))
                (mkError "SyntaxError" "'[' is not a valid selector"))
    by (apply (invalid_selector browser _ "["); reflexivity).
  split; [exact H |].
  exact (proj1 (proj2 (generatePDF_rejects_when_mounting_fails browser
    (sample None None None (Some "[")) loaded _ [] eq_refl H))).
Defined.

(** ** Trimming, in closed form *)

Section TrimmingClosedForm.

Context {page : Type}.
Implicit Types pdf : list page.

Lemma remove_extra_pages_take (totalPages : Z) pdf :
  remove_extra_pages totalPages pdf =
  if 0 <? totalPages then take (Z.to_nat totalPages) pdf else pdf.
Proof.
  unfold remove_extra_pages.
  destruct (Z.ltb_spec 0 totalPages) as [Hpos|Hnpos].
  - replace (totalPages >? 0) with true by (symmetry; apply Z.gtb_gt; lia).
    rewrite andb_true_r.
    destruct (Z.gtb_spec (getNumberOfPages pdf) totalPages) as [Hgt|Hle].
    + apply (delete_down_spec totalPages (length pdf)); lia.
    + unfold getNumberOfPages in Hle. rewrite take_ge by lia. reflexivity.
  - replace (totalPages >? 0) with false; [now rewrite andb_false_r |].
    symmetry. rewrite Z.gtb_ltb. apply Z.ltb_ge. lia.
Qed.

(** Extra X11.  The trimming step in closed form, for every total and
    every document: with a positive total it keeps the first [totalPages]
    pages (all of them when there are no more), and otherwise it keeps the
    document.  Hence what it returns is always a prefix of the document it
    was given, never longer; trimming again changes nothing; and it never
    empties a document that has pages. *)
Theorem trimming_keeps_a_prefix (totalPages : Z) pdf :
  let trimmed := remove_extra_pages totalPages pdf in
  trimmed = (if 0 <? totalPages then take (Z.to_nat totalPages) pdf else pdf) /\
  trimmed `prefix_of` pdf /\
  getNumberOfPages trimmed <= getNumberOfPages pdf /\
  remove_extra_pages totalPages trimmed = trimmed /\
  (pdf <> [] -> trimmed <> []).
Proof.
  intros trimmed. unfold trimmed. rewrite !remove_extra_pages_take.
  split; [reflexivity |].
  destruct (Z.ltb_spec 0 totalPages) as [Hpos|Hnpos].
  - split; [apply prefix_take |]. split; [|split].
    + unfold getNumberOfPages. rewrite length_take. lia.
    + rewrite take_take. f_equal. lia.
    + destruct pdf as [|x pdf]; [congruence |]. intros _.
      destruct (Z.to_nat totalPages) as [|k] eqn:E; [lia | discriminate].
  - split; [reflexivity |]. split; [lia |]. split; [reflexivity | auto].
Qed.

End TrimmingClosedForm.

(** ** Layout parameters *)

Lemma declares_app_l property value pre doc :
  declares property value doc -> declares property value (pre +:+ doc).
Proof.
  intros (a & b & ->). exists (pre +:+ a), b. now rewrite !append_assoc.
Qed.

(** A value between a static text that ends with the name of the property
    and one that starts with the semicolon. *)
Lemma declares_here property value a b post :
  a = chop (String.length (property +:+ ": ")) a +:+ property +:+ ": " ->
  b = ";" +:+ chop 0 (substring 1 (String.length b) b) ->
  declares property value (a +:+ value +:+ b +:+ post).
Proof.
  intros Ha Hb.
  exists (chop (String.length (property +:+ ": ")) a),
         (chop 0 (substring 1 (String.length b) b) +:+ post).
  rewrite Ha at 1. rewrite Hb at 1. now rewrite !append_assoc.
Qed.

Ltac declared :=
  repeat lazymatch goal with
  | |- declares ?p ?v (?a +:+ ?v' +:+ ?b +:+ ?post) =>
      first
        [ constr_eq v v'; is_const a; is_const b;
          apply (declares_here p v a b post);
          [vm_compute; reflexivity | vm_compute; reflexivity]
        | apply (declares_app_l p v a (v' +:+ b +:+ post)) ]
  end.

(** Extra X12.  Where the layout parameters go.  Whatever the parameters
    are, the composed document declares [padding-top] with
    [page_padding_top], [margin-left] with [margin_left], [margin-right]
    with [margin_right], [margin-top] with [header_height], [margin-bottom]
    with [footer_height] and [size] with [page_size]: each value is put,
    as it is, between the name of its property followed by a colon and a
    space, and a semicolon. *)
Theorem layout_parameters_declared (instanceId : Z)
    (body_html header_html footer_html head_html page_size
     margin_left margin_right header_height footer_height : string)
    (footer_only_on_last_page : bool)
    (page_padding_top pageNumberCSS : string) :
  let doc :=
    buildIframeHTML instanceId body_html header_html footer_html head_html
      page_size margin_left margin_right header_height footer_height
      footer_only_on_last_page page_padding_top pageNumberCSS in
  declares "padding-top" page_padding_top doc /\
  declares "margin-left" margin_left doc /\
  declares "margin-right" margin_right doc /\
  declares "margin-top" header_height doc /\
  declares "margin-bottom" footer_height doc /\
  declares "size" page_size doc.
Proof.
  intros doc. subst doc. unfold buildIframeHTML, styles_and_header.
  rewrite !append_assoc.
  split; [declared |]. split; [declared |]. split; [declared |].
  split; [declared |]. split; declared.
Qed.

(** ** Counting the occurrences of a key *)

Lemma holds_app key n m a b :
  holds key n a -> holds key m b -> holds key (n + m) (a +:+ b).
Proof.
  intros Ha Hb out. destruct (Ha out) as (ea & Hla & Hsa).
  destruct (Hb (ea ++ out)) as (eb & Hlb & Hsb).
  exists (eb ++ ea). split; [rewrite length_app; lia |].
  rewrite scan_app. unfold at_rest in *. rewrite Hsa, Hsb.
  now rewrite <- app_assoc.
Qed.

Lemma holds_app_free key n a b :
  holds key 0 a -> holds key n b -> holds key n (a +:+ b).
Proof. intros Ha Hb. exact (holds_app key 0 n a b Ha Hb). Qed.

Lemma holds_app_one key n a b :
  holds key 1 a -> holds key n b -> holds key (S n) (a +:+ b).
Proof. intros Ha Hb. exact (holds_app key 1 n a b Ha Hb). Qed.

(** The decimal text of an identifier cannot begin a good key. *)
Lemma holds_show key instanceId : good_key key = true -> holds key 0 (show instanceId).
Proof.
  intros Hgood out. exists []. split; [reflexivity |].
  apply scan_number_seeking; [exact Hgood | apply number_chars_show].
Qed.

Lemma holds_occurrences key n t :
  good_key key = true -> holds key n t -> occurrences key t = n.
Proof.
  intros Hgood H. unfold occurrences. rewrite scan_fields by exact Hgood.
  destruct (H []) as (extra & Hn & Hs). unfold at_rest in Hs. rewrite Hs.
  unfold finish; cbn [mode found]. now rewrite length_rev, app_nil_r.
Qed.

(** A static text, by evaluation. *)
Ltac holds_none :=
  let out := fresh "out" in
  intros out; exists []; split; [reflexivity | vm_compute; reflexivity].

Ltac holds_once :=
  let out := fresh "out" in
  intros out; exists [""%string]; split; [reflexivity | vm_compute; reflexivity].

Ltac listed :=
  solve [repeat match goal with
                | |- ?x ∈ ?y :: _ =>
                    first [constr_eq x y; apply list_elem_of_here
                          | apply list_elem_of_further]
                end].

(** A text piece by piece: each piece is a fragment of the caller, free of
    the key by [H], or a static text. *)
Ltac holds_pieces H :=
  repeat lazymatch goal with
  | |- holds ?key ?n (?a +:+ ?b) =>
      first
        [ apply (holds_app_free key n a b);
          [first [apply H; listed | is_const a; holds_none] |]
        | apply (holds_app_one key _ a b); [is_const a; holds_once |] ]
  | |- holds ?key 0 ?a => is_const a; holds_none
  end.

Lemma scripts_hold key instanceId :
  good_key key = true ->
  Forall (holds key 0)
    [IframeHTML_0; PagedJSInitScript_0; PagedJSInitScript_1; PagedJSInitScript_2;
     IframeHTML_1; PdfGenerationScript_0; PdfGenerationScript_1;
     PdfGenerationScript_2; PdfGenerationScript_3; IframeHTML_2] ->
  holds key 0 (scripts instanceId).
Proof.
  intros Hgood Hstatic. rewrite Forall_forall in Hstatic.
  unfold scripts, getPagedJSInitScript, getPdfGenerationScript.
  rewrite !append_assoc.
  repeat (apply holds_app_free;
          [first [apply Hstatic; listed | apply holds_show; exact Hgood] |]).
  apply Hstatic; listed.
Qed.

Lemma scripts_hold_no_header instanceId : holds header_key 0 (scripts instanceId).
Proof. apply scripts_hold; [reflexivity |]. repeat constructor; holds_none. Qed.

Lemma scripts_hold_no_counter instanceId : holds counter_key 0 (scripts instanceId).
Proof. apply scripts_hold; [reflexivity |]. repeat constructor; holds_none. Qed.

Section HeaderCount.

Variables (instanceId : Z)
  (body_html header_html footer_html head_html page_size
   margin_left margin_right header_height footer_height : string)
  (footer_only_on_last_page : bool)
  (page_padding_top pageNumberCSS : string).

Hypothesis fragments_free :
  Forall (holds header_key 0)
    [pageNumberCSS; page_padding_top; margin_left; margin_right;
     header_height; footer_height; page_size; head_html; header_html;
     footer_html; body_html].

Lemma header_fragment_free t :
  t ∈ [pageNumberCSS; page_padding_top; margin_left; margin_right;
       header_height; footer_height; page_size; head_html; header_html;
       footer_html; body_html] ->
  holds header_key 0 t.
Proof. revert t. apply Forall_forall. exact fragments_free. Qed.

Lemma header_count :
  holds header_key 1
    (styles_and_header header_html head_html page_size margin_left margin_right
       header_height footer_height page_padding_top pageNumberCSS) /\
  holds header_key 0
    (footer_before_body footer_only_on_last_page footer_html +:+
     IframeHTML_12 +:+ body_html +:+ IframeHTML_13 +:+
     footer_after_body footer_only_on_last_page footer_html +:+ IframeHTML_14).
Proof.
  split.
  - unfold styles_and_header. holds_pieces header_fragment_free.
  - unfold footer_before_body, footer_after_body, footer_region.
    destruct footer_only_on_last_page; rewrite ?append_assoc, ?append_nil;
      holds_pieces header_fragment_free.
Qed.

End HeaderCount.

(** Extra X13.  The header region is there once, whatever the footer flag
    and also when the header is empty.  When no fragment of the caller
    holds the opener of a header region ([<div class="header"]), nor the
    beginning of one at its end, the composed document holds it exactly
    once: not in the scripts, once in the part from the styles to the
    header, and not in what follows, the footer slots and the body.  So
    the header region precedes the body and both footer slots. *)
Theorem header_region_once (instanceId : Z)
    (body_html header_html footer_html head_html page_size
     margin_left margin_right header_height footer_height : string)
    (footer_only_on_last_page : bool)
    (page_padding_top pageNumberCSS : string) :
  Forall (holds header_key 0)
    [pageNumberCSS; page_padding_top; margin_left; margin_right;
     header_height; footer_height; page_size; head_html; header_html;
     footer_html; body_html] ->
  let rest :=
    footer_before_body footer_only_on_last_page footer_html +:+
    IframeHTML_12 +:+ body_html +:+ IframeHTML_13 +:+
    footer_after_body footer_only_on_last_page footer_html +:+ IframeHTML_14 in
  occurrences header_key
    (buildIframeHTML instanceId body_html header_html footer_html head_html
       page_size margin_left margin_right header_height footer_height
       footer_only_on_last_page page_padding_top pageNumberCSS) = 1%nat /\
  occurrences header_key (scripts instanceId) = 0%nat /\
  occurrences header_key
    (styles_and_header header_html head_html page_size margin_left margin_right
       header_height footer_height page_padding_top pageNumberCSS) = 1%nat /\
  occurrences header_key rest = 0%nat.
Proof.
  intros Hfree rest.
  destruct (header_count body_html header_html footer_html head_html page_size
              margin_left margin_right header_height footer_height
              footer_only_on_last_page page_padding_top pageNumberCSS Hfree)
    as [H1 H0].
  pose proof (scripts_hold_no_header instanceId) as Hs.
  split; [|split; [|split]]; apply holds_occurrences; try reflexivity;
    try assumption.
  unfold buildIframeHTML.
  apply (holds_app_free _ 1 _ _ Hs). exact (holds_app _ 1 0 _ _ H1 H0).
Qed.

Lemma header_region_once_witness :
  occurrences header_key
    (buildIframeHTML 1 "<h1>X</h1>" "" "<i>F</i>" "" "A4" "0mm" "0mm"
       "0mm" "0mm" true "16px" "") = 1%nat.
Proof.
  refine (proj1 (header_region_once 1 "<h1>X</h1>" "" "<i>F</i>" "" "A4"
                   "0mm" "0mm" "0mm" "0mm" true "16px" "" _)).
  repeat constructor; holds_none.
Defined.

Section CounterCount.

Variables (instanceId : Z) (o : options).

Hypothesis fragments_free :
  Forall (holds counter_key 0)
    [page_number_selector o; page_padding_top o; margin_left o; margin_right o;
     header_height o; footer_height o; page_size o; head_html o; header_html o;
     footer_html o; body_html o].

Lemma counter_fragment_free t :
  t ∈ [page_number_selector o; page_padding_top o; margin_left o; margin_right o;
       header_height o; footer_height o; page_size o; head_html o; header_html o;
       footer_html o; body_html o] ->
  holds counter_key 0 t.
Proof. revert t. apply Forall_forall. exact fragments_free. Qed.

Lemma counter_count :
  holds counter_key
    (if truthy_string (page_number_selector o) then 1 else 0)%nat
    (iframeHTML_of instanceId o).
Proof.
  unfold iframeHTML_of, buildIframeHTML.
  apply holds_app_free; [apply scripts_hold_no_counter |].
  unfold styles_and_header, footer_before_body, footer_after_body, footer_region,
    pageNumberCSS_of.
  destruct (truthy_string (page_number_selector o));
    destruct (footer_only_on_last_page o);
    rewrite ?append_assoc, ?append_nil;
    holds_pieces counter_fragment_free.
Qed.

End CounterCount.



(** ** The isolated context *)

Section IsolatedProperties.

Context {page : Type}.
Implicit Types (env : isolated page) (m : module page) (lib : html2pdf page).

(** The first key of [functionKeys] holds a function. *)
Lemma functionKeys_head m key keys :
  functionKeys m = key :: keys -> is_Some (function_at m key).
Proof.
  intros H.
  assert (Hin : key ∈ functionKeys m) by (rewrite H; apply list_elem_of_here).
  unfold functionKeys in Hin. now apply list_elem_of_filter in Hin as [Hf _].
Qed.

Lemma functionKeys_nil m key :
  functionKeys m = [] -> key ∈ m.*1 -> function_at m key = None.
Proof.
  intros H Hin. destruct (function_at m key) as [lib|] eqn:E; [|reflexivity].
  assert (Hf : key ∈ functionKeys m).
  { unfold functionKeys. apply list_elem_of_filter. split; [|exact Hin].
    rewrite E. eauto. }
  rewrite H in Hf. now apply not_elem_of_nil in Hf.
Qed.

Lemma function_at_absent m key : key ∉ m.*1 -> function_at m key = None.
Proof.
  induction m as [|[k v] m IH]; intros H; [reflexivity |]. cbn in *.
  apply not_elem_of_cons in H as [Hne Hm].
  destruct (String.eqb_spec k key) as [->|_]; [congruence | now apply IH].
Qed.

(** The selection, case by case. *)
Lemma select_html2pdf_cases env m :
  select_html2pdf env m =
  match function_at m "default", function_at m "html2pdf", window_html2pdf env with
  | Some lib, _, _ => inl lib
  | None, Some lib, _ => inl lib
  | None, None, Some lib => inl lib
  | None, None, None =>
      match functionKeys m with
      | key :: _ => match function_at m key with
                    | Some lib => inl lib
                    | None => inr (Error_not_a_function m)
                    end
      | [] => inr Error_not_found
      end
  end.
Proof.
  unfold select_html2pdf.
  destruct (function_at m "default"); [reflexivity |].
  destruct (function_at m "html2pdf"); [reflexivity |].
  destruct (window_html2pdf env); [reflexivity |].
  cbn. destruct (functionKeys m); reflexivity.
Qed.

(** Extra X15.  The selection of the conversion library out of the imported
    module (pagify.js:477-499).  The only error it can throw is "html2pdf
    function not found in imported module": the check that follows the
    selection ([typeof html2pdfLib !== 'function'], pagify.js:497) never
    fires, whatever the module, since every branch leaves a function in
    [html2pdfLib].  It throws that error exactly when [window.html2pdf] is
    no function and no key of the module holds one.  A function under
    [default] is taken before anything else, and one under [html2pdf] when
    [default] holds none. *)
Theorem selection_finds_a_function env m :
  (forall e, select_html2pdf env m = inr e -> e = Error_not_found) /\
  (select_html2pdf env m = inr Error_not_found <->
   window_html2pdf env = None /\ forall key, function_at m key = None) /\
  (forall lib, function_at m "default" = Some lib ->
     select_html2pdf env m = inl lib) /\
  (forall lib, function_at m "default" = None ->
     function_at m "html2pdf" = Some lib -> select_html2pdf env m = inl lib).
Proof.
  assert (Hcases := select_html2pdf_cases env m).
  assert (Herr : forall e, select_html2pdf env m = inr e ->
            e = Error_not_found /\ function_at m "default" = None /\
            function_at m "html2pdf" = None /\ window_html2pdf env = None /\
            functionKeys m = []).
  { intros e. rewrite Hcases.
    destruct (function_at m "default"); [discriminate |].
    destruct (function_at m "html2pdf"); [discriminate |].
    destruct (window_html2pdf env); [discriminate |].
    destruct (functionKeys m) as [|key keys] eqn:Hk.
    - intros [= <-]. auto.
    - destruct (functionKeys_head m key keys Hk) as [lib Hlib].
      rewrite Hlib. discriminate. }
  split; [intros e He; now apply Herr |]. split; [|split].
  - split.
    + intros He. destruct (Herr _ He) as (_ & _ & _ & Hwin & Hkeys).
      split; [exact Hwin |]. intros key.
      destruct (decide (key ∈ m.*1)) as [Hin|Hout];
        [now apply functionKeys_nil | now apply function_at_absent].
    + intros [Hwin Hnone]. rewrite Hcases, !Hnone, Hwin.
      destruct (functionKeys m) as [|key keys] eqn:Hk; [reflexivity |].
      destruct (functionKeys_head m key keys Hk) as [lib Hlib].
      rewrite Hnone in Hlib. discriminate.
  - intros lib H. now rewrite Hcases, H.
  - intros lib H0 H. now rewrite Hcases, H0, H.
Qed.

Lemma load_html2pdf_effects env :
  (load_html2pdf env).1 = [] \/
  (load_html2pdf env).1 = [appends_script html2pdf_bundle].
Proof.
  unfold load_html2pdf, script_tag_fallback.
  destruct (import_html2pdf env) as [m|e];
    [destruct (select_html2pdf env m) |];
    destruct (window_html2pdf env); cbn; auto.
Qed.

Lemma posted_posts data effects : posted (posts data :: effects) = data :: posted effects.
Proof. reflexivity. Qed.

Lemma scripts_appended_posts data effects :
  scripts_appended (posts data :: effects) = scripts_appended effects.
Proof. reflexivity. Qed.

(** What [generatePdfBlob] posts: one message. *)
Lemma generatePdfBlob_posted env totalPages instanceId :
  posted (generatePdfBlob env totalPages instanceId) =
  [match (load_html2pdf env).2 with
   | inl lib =>
       match check_body env with
       | inl _ =>
           match convert env lib totalPages with
           | inl blobUrl => PDF_READY instanceId blobUrl
           | inr error => PDF_ERROR instanceId (message error)
           end
       | inr error => PDF_ERROR instanceId (message error)
       end
   | inr error => PDF_ERROR instanceId (message error)
   end] /\
  scripts_appended (generatePdfBlob env totalPages instanceId) =
  scripts_appended (load_html2pdf env).1.
Proof.
  unfold generatePdfBlob.
  destruct (load_html2pdf_effects env) as [H|H];
    destruct (load_html2pdf env) as [effects [lib|e]]; cbn in H; subst effects;
    cbn [snd]; try (split; reflexivity);
    destruct (check_body env); try (split; reflexivity);
    destruct (convert env lib totalPages); split; reflexivity.
Qed.

(** Extra X16.  The protocol of the isolated context.  Whatever the
    libraries do, as long as what the context awaits settles, the context
    of the identifier [instanceId] posts one of three conversations: the
    single PDF-error message "Failed to initialize Paged.js: ..." (and no
    completion message); or the completion message followed by one
    PDF-ready message; or the completion message followed by one PDF-error
    message.  So there is exactly one PDF-result message, never a ready
    and an error, never a ready without the completion before it, and every
    message carries [instanceId].  The completion message is posted exactly
    when Paged.js was imported and pagination came to its total.  The
    context appends at most one script element to its head, the html2pdf
    bundle. *)
Theorem isolated_context_protocol env instanceId :
  let effects := fonts_ready env instanceId in
  conversation instanceId (posted effects) /\
  Forall (fun data => message_iter data = Some instanceId) (posted effects) /\
  (scripts_appended effects = [] \/
   scripts_appended effects = [html2pdf_bundle]) /\
  (renderpdf instanceId ∈ posted effects <->
   import_pagedjs env = None /\ exists total, preview env = inl total).
Proof.
  intros effects.
  assert (Hconv : conversation instanceId (posted effects) /\
                  (scripts_appended effects = [] \/
                   scripts_appended effects = [html2pdf_bundle]) /\
                  (renderpdf instanceId ∈ posted effects <->
                   import_pagedjs env = None /\ exists total, preview env = inl total)).
  { unfold effects, fonts_ready.
    destruct (import_pagedjs env) as [e|]; [|destruct (preview env) as [total|e]].
    - cbn. split; [constructor |]. split; [auto |]. split.
      + intros H. apply list_elem_of_singleton in H. discriminate.
      + intros [[=] _].
    - destruct (generatePdfBlob_posted env (Some total) instanceId)
        as (Hposted & Hscripts).
      rewrite posted_posts, scripts_appended_posts, Hposted, Hscripts.
      split; [|split].
      + destruct (load_html2pdf env).2 as [lib|e]; [|constructor].
        destruct (check_body env); [|constructor].
        destruct (convert env lib (Some total)); constructor.
      + destruct (load_html2pdf_effects env) as [->| ->]; cbn; auto.
      + split; [eauto | intros _; apply list_elem_of_here].
    - cbn. split; [constructor |]. split; [auto |]. split.
      + intros H. apply list_elem_of_singleton in H. discriminate.
      + intros [_ [total [=]]]. }
  destruct Hconv as (Hc & Hs & Hr).
  split; [exact Hc |]. split; [|split; assumption].
  destruct Hc; repeat constructor.
Qed.

(** Extra X17.  When the PDF is ready, and what it is made of.  The
    isolated context posts the PDF-ready message with [blobUrl] exactly
    when: Paged.js was imported and pagination came to a total; a
    conversion library was found, by the import or by the fallback; the
    body has content that is not blank; the conversion gave a document;
    and the blob of the URL was made of that document trimmed to the
    total, that is, of its first [total] pages when the total is positive
    and of the whole document otherwise. *)
Theorem ready_carries_the_trimmed_document env instanceId blobUrl :
  PDF_READY instanceId blobUrl ∈ posted (fonts_ready env instanceId) <->
  exists total lib innerHTML pdf blob,
    import_pagedjs env = None /\ preview env = inl total /\
    (load_html2pdf env).2 = inl lib /\
    body_innerHTML env = Some innerHTML /\ blank innerHTML = false /\
    toPdf lib = inl pdf /\
    outputPdf lib (if 0 <? total then take (Z.to_nat total) pdf else pdf) =
      inl blob /\
    blobUrl = createObjectURL env blob.
Proof.
  unfold fonts_ready. split.
  - destruct (import_pagedjs env) as [e|];
      [intros H; apply list_elem_of_singleton in H; discriminate |].
    destruct (preview env) as [total|e];
      [|intros H; apply list_elem_of_singleton in H; discriminate].
    rewrite posted_posts, (proj1 (generatePdfBlob_posted env (Some total) instanceId)).
    intros H. apply elem_of_cons in H as [H|H]; [discriminate |].
    apply list_elem_of_singleton in H.
    destruct (load_html2pdf env).2 as [lib|e]; [|discriminate].
    unfold check_body in H.
    destruct (body_innerHTML env) as [innerHTML|]; [|discriminate].
    destruct (blank innerHTML) eqn:Hblank; [discriminate |].
    unfold convert, trim in H.
    destruct (toPdf lib) as [pdf|e] eqn:Hpdf; [|discriminate].
    rewrite remove_extra_pages_take in H.
    destruct (outputPdf lib _) as [blob|e] eqn:Hout; [|discriminate].
    injection H as ->. exists total, lib, innerHTML, pdf, blob.
    repeat (split; [first [reflexivity | assumption] |]). reflexivity.
  - intros (total & lib & innerHTML & pdf & blob & -> & -> & Hlib & Hbody &
            Hblank & Hpdf & Hout & ->).
    rewrite posted_posts, (proj1 (generatePdfBlob_posted env (Some total) instanceId)),
      Hlib.
    unfold check_body, convert, trim.
    rewrite Hbody, Hblank, Hpdf, remove_extra_pages_take, Hout.
    apply list_elem_of_further, list_elem_of_here.
Qed.

End IsolatedProperties.

(** ** A whole conversation *)

Lemma perform_post h data w :
  window_defined h = true -> perform h (post data) w = listener h data w.
Proof. intros H. unfold perform, initMessageListener. now rewrite H. Qed.

(** Extra X18.  A whole conversation with the registry.  In a world the
    process can reach, after [render] was called with a ready and an error
    callback (and a completion callback or none), all coming back, let the
    messages of any conversation of the allocated identifier arrive in
    order, in a host with a window.  Then the pair of PDF callbacks is
    gone, and the PDF store is as it was before [render].  If pagination
    failed, the error callback was called once with the text of the
    message and nothing else was called, and the completion entry is still
    stored: no message will remove it.  Otherwise the completion callback
    was called first, once, then exactly one of the ready callback, with
    the blob URL, and the error callback, with the error, and the
    completion store is as it was before [render]. *)
Theorem conversation_settles_the_registry ops h h' o r e ms :
  let w := (lifetime ops loaded).2 in
  let id := instanceCounter (this w) in
  let w1 := (render h o w).2 in
  let w2 := deliver h' ms w1 in
  window_defined h' = true ->
  onPdfReady o = Some r -> returns r ->
  onPdfError o = Some e -> returns e ->
  side_returns (callback o) ->
  conversation id ms ->
  instanceCounter (this w2) = id + 1 /\
  pdfCallbackStorage (this w2) = pdfCallbackStorage (this w) /\
  match ms with
  | [PDF_ERROR _ error] =>
      calls w2 = calls w1 ++ calls_of e [error] /\
      callbackStorage (this w2) = <[id := callback o]> (callbackStorage (this w))
  | [_; PDF_READY _ blobUrl] =>
      calls w2 = calls w1 ++ completion_calls o ++ calls_of r [blobUrl] /\
      callbackStorage (this w2) = callbackStorage (this w)
  | [_; PDF_ERROR _ error] =>
      calls w2 = calls w1 ++ completion_calls o ++ calls_of e [error] /\
      callbackStorage (this w2) = callbackStorage (this w)
  | _ => False
  end.
Proof.
  intros w id w1 w2 Hwin Hready Hr Herror He Hcallback Hms.
  destruct (fresh_unused (this w)) as (Hid & Hcb0 & Hpdf0);
    [apply lifetime_fresh, loaded_fresh |]. fold id in Hid, Hcb0, Hpdf0.
  assert (Htruthy : truthy_number id = true)
    by (unfold truthy_number; apply negb_true_iff, Z.eqb_neq, Hid).
  destruct (allocate_spec o w) as (_ & Hc1 & Hcb1 & Hpdf1 & _).
  rewrite <- (render_this h o w) in Hc1, Hcb1, Hpdf1.
  fold w1 id in Hc1, Hcb1, Hpdf1.
  rewrite Hready in Hpdf1. cbn [truthy_function orb] in Hpdf1.
  assert (Hsides : forall w',
            pdfCallbackStorage (this w') = pdfCallbackStorage (this w1) ->
            ready_side w' id = Some r /\ error_side w' id = Some e).
  { intros w' E. unfold ready_side, error_side.
    rewrite Htruthy, E, Hpdf1, lookup_insert_eq. cbn. auto. }
  assert (Hresult : forall w' m f,
            message_iter m = Some id -> result_side w' m = Some f -> returns f ->
            instanceCounter (this w') = id + 1 ->
            pdfCallbackStorage (this w') = pdfCallbackStorage (this w1) ->
            let w'' := (listener h' m w').2 in
            instanceCounter (this w'') = id + 1 /\
            pdfCallbackStorage (this w'') = pdfCallbackStorage (this w) /\
            calls w'' = calls w' ++ calls_of f [payload m] /\
            callbackStorage (this w'') = callbackStorage (this w')).
  { intros w' m f Hm Hside Hf Hc' Hpdf'.
    destruct (result_step h' w' m id f Hm Hside Hf) as (_ & Hc & Hcb & Hpdf & Hcalls).
    cbn zeta. rewrite Hc, Hpdf, Hpdf', Hpdf1.
    rewrite (delete_insert_id _ _ _ Hpdf0). auto. }
  assert (Hcompletion :
            let w' := (listener h' (renderpdf id) w1).2 in
            instanceCounter (this w') = id + 1 /\
            pdfCallbackStorage (this w') = pdfCallbackStorage (this w1) /\
            calls w' = calls w1 ++ completion_calls o /\
            callbackStorage (this w') = callbackStorage (this w)).
  { destruct (completion_step h' w1 id (callback o)) as (_ & Hc & Hcb & Hpdf & Hcalls);
      [rewrite Hcb1; apply lookup_insert_eq | exact Hcallback |].
    cbn zeta. rewrite Hc, Hcb, Hcb1, (delete_insert_id _ _ _ Hcb0). auto. }
  unfold w2, deliver.
  destruct Hms as [error|blobUrl|error]; cbn [foldl]; rewrite ?perform_post by exact Hwin.
  - destruct (Hsides w1 eq_refl) as [_ Hside].
    destruct (Hresult w1 (PDF_ERROR id ("Failed to initialize Paged.js: " +:+ error))
                e eq_refl Hside He Hc1 eq_refl)
      as (Hc & Hpdf & Hcalls & Hcb).
    rewrite Hc, Hpdf, Hcalls, Hcb, Hcb1. auto.
  - destruct Hcompletion as (Hc' & Hpdf' & Hcalls' & Hcb').
    destruct (Hsides _ Hpdf') as [Hside _].
    destruct (Hresult _ (PDF_READY id blobUrl) r eq_refl Hside Hr Hc' Hpdf')
      as (Hc & Hpdf & Hcalls & Hcb).
    rewrite Hc, Hpdf, Hcalls, Hcb, Hcalls', Hcb', <- app_assoc. auto.
  - destruct Hcompletion as (Hc' & Hpdf' & Hcalls' & Hcb').
    destruct (Hsides _ Hpdf') as [_ Hside].
    destruct (Hresult _ (PDF_ERROR id error) e eq_refl Hside He Hc' Hpdf')
      as (Hc & Hpdf & Hcalls & Hcb).
    rewrite Hc, Hpdf, Hcalls, Hcb, Hcalls', Hcb', <- app_assoc. auto.
Qed.

Lemma conversation_settles_the_registry_witness :
  callbackStorage
    (this (deliver browser (posted (fonts_ready working 1))
             (render browser
                (sample (Some (CallerFn "done" Returns))
                   (Some (CallerFn "ready" Returns))
                   (Some (CallerFn "failed" Returns)) None) loaded).2)) = ∅ /\
  calls
    (deliver browser (posted (fonts_ready working 1))
       (render browser
          (sample (Some (CallerFn "done" Returns))
             (Some (CallerFn "ready" Returns))
             (Some (CallerFn "failed" Returns)) None) loaded).2) =
  [{| callee := "done"; arguments := [] |};
   {| callee := "ready"; arguments := ["blob:p1,p2"]%string |}].
Proof.
  pose proof (conversation_settles_the_registry [] browser browser
                (sample (Some (CallerFn "done" Returns))
                   (Some (CallerFn "ready" Returns))
                   (Some (CallerFn "failed" Returns)) None)
                (CallerFn "ready" Returns) (CallerFn "failed" Returns)
                (posted (fonts_ready working 1))
                eq_refl eq_refl I eq_refl I I (conversion_done 1 "blob:p1,p2"))
    as (_ & _ & Hcalls & Hcb).
  exact (conj Hcb Hcalls).
Defined.
(** ** What stays mounted, and what is logged *)

Lemma mounted_append_to n f c n' :
  default [] (append_to n f c !! n') =
  default [] (c !! n') ++ (if decide (n = n') then [f] else []).
Proof.
  unfold append_to. destruct (decide (n = n')) as [->|Hne].
  - now rewrite lookup_insert_eq.
  - rewrite lookup_insert_ne by exact Hne. now rewrite app_nil_r.
Qed.

(** An operation mounts one iframe at most, after those that are there. *)
Lemma perform_mounted h op w :
  (forall n, mounted (perform h op w).2 n = mounted w n) \/
  exists n0 f, forall n,
    mounted (perform h op w).2 n = mounted w n ++ (if decide (n0 = n) then [f] else []).
Proof.
  assert (Hrender : forall o w0, children w0 = children w ->
            (forall n, mounted (render h o w0).2 n = mounted w n) \/
            exists n0 f, forall n,
              mounted (render h o w0).2 n =
              mounted w n ++ (if decide (n0 = n) then [f] else [])).
  { intros o w0 E. unfold mounted.
    destruct (render_children h o w0) as [->|(n0 & st & ->)]; rewrite E.
    - now left.
    - right. exists n0, (mounted_iframe st (instanceCounter (this w0)) o).
      intros n. apply mounted_append_to. }
  destruct op as [o|o|m]; unfold perform.
  - now apply Hrender.
  - unfold bind. rewrite generatePDF_spec. cbn [fst snd ret].
    destruct (window_defined h); [now apply Hrender | now left].
  - left. intros n. unfold mounted, initMessageListener.
    destruct (window_defined h); [now rewrite listener_children | reflexivity].
Qed.

Lemma lifetime_mounted ops n : forall w,
  mounted w n `prefix_of` mounted (lifetime ops w).2 n.
Proof.
  induction ops as [|[h op] ops IH]; intros w; [reflexivity |].
  cbn [lifetime]. specialize (IH (perform h op w).2).
  destruct (lifetime ops (perform h op w).2) as [ids w'].
  etransitivity; [|exact IH].
  destruct (perform_mounted h op w) as [H|(n0 & f & H)]; rewrite H;
    [reflexivity | apply prefix_app_r; reflexivity].
Qed.

(** Extra X19.  The SDK never removes an iframe it has mounted.  One
    operation (a call of [render] or [generatePDF], or a message) leaves
    the iframes under every node as they are or appends one iframe, after
    those that are there, under one node; and over any sequence of
    operations, in any hosts, the iframes that were under a node are still
    there, in the same order, at the head of those that are there then. *)
Theorem iframes_are_never_removed ops h op w n :
  mounted w n `prefix_of` mounted (lifetime ops w).2 n /\
  ((forall n', mounted (perform h op w).2 n' = mounted w n') \/
   exists n0 f, forall n',
     mounted (perform h op w).2 n' =
     mounted w n' ++ (if decide (n0 = n') then [f] else [])).
Proof. split; [apply lifetime_mounted | apply perform_mounted]. Qed.

(** Extra X20.  What the listener logs.  Every PDF-ready message is logged
    once at log level with its blob URL, and every PDF-error message once
    at error level with its error, whether or not a callback is stored for
    the identifier and whatever the callback does, throwing included; a
    completion message and a message of any other shape log nothing.
    Nothing else is added to the console. *)
Theorem pdf_result_is_logged h m w :
  console (listener h m w).2 = console w ++ logged m.
Proof.
  destruct m as [iter|iter blobUrl|iter error|]; cbn [logged].
  - rewrite listener_renderpdf, app_nil_r.
    destruct (callbackStorage (this w) !! iter) as [[f|]|]; try reflexivity.
    pose proof (invoke_frame h f [] w) as (_ & _ & Hcon & _).
    destruct (invoke h f [] w) as [[[]|e] w1]; cbn in *; exact Hcon.
  - rewrite listener_PDF_READY.
    destruct (ready_side w iter) as [f|]; try reflexivity.
    pose proof (invoke_frame h f [blobUrl]
                  (console_log ["PDF blob ready:"; blobUrl]%string w).2)
      as (_ & _ & Hcon & _).
    destruct (invoke h f [blobUrl] _) as [[[]|e] w1]; cbn in *; exact Hcon.
  - rewrite listener_PDF_ERROR.
    destruct (error_side w iter) as [f|]; try reflexivity.
    pose proof (invoke_frame h f [error]
                  (console_error ["PDF generation error:"; error]%string w).2)
      as (_ & _ & Hcon & _).
    destruct (invoke h f [error] _) as [[[]|e] w1]; cbn in *; exact Hcon.
  - now rewrite app_nil_r.
Qed.

(** ** The document and its identifier *)

Lemma append_inv_head (a x y : string) : a +:+ x = a +:+ y -> x = y.
Proof.
  induction a as [|c a IH]; [trivial |].
  rewrite !append_cons. intros [= H]. now apply IH.
Qed.

(** The number at the head of a text is the text up to the first
    character that is no number character. *)
Lemma number_run_app s a t :
  number_chars s = true -> starts_plain a = true ->
  number_run (s +:+ a +:+ t) = s.
Proof.
  intros Hs Ha. induction s as [|c s IH].
  - destruct a as [|c a]; [discriminate |]. rewrite append_nil, append_cons.
    cbn [starts_plain number_run] in *.
    destruct (number_char c); [discriminate | reflexivity].
  - cbn [number_chars] in Hs. apply andb_prop in Hs as [Hc Hs].
    rewrite append_cons. cbn [number_run]. rewrite Hc. now rewrite IH.
Qed.

(** The documents of two different identifiers differ: they first differ
    at the first [iter:] field. *)
Lemma iframeHTML_of_inj (id id' : Z) (o o' : options) :
  iframeHTML_of id o = iframeHTML_of id' o' -> id = id'.
Proof.
  intros Heq.
  unfold iframeHTML_of, buildIframeHTML, scripts, getPagedJSInitScript in Heq.
  rewrite !append_assoc in Heq.
  apply append_inv_head, append_inv_head in Heq.
  apply (f_equal number_run) in Heq.
  rewrite !number_run_app in Heq
    by first [apply number_chars_show | vm_compute; reflexivity].
  apply (f_equal read) in Heq. rewrite !read_show in Heq. congruence.
Qed.

(** Extra X21.  The composed document determines its identifier.  The
    documents [render] composes for two different identifiers are
    different texts, whatever the parameters of the two calls, the same or
    not: after the same beginning, the first [iter:] field of each holds
    the decimal text of its own identifier. *)
Theorem document_determines_identifier (id id' : Z) (o o' : options) :
  id <> id' -> iframeHTML_of id o <> iframeHTML_of id' o'.
Proof. intros Hne Heq. apply Hne, (iframeHTML_of_inj id id' o o' Heq). Qed.

Lemma document_determines_identifier_witness :
  iframeHTML_of 1 (sample None None None None) <>
  iframeHTML_of 2 (sample None None None None).
Proof.
  exact (document_determines_identifier 1 2 (sample None None None None)
           (sample None None None None) ltac:(discriminate)).
Defined.

(** ** The callbacks the facade drops *)

(** Extra X22.  [generatePDF] drops the PDF callbacks of the caller.  The
    [onPdfReady] and [onPdfError] given to [generatePDF] are replaced by the
    two closures of the promise before [render] sees them: whatever they
    are, also functions that would throw, [generatePDF] returns the same
    promise and leaves the same world, and they are never called, not
    during the call and not by any message later, since the registry holds
    the closures in their place.  The completion callback of the caller is
    kept: where there is a window it is what the registry holds for the
    allocated identifier. *)
Theorem generatePDF_drops_pdf_callbacks h o w ready error :
  generatePDF h (with_pdf_callbacks ready error o) w = generatePDF h o w /\
  calls (generatePDF h o w).2 = calls w /\
  (window_defined h = true ->
   callbackStorage (this (generatePDF h o w).2) !! instanceCounter (this w) =
     Some (callback o) /\
   pdfCallbackStorage (this (generatePDF h o w).2) !! instanceCounter (this w) =
     Some (facade_pair (length (promises w)))).
Proof.
  split; [reflexivity |]. split.
  - rewrite generatePDF_spec. cbn [snd].
    destruct (window_defined h) eqn:Hwin; [|reflexivity].
    pose proof (generatePDF_registered h o w Hwin) as (_ & Hcalls & _).
    rewrite generatePDF_spec, Hwin in Hcalls. exact Hcalls.
  - intros Hwin.
    split; [|apply (generatePDF_registered h o w Hwin)].
    rewrite generatePDF_spec, Hwin. cbn [snd]. rewrite render_this.
    destruct (allocate_spec (modifiedOptions o (length (promises w)))
                (with_promises (fun ps => ps ++ [None]) w))
      as (_ & _ & Hcb & _).
    rewrite Hcb. apply lookup_insert_eq.
Qed.

(** ** The mounted documents of a process *)

(** An operation never lowers the counter, and the iframe it mounts, if
    any, carries the document of the value the counter had. *)
Lemma perform_mounts h op w :
  instanceCounter (this w) <= instanceCounter (this (perform h op w).2) /\
  ((forall n, mounted (perform h op w).2 n = mounted w n) \/
   exists n0 st o,
     instanceCounter (this (perform h op w).2) = instanceCounter (this w) + 1 /\
     forall n,
       mounted (perform h op w).2 n =
       mounted w n ++
       (if decide (n0 = n)
        then [mounted_iframe st (instanceCounter (this w)) o] else [])).
Proof.
  split; [rewrite perform_counter; lia |].
  assert (Hrender : forall o w0,
            children w0 = children w -> this w0 = this w ->
            (forall n, mounted (render h o w0).2 n = mounted w n) \/
            exists n0 st o',
              instanceCounter (this (render h o w0).2) = instanceCounter (this w) + 1 /\
              forall n,
                mounted (render h o w0).2 n =
                mounted w n ++
                (if decide (n0 = n)
                 then [mounted_iframe st (instanceCounter (this w)) o'] else [])).
  { intros o w0 E Ethis. unfold mounted.
    destruct (render_children h o w0) as [->|(n0 & st & ->)]; rewrite E.
    - now left.
    - right. exists n0, st, o. rewrite render_counter, Ethis.
      split; [reflexivity |]. intros n. apply mounted_append_to. }
  destruct op as [o|o|m]; unfold perform.
  - now apply Hrender.
  - unfold bind. rewrite generatePDF_spec. cbn [fst snd ret].
    destruct (window_defined h); [now apply Hrender | now left].
  - left. intros n. unfold mounted, initMessageListener.
    destruct (window_defined h); [now rewrite listener_children | reflexivity].
Qed.

(** A call on the object [k] mounts nothing, or one iframe that carries the
    document of the value the counter of [k] had, and adds one to that
    counter. *)
Lemma on_object_mounts h k op p :
  let r := on_object h k op p in
  (forall n, mounted r.2.2 n = mounted p.2 n) \/
  exists n0 st o c,
    counter_of p k = Some c /\ counter_of r.2 k = Some (c + 1) /\
    forall n,
      mounted r.2.2 n =
      mounted p.2 n ++ (if decide (n0 = n) then [mounted_iframe st c o] else []).
Proof.
  unfold on_object, counter_of. destruct (p.1 !! k) as [s|] eqn:Hk; [|now left].
  cbn [fst snd]. set (w := enter s p.2).
  destruct (perform_mounts h op w) as (_ & [Hsame|(n0 & st & o & Hc & Hm)]).
  - left. intros n. now rewrite Hsame.
  - right. exists n0, st, o, (instanceCounter s). split; [reflexivity |]. split.
    + rewrite list_lookup_insert_eq by (now apply lookup_lt_Some in Hk).
      cbn. f_equal. exact Hc.
    + intros n. now rewrite Hm.
Qed.

Lemma appended_same p p' n : mounted p'.2 n = mounted p.2 n -> appended p p' n = [].
Proof. intros E. unfold appended. rewrite E. apply drop_all. Qed.

Lemma appended_more p p' n l : mounted p'.2 n = mounted p.2 n ++ l -> appended p p' n = l.
Proof. intros E. unfold appended. rewrite E. apply drop_app_length. Qed.

(** What a step adds to the iframes of the object [k]: nothing, or one
    iframe for the next identifier of [k]. *)
Lemma step_mounted_by h op p k :
  let p' := (process_step h op p).2 in
  let new := fun n => if performed_by k op then appended p p' n else [] in
  (forall n, new n = []) \/
  exists n0 st o,
    next_of p' k = next_of p k + 1 /\
    forall n,
      new n = if decide (n0 = n) then [mounted_iframe st (next_of p k) o] else [].
Proof.
  assert (Hcall : forall j op',
            let p' := (on_object h j op' p).2 in
            let new := fun n => if bool_decide (j = k) then appended p p' n else [] in
            (forall n, new n = []) \/
            exists n0 st o,
              next_of p' k = next_of p k + 1 /\
              forall n,
                new n =
                if decide (n0 = n) then [mounted_iframe st (next_of p k) o] else []).
  { intros j op' p' new. unfold new. destruct (bool_decide_reflect (j = k)) as [->|_];
      [|now left].
    destruct (on_object_mounts h k op' p) as [Hsame|(n0 & st & o & c & Hc & Hc' & Hm)].
    - left. intros n. now apply appended_same.
    - right. exists n0, st, o. unfold next_of. fold p' in Hc'. rewrite Hc, Hc'. cbn.
      split; [reflexivity |]. intros n. now apply appended_more. }
  destruct op as [|j o|j o|event_data]; cbn [process_step fst snd performed_by].
  - now left.
  - apply Hcall.
  - apply Hcall.
  - now left.
Qed.

(** The iframes of an object carry the documents of identifiers it
    allocated, and no two of them carry the same document. *)
Lemma mounted_by_distinct k ops : forall p,
  (forall n f, f ∈ mounted_by k ops p n ->
     exists id o, srcdoc f = Some (iframeHTML_of id o) /\
       next_of p k <= id <
       next_of p k + Z.of_nat (length (allocated_by k (process_lifetime ops p)))) /\
  (forall n n' i j f g,
     mounted_by k ops p n !! i = Some f -> mounted_by k ops p n' !! j = Some g ->
     srcdoc f = srcdoc g -> n = n' /\ i = j).
Proof.
  induction ops as [|[h op] ops IH]; intros p.
  { split.
    - intros n f H. now apply not_elem_of_nil in H.
    - intros n n' i j f g H. cbn [mounted_by] in H. now rewrite lookup_nil in H. }
  cbn [mounted_by process_lifetime]. rewrite allocated_by_app, length_app.
  destruct (process_step_next h op p k) as (Hnext & _).
  destruct (IH (process_step h op p).2) as (Hids & Hdist).
  rewrite Hnext in Hids.
  destruct (step_mounted_by h op p k) as [Hnone|(n0 & st & o & Hc & Hnew)];
    cbn zeta in *.
  - split.
    + intros n f Hf. rewrite Hnone in Hf. cbn [app] in Hf.
      destruct (Hids n f Hf) as (id & o & Hdoc & Hid). exists id, o.
      split; [exact Hdoc | lia].
    + intros n n' i j f g Hf Hg. rewrite Hnone in Hf, Hg. cbn [app] in Hf, Hg.
      now apply Hdist.
  - set (c := next_of p k) in *.
    set (rest := mounted_by k ops (process_step h op p).2) in *.
    assert (Hlen : (1 <= length (allocated_by k (process_step h op p).1))%nat) by lia.
    assert (Hlook : forall n i f,
              ((if decide (n0 = n) then [mounted_iframe st c o] else []) ++ rest n)
                !! i = Some f ->
              (n = n0 /\ i = 0%nat /\ f = mounted_iframe st c o) \/
              (exists i', rest n !! i' = Some f /\
                          i = ((if decide (n0 = n) then 1 else 0) + i')%nat)).
    { intros n i f Hf. destruct (decide (n0 = n)) as [->|_].
      - destruct i as [|i]; cbn in Hf.
        + left. now injection Hf as <-.
        + right. exists i. split; [exact Hf | reflexivity].
      - right. exists i. split; [exact Hf | reflexivity]. }
    assert (Hold : forall n i f, rest n !! i = Some f ->
                     srcdoc f <> srcdoc (mounted_iframe st c o)).
    { intros n i f Hf E. apply list_elem_of_lookup_2 in Hf.
      destruct (Hids n f Hf) as (id & o' & Hdoc & Hid). rewrite Hdoc in E.
      change (srcdoc (mounted_iframe st c o)) with (Some (iframeHTML_of c o)) in E.
      apply (inj Some), iframeHTML_of_inj in E. lia. }
    split.
    + intros n f Hf. rewrite Hnew in Hf.
      apply list_elem_of_lookup_1 in Hf as [i Hf].
      destruct (Hlook n i f Hf) as [(_ & _ & ->)|(i' & Hf' & _)].
      * exists c, o. split; [reflexivity | lia].
      * apply list_elem_of_lookup_2 in Hf'.
        destruct (Hids n f Hf') as (id & o' & Hdoc & Hid). exists id, o'.
        split; [exact Hdoc | lia].
    + intros n n' i j f g Hf Hg E. rewrite Hnew in Hf, Hg.
      destruct (Hlook n i f Hf) as [(-> & -> & ->)|(i' & Hf' & ->)];
        destruct (Hlook n' j g Hg) as [(-> & -> & ->)|(j' & Hg' & ->)].
      * auto.
      * exfalso. symmetry in E. now apply (Hold n' j' g Hg').
      * exfalso. now apply (Hold n i' f Hf').
      * destruct (Hdist n n' i' j' f g Hf' Hg' E) as [-> ->]. auto.
Qed.

(** A message mounts nothing. *)
Lemma on_message_mounted h event_data p n :
  mounted (on_message h event_data p).2 n = mounted p.2 n.
Proof.
  unfold on_message. generalize (seq 0 (length p.1)). intros ks. revert p.
  induction ks as [|k ks IH]; intros p; [reflexivity |]. cbn [foldl].
  rewrite IH.
  destruct (on_object_mounts h k (post event_data) p)
    as [Hsame|(n0 & st & o & c & Hc & Hc' & _)]; [apply Hsame |].
  destruct (on_object_counter h k (post event_data) p k) as (Hk & _).
  assert (Hnone : (on_object h k (post event_data) p).1 = []).
  { unfold on_object. now destruct (p.1 !! k). }
  cbn zeta in *. rewrite Hnone, Hc, Hc' in Hk. cbn in Hk.
  rewrite decide_True in Hk by reflexivity. injection Hk as Hk. lia.
Qed.

(** A step that is not a call appends nothing. *)
Lemma uncalled_step_appends_nothing h op p n :
  (forall k, performed_by k op = false) ->
  appended p (process_step h op p).2 n = [].
Proof.
  intros H. apply appended_same.
  destruct op as [|j o|j o|event_data]; cbn [process_step snd].
  - reflexivity.
  - specialize (H j). cbn in H. now rewrite bool_decide_eq_false in H.
  - specialize (H j). cbn in H. now rewrite bool_decide_eq_false in H.
  - apply on_message_mounted.
Qed.

(** Extra X23.  The iframes one SDK object mounts carry distinct documents.
    In a process that makes any number of SDK objects, over any sequence
    of calls on them and of messages, each iframe appended by a call on
    the object [k] carries the document composed for an identifier that
    [k] allocated, and two such iframes carrying the same document are the
    same iframe (same node, same position among the iframes of [k]).  A
    step that is not a call on an object (a new object, a message) appends
    no iframe.  The iframes of two different objects are outside this
    statement: the page is shared, and they can carry the same document. *)
Theorem own_iframes_carry_distinct_documents ops k :
  let own := mounted_by k ops loaded_process in
  let ids := allocated_by k (process_lifetime ops loaded_process) in
  (forall n f, f ∈ own n ->
     exists id o, srcdoc f = Some (iframeHTML_of id o) /\ id ∈ ids) /\
  (forall n n' i j f g,
     own n !! i = Some f -> own n' !! j = Some g ->
     srcdoc f = srcdoc g -> n = n' /\ i = j) /\
  (forall h op p n,
     (forall j, performed_by j op = false) ->
     appended p (process_step h op p).2 n = []).
Proof.
  intros own ids.
  destruct (mounted_by_distinct k ops loaded_process) as (Hids & Hdist).
  split; [|split; [exact Hdist | intros h op p n; apply uncalled_step_appends_nothing]].
  intros n f Hf. destruct (Hids n f Hf) as (id & o & Hdoc & Hid).
  exists id, o. split; [exact Hdoc |].
  rewrite next_of_loaded in Hid. fold ids in Hid.
  pose proof (process_ids_from_one k ops) as Hall. cbv zeta in Hall.
  fold ids in Hall. rewrite Hall.
  apply list_elem_of_fmap. exists (Z.to_nat id). split; [lia |].
  rewrite list_elem_of_In, in_seq. lia.
Qed.

(** Two SDK objects of one process given the same parameters mount the
    same document twice under the same node. *)
Example two_objects_mount_one_document :
  let o := sample None None None None in
  let p := process_run
             [(browser, new_PagifySDK); (browser, render_on 0 o);
              (browser, render_on 1 o)] loaded_process in
  exists f, mounted p.2 0%nat = [f; f] /\ srcdoc f = Some (iframeHTML_of 1 o).
Proof. eexists. split; vm_compute; reflexivity. Qed.

(** ** The skeleton of the document *)

Lemma holds_nil key : holds key 0 "".
Proof. intros out. exists []. split; reflexivity. Qed.

Section Skeleton.

Variables (key : string) (instanceId : Z)
  (body_html header_html footer_html head_html page_size
   margin_left margin_right header_height footer_height : string)
  (footer_only_on_last_page : bool)
  (page_padding_top pageNumberCSS : string).

Hypothesis key_good : good_key key = true.

Hypothesis plain_free : Forall (holds key 0) plain_text.

Hypothesis fragments_free :
  Forall (holds key 0)
    [pageNumberCSS; page_padding_top; margin_left; margin_right;
     header_height; footer_height; page_size; head_html; header_html;
     footer_html; body_html].

Lemma skeleton_plain t : t ∈ plain_text -> holds key 0 t.
Proof. revert t. apply Forall_forall. exact plain_free. Qed.

Lemma skeleton_fragment t :
  t ∈ [pageNumberCSS; page_padding_top; margin_left; margin_right;
       header_height; footer_height; page_size; head_html; header_html;
       footer_html; body_html] ->
  holds key 0 t.
Proof. revert t. apply Forall_forall. exact fragments_free. Qed.

Ltac free_pieces :=
  repeat lazymatch goal with
  | |- holds key 0 (?a +:+ ?b) =>
      apply (holds_app_free key 0 a b);
      [first [apply skeleton_fragment; listed
             | apply skeleton_plain; unfold plain_text; listed] |]
  | |- holds key 0 ?a =>
      first [apply skeleton_fragment; listed
            | apply skeleton_plain; unfold plain_text; listed
            | apply holds_nil]
  end.

Lemma skeleton_free :
  holds key 0
    (head_part instanceId head_html page_size margin_left margin_right
       header_height footer_height page_padding_top pageNumberCSS) /\
  holds key 0 (body_part body_html header_html footer_html footer_only_on_last_page).
Proof.
  split.
  - unfold head_part. apply holds_app_free.
    + apply scripts_hold; [exact key_good |].
      repeat constructor; apply skeleton_plain; unfold plain_text; listed.
    + free_pieces.
  - unfold body_part, footer_before_body, footer_after_body, footer_region.
    destruct footer_only_on_last_page; rewrite ?append_assoc, ?append_nil;
      free_pieces.
Qed.

End Skeleton.



(** A fragment can close the head and open a body in another spelling and
    still hold none of the three exact texts. *)
Example other_spellings_are_not_counted :
  holds head_close_key 0 "</HEAD><BODY class=x>" /\
  holds body_open_key 0 "</HEAD><BODY class=x>" /\
  holds body_close_key 0 "</HEAD><BODY class=x>".
Proof. repeat split; holds_none. Qed.
